(** * The Aura DB Arrow query runner

    A shallow embedding of
    [graphdatascience/query_runner/aura_db_arrow_query_runner.py]:
    the runner that sits in front of a fallback query runner, asks an Arrow
    Flight client for a bearer token before remote projections and remote
    write-backs, and forwards everything else untouched.

    Python objects that the code mutates (the [params] dictionaries) live
    in an explicit store, so that aliasing between the caller and the
    runner is visible.  The fallback query runner, the Flight client and
    the Neo4j driver are collaborators outside this file: they are
    variables of the sections below, each a transition function on a state
    of its own. *)

From stdpp Require Import gmap strings list fin_maps.
From Stdlib Require Import ZArith Ascii.

Local Open Scope string_scope.
Local Open Scope Z_scope.

(** ** Python strings

    A [string] stands for a Python [str] whose characters are code points
    below 256. *)

Module PyStr.

(** [s.split(sep)] and [s.split(sep, maxsplit)] for a one-character
    separator; [maxsplit = None] is Python's default of no limit. *)
Fixpoint split (sep : ascii) (maxsplit : option nat) (s : string) : list string :=
  match maxsplit with
  | Some O => [s]
  | _ =>
      match s with
      | EmptyString => [EmptyString]
      | String c rest =>
          if Ascii.eqb c sep
          then EmptyString :: split sep (Nat.pred <$> maxsplit) rest
          else match split sep maxsplit rest with
               | piece :: pieces => String c piece :: pieces
               | [] => [String c EmptyString]
               end
      end
  end.

(** [s.count(sep)]: how often the character occurs. *)
Fixpoint count (sep : ascii) (s : string) : nat :=
  match s with
  | EmptyString => O
  | String c rest => ((if Ascii.eqb c sep then 1 else 0) + count sep rest)%nat
  end.

(** [s.endswith(suffix)] *)
Definition endswith (s suffix : string) : bool :=
  let n := String.length s in
  let k := String.length suffix in
  (k <=? n)%nat && String.eqb (String.substring (n - k) k s) suffix.

(** The characters that [int] skips around a literal: tab to carriage
    return and the space, and, of the code points from 128 on, the two
    blanks U+0085 and U+00A0, which [int] reads as a space.  The
    separators U+001C to U+001F are blanks for [str.strip] but not for
    [int]. *)
Definition int_space (c : ascii) : bool :=
  let n := nat_of_ascii c in
  ((9 <=? n) && (n <=? 13) || (n =? 32) || (n =? 133) || (n =? 160))%nat.

Definition isdigit (c : ascii) : bool :=
  let n := nat_of_ascii c in ((48 <=? n) && (n <=? 57))%nat.

Definition digit (c : ascii) : Z := Z.of_nat (nat_of_ascii c - 48).

Fixpoint lstrip (l : list ascii) : list ascii :=
  match l with
  | c :: l' => if int_space c then lstrip l' else l
  | [] => []
  end.

Definition strip (l : list ascii) : list ascii :=
  rev (lstrip (rev (lstrip l))).

(** The digits of a decimal literal; a single underscore may separate
    two digits.  [after_digit] says whether the previous character was a
    digit. *)
Fixpoint digits (acc : Z) (after_digit : bool) (l : list ascii) : option Z :=
  match l with
  | [] => if after_digit then Some acc else None
  | c :: l' =>
      if isdigit c then digits (10 * acc + digit c) true l'
      else if Ascii.eqb c "_" then
             if after_digit then digits acc false l' else None
           else None
  end.

(** [sys.get_int_max_str_digits()], as the interpreter starts. *)
Definition max_str_digits : nat := 4300.

(** [int(s)]: blanks around, an optional sign, decimal digits with
    single underscores between them, no more digits than
    [max_str_digits].  Below code point 256 the decimal digits are "0" to
    "9".  [None] stands for the ValueError of an invalid literal. *)
Definition int (s : string) : option Z :=
  let l := String.list_ascii_of_string s in
  if (max_str_digits <? List.length (List.filter isdigit l))%nat then None
  else
    match strip l with
    | c :: l =>
        if Ascii.eqb c "-" then Z.opp <$> digits 0 false l
        else if Ascii.eqb c "+" then digits 0 false l
        else digits 0 false (c :: l)
    | [] => None
    end.

End PyStr.

(** ** Python values and the store *)

Definition loc := positive.

(** The values that travel through the runner.  A dictionary is a
    reference into the store: two values [VDict l] with the same [l] are
    the same Python object. *)
#[warnings="-register-all"]
Inductive value :=
| VNone
| VBool (b : bool)
| VInt (n : Z)
| VStr (s : string)
| VList (vs : list value)
| VDict (l : loc).

Abbreviation dict := (gmap string value).
Abbreviation store := (gmap loc (gmap string value)).

(** Truth value of an object, as [if x] and [not x] compute it. *)
Definition truthy (σ : store) (v : value) : bool :=
  match v with
  | VNone => false
  | VBool b => b
  | VInt n => negb (n =? 0)
  | VStr s => negb (String.eqb s "")
  | VList vs => match vs with [] => false | _ => true end
  | VDict l => match σ !! l with Some d => negb (bool_decide (d = ∅)) | None => false end
  end.

Inductive exn :=
| KeyError (key : string)
| ValueError (msg : string)
| TypeError (msg : string)
| AttributeError (msg : string)
| IndexError (msg : string)
| RuntimeError (msg : string)
| ConnectionError (msg : string)
| Raised (what : string).

(** [a, b = pieces] *)
Definition unpack2 (pieces : list string) : exn + (string * string) :=
  match pieces with
  | [a; b] => inr (a, b)
  | [] | [_] => inl (ValueError "not enough values to unpack (expected 2, got 1)")
  | _ => inl (ValueError "too many values to unpack (expected 2)")
  end.

Definition contents (σ : store) (l : loc) : dict := default ∅ (σ !! l).

(** ** Response headers and the intercepting middleware *)

(** An element of a header list: a [str], a [bytes] object, or an
    object that has no [split].  Of an element that is no [str] the code
    takes [str(...)], which is what [IBytes] and [IOther] carry. *)
Inductive item :=
| IStr (s : string)
| IBytes (str : string)
| IOther (str : string).

(** A header as [received_headers] tells them apart: a [str], a list, or
    anything else ([None] of a missing header included). *)
Inductive header :=
| HStr (s : string)
| HList (items : list item)
| HOther.

Abbreviation headers := (gmap string header).

(** [headers.get(name)] *)
Definition headers_get (hs : headers) (name : string) : header :=
  default HOther (hs !! name).

(** The middleware object: its two attributes, unset until a response
    has been seen ([__init__] assigns neither). *)
Record AuthPairInterceptingMiddleware := Middleware {
  _token : option string;
  _arrow_address : option string
}.

Definition fresh_middleware : AuthPairInterceptingMiddleware :=
  {| _token := None; _arrow_address := None |}.

Definition incompatible_header : exn :=
  ValueError "Incompatible header format '{}'".

(** [x.split(" ", 1)] followed by the unpacking into two names, for [x]
    the element picked from the header. *)
Definition split_auth (x : item) : exn + (string * string) :=
  match x with
  | IStr s => unpack2 (PyStr.split " " (Some 1%nat) s)
  | IBytes _ => inl (TypeError "a bytes-like object is required, not 'str'")
  | IOther _ => inl (AttributeError "object has no attribute 'split'")
  end.

Definition _read_auth_header (auth_header : header) : exn + (string * string) :=
  match auth_header with
  | HList items =>
      match items with
      | x :: _ => split_auth x
      | [] => inl (IndexError "list index out of range")
      end
  | HStr s => split_auth (IStr s)
  | HOther => inl incompatible_header
  end.

Definition item_str (x : item) : string :=
  match x with IStr s => s | IBytes r | IOther r => r end.

Definition _read_address_header (address_header : header) : exn + string :=
  match address_header with
  | HList items =>
      match items with
      | x :: _ => inr (item_str x)
      | [] => inl (IndexError "list index out of range")
      end
  | HStr s => inr s
  | HOther => inl incompatible_header
  end.

(** [received_headers]: the token is assigned before the address header
    is read, so it stays assigned when the address header is refused. *)
Definition received_headers (hs : headers) (self : AuthPairInterceptingMiddleware)
  : (exn + unit) * AuthPairInterceptingMiddleware :=
  match _read_auth_header (headers_get hs "authorization") with
  | inl e => (inl e, self)
  | inr (auth_type, token) =>
      let self1 :=
        if String.eqb auth_type "Bearer"
        then {| _token := Some token; _arrow_address := _arrow_address self |}
        else self in
      match _read_address_header (headers_get hs "arrowpluginaddress") with
      | inl e => (inl e, self1)
      | inr address => (inr tt, {| _token := _token self1; _arrow_address := Some address |})
      end
  end.

Definition sending_headers (self : AuthPairInterceptingMiddleware) : gmap string string := ∅.

(** Reading an attribute that was never assigned raises AttributeError. *)
Definition token (self : AuthPairInterceptingMiddleware) : exn + string :=
  match _token self with
  | Some t => inr t
  | None => inl (AttributeError "_token")
  end.

Definition endpoint (self : AuthPairInterceptingMiddleware) : exn + string :=
  match _arrow_address self with
  | Some a => inr a
  | None => inl (AttributeError "_arrow_address")
  end.

(** The text that [_read_auth_header] goes on to split: the header itself
    when it is a [str], the first element when it is a list. *)
Definition auth_text (auth_header : header) : option string :=
  match auth_header with
  | HStr s => Some s
  | HList (IStr s :: _) => Some s
  | _ => None
  end.

(** A response whose authorization header is ["Bearer " + t]. *)
Definition carries_bearer (hs : headers) (t : string) : Prop :=
  auth_text (headers_get hs "authorization") = Some ("Bearer " +:+ t).

(** A response whose address header reads [a]. *)
Definition carries_address (hs : headers) (a : string) : Prop :=
  _read_address_header (headers_get hs "arrowpluginaddress") = inr a.

(** The middleware holds the token [t] and the address [a] once it has
    read the response [hs]. *)
Definition holds_after (hs : headers) (self : AuthPairInterceptingMiddleware)
    (t a : string) : Prop :=
  snd (received_headers hs self) = {| _token := Some t; _arrow_address := Some a |}.

(** ** Data frames *)

Record DataFrame := Frame {
  df_columns : list string;
  df_rows : list (list value)
}.

(** The index of a Series that [squeeze] returns: the column names when
    a single row was squeezed, the row numbers when a single column was. *)
Inductive index :=
| Labels (names : list string)
| RangeIndex.

(** What [DataFrame.squeeze()] gives: every axis of length one is dropped. *)
Inductive squeezed :=
| SqScalar (v : value)
| SqSeries (labels : index) (vs : list value)
| SqFrame (df : DataFrame).

Definition squeeze (df : DataFrame) : squeezed :=
  match df_columns df, df_rows df with
  | [_], [[v]] => SqScalar v
  | [_], rows => SqSeries RangeIndex (List.concat rows)
  | columns, [row] => SqSeries (Labels columns) row
  | _, _ => SqFrame df
  end.

(** The result of [x == "remote"]: a [bool] for a scalar, an element-wise
    array for a Series or a DataFrame. *)
Inductive comparison :=
| CmpBool (b : bool)
| CmpArray.

Definition eq_str (x : squeezed) (s : string) : comparison :=
  match x with
  | SqScalar (VStr s') => CmpBool (String.eqb s' s)
  | SqScalar _ => CmpBool false
  | SqSeries _ _ | SqFrame _ => CmpArray
  end.

(** [bool(x)] of such a result: pandas refuses to give an array a truth
    value. *)
Definition truth (c : comparison) : exn + bool :=
  match c with
  | CmpBool b => inr b
  | CmpArray => inl (ValueError "The truth value of a Series is ambiguous")
  end.

(** The entries of a Series under the label [name]. *)
Fixpoint entries (names : list string) (vs : list value) (name : string) : list value :=
  match names, vs with
  | n :: names', v :: vs' =>
      if String.eqb n name then v :: entries names' vs' name
      else entries names' vs' name
  | _, _ => []
  end.

(** What [x.get(name)] returns: an object, or a Series when the label
    names several entries or a whole column. *)
Inductive got :=
| Got (v : value)
| GotSeries.

(** [x.get(name)] for [x] the squeezed answer: [Series.get] and
    [DataFrame.get] return [None] for a label they do not have, a
    dictionary has its own [get], and any other bare value has none. *)
Definition get (σ : store) (x : squeezed) (name : string) : exn + got :=
  match x with
  | SqScalar (VDict l) => inr (Got (default VNone (contents σ l !! name)))
  | SqScalar _ => inl (AttributeError "object has no attribute 'get'")
  | SqSeries (Labels names) vs =>
      inr (match entries names vs name with
           | [] => Got VNone
           | [v] => Got v
           | _ => GotSeries
           end)
  | SqSeries RangeIndex _ => inr (Got VNone)
  | SqFrame df =>
      inr (if bool_decide (name ∈ df_columns df) then GotSeries else Got VNone)
  end.

(** [not x] for what [get] returned. *)
Definition not_ (σ : store) (x : got) : exn + bool :=
  match x with
  | Got v => inr (negb (truthy σ v))
  | GotSeries => inl (ValueError "The truth value of a Series is ambiguous")
  end.

(** ** The runner and its collaborators *)

Record AuraDbConnectionInfo := ConnectionInfo {
  uri : string;
  auth : string * string
}.

(** The attributes of the runner that [__init__] fixes for good.  The
    fallback query runner, the Flight client and the middleware change
    with every call and are kept in the world below. *)
Record AuraDbArrowQueryRunner := Runner {
  _auth : string * string;
  _encrypted : bool
}.

Definition GDS_REMOTE_PROJECTION_PROC_NAME : string := "gds.graph.project.remoteDb".

Section Runner.

(** [EndpointType] is declared in [query_runner.py]; the runner only
    passes it on. *)
Context {EndpointType : Type}.
(** The state of the fallback query runner, that of the Flight client
    together with the server it talks to, and the [flight.Location]
    objects. *)
Context {D F L : Type}.

(** The builtin [int] on a [str]: the number it returns, or [None] where
    it raises ValueError. *)
Variable int : string → option Z.

Definition py_int (s : string) : exn + Z :=
  match int s with
  | Some n => inr n
  | None => inl (ValueError "invalid literal for int() with base 10")
  end.

(** The arguments of [call_endpoint]. *)
Record call := Call {
  c_type : EndpointType;
  c_endpoint : string;
  c_yields : option (list string);
  c_body : option string;
  c_params : option loc;
  c_database : option string;
  c_custom_error : bool
}.

Definition with_params (c : call) (p : loc) : call :=
  {| c_type := c_type c; c_endpoint := c_endpoint c; c_yields := c_yields c;
     c_body := c_body c; c_params := Some p; c_database := c_database c;
     c_custom_error := c_custom_error c |}.

(** The keyword arguments that [is_remote_projected_graph] gives to
    [call_procedure]. *)
Record procedure_call := ProcedureCall {
  p_endpoint : string;
  p_body : option string;
  p_yields : option (list string);
  p_params : option loc
}.

(** The fallback query runner: it reads the store (the dictionaries it
    is handed) and moves to a new state of its own. *)
Variable fallback_call_endpoint : call → store → D → (exn + DataFrame) * D.
Variable fallback_call_procedure : procedure_call → store → D → (exn + DataFrame) * D.
Variable fallback_close : D → (exn + unit) * D.

(** The Flight client.  A handshake either fails or brings back the
    response headers, which the client hands to the middleware before
    [authenticate_basic_token] returns. *)
Variable authenticate_basic_token : string → string → F → (exn + headers) * F.
Variable client_close : F → (exn + unit) * F.

(** What the runner did to its collaborators, oldest first. *)
Inductive event :=
| Handshake (user password : string)
| Lookup (pc : procedure_call) (σ : store)
| Forward (c : call) (σ : store)
| ClientClose
| FallbackClose.

Record world := World {
  heap : store;
  middleware : AuthPairInterceptingMiddleware;
  fallback : D;
  client : F;
  trace : list event
}.

Definition set_heap (σ : store) (w : world) : world :=
  {| heap := σ; middleware := middleware w; fallback := fallback w;
     client := client w; trace := trace w |}.
Definition set_middleware (m : AuthPairInterceptingMiddleware) (w : world) : world :=
  {| heap := heap w; middleware := m; fallback := fallback w;
     client := client w; trace := trace w |}.
Definition set_fallback (d : D) (w : world) : world :=
  {| heap := heap w; middleware := middleware w; fallback := d;
     client := client w; trace := trace w |}.
Definition set_client (f : F) (w : world) : world :=
  {| heap := heap w; middleware := middleware w; fallback := fallback w;
     client := f; trace := trace w |}.
Definition log (e : event) (w : world) : world :=
  {| heap := heap w; middleware := middleware w; fallback := fallback w;
     client := client w; trace := trace w ++ [e] |}.

(** *** Statements that may raise and that change the world *)

Definition M (A : Type) : Type := world → (exn + A) * world.

Definition ret {A} (a : A) : M A := λ w, (inr a, w).
Definition raise {A} (e : exn) : M A := λ w, (inl e, w).
Definition bind {A B} (m : M A) (k : A → M B) : M B :=
  λ w, match m w with
       | (inr a, w') => k a w'
       | (inl e, w') => (inl e, w')
       end.
Definition lift {A} (r : exn + A) : M A :=
  match r with inr a => ret a | inl e => raise e end.

#[local] Notation "'let*' x := m 'in' k" := (bind m (λ x, k))
  (at level 10, x name, m at level 100, k at level 200).
#[local] Notation "'let*' ' p := m 'in' k" := (bind m (λ x, let p := x in k))
  (at level 10, p pattern, m at level 100, k at level 200).
#[local] Notation "m >> k" := (bind m (λ _, k))
  (at level 100, k at level 200, right associativity).

(** A dictionary display [{...}]: a new object. *)
Definition new_dict (d : dict) : M loc :=
  λ w, let l := fresh (dom (heap w)) in (inr l, set_heap (<[l := d]> (heap w)) w).

(** [d[key]] *)
Definition getitem (l : loc) (key : string) : M value :=
  λ w, match contents (heap w) l !! key with
       | Some v => (inr v, w)
       | None => (inl (KeyError key), w)
       end.

(** [d[key] = v] *)
Definition setitem (l : loc) (key : string) (v : value) : M unit :=
  λ w, (inr tt, set_heap (<[l := <[key := v]> (contents (heap w) l)]> (heap w)) w).

(** [x[key] = v] for an object [x] that need not be a dictionary. *)
Definition setitem_value (x : value) (key : string) (v : value) : M unit :=
  match x with
  | VDict l => setitem l key v
  | VList _ => raise (TypeError "list indices must be integers or slices, not str")
  | _ => raise (TypeError "object does not support item assignment")
  end.

(** [self._client.authenticate_basic_token(user, password)]: the
    handshake, then [received_headers] on the response.  pyarrow logs an
    exception that the middleware raises while it reads the headers and
    drops it: the call returns, and the middleware keeps what it had
    assigned until then. *)
Definition client_authenticate (user password : string) : M unit :=
  λ w, let w := log (Handshake user password) w in
       match authenticate_basic_token user password (client w) with
       | (inl e, f) => (inl e, set_client f w)
       | (inr hs, f) =>
           let '(_, m) := received_headers hs (middleware w) in
           (inr tt, set_middleware m (set_client f w))
       end.

Definition fallback_procedure (pc : procedure_call) : M DataFrame :=
  λ w, let w := log (Lookup pc (heap w)) w in
       let '(r, d) := fallback_call_procedure pc (heap w) (fallback w) in
       (r, set_fallback d w).

Definition fallback_endpoint (c : call) : M DataFrame :=
  λ w, let w := log (Forward c (heap w)) w in
       let '(r, d) := fallback_call_endpoint c (heap w) (fallback w) in
       (r, set_fallback d w).

(** *** The methods of [AuraDbArrowQueryRunner] *)

(** The dictionary displays of the source. *)
Definition graph_name_params (graph_name : value) : dict :=
  {[ "graph_name" := graph_name ]}.

Definition encryption_config (encrypted : bool) : dict :=
  {[ "useEncryption" := VBool encrypted ]}.

Definition arrow_connection_info (host : string) (port : Z) (token : string)
    (encrypted : bool) : dict :=
  {[ "hostname" := VStr host; "port" := VInt port; "bearerToken" := VStr token;
     "useEncryption" := VBool encrypted ]}.

(** The keyword arguments of the [gds.graph.list] call. *)
Definition graph_list (params : loc) : procedure_call :=
  {| p_endpoint := "gds.graph.list"; p_body := Some "$graph_name";
     p_yields := Some ["databaseLocation"]; p_params := Some params |}.

(** [if params is None: params = {}] *)
Definition given_params (params : option loc) : M loc :=
  match params with
  | None => new_dict ∅
  | Some p => ret p
  end.

Definition _get_or_request_auth_pair (self : AuraDbArrowQueryRunner) : M (string * string) :=
  client_authenticate (fst (_auth self)) (snd (_auth self)) >>
  let* t := (λ w, lift (token (middleware w)) w) in
  let* a := (λ w, lift (endpoint (middleware w)) w) in
  ret (t, a).

Definition is_remote_projected_graph (self : AuraDbArrowQueryRunner) (graph_name : value)
  : M comparison :=
  let* p := new_dict (graph_name_params graph_name) in
  let* database_location := fallback_procedure (graph_list p) in
  ret (eq_str (squeeze database_location) "remote").

Definition call_endpoint (self : AuraDbArrowQueryRunner) (c : call) : M DataFrame :=
  let* params := given_params (c_params c) in
  (if String.eqb GDS_REMOTE_PROJECTION_PROC_NAME (c_endpoint c) then
     let* ' (token, aura_db_arrow_endpoint) := _get_or_request_auth_pair self in
     setitem params "token" (VStr token) >>
     setitem params "host" (VStr aura_db_arrow_endpoint) >>
     let* config := new_dict (encryption_config (_encrypted self)) in
     setitem params "config" (VDict config)
   else
     let* remote :=
       (if PyStr.endswith (c_endpoint c) ".write" then
          let* graph_name := getitem params "graph_name" in
          let* answer := is_remote_projected_graph self graph_name in
          lift (truth answer)
        else ret false) in
     if remote : bool then
       let* ' (token, aura_db_arrow_endpoint) := _get_or_request_auth_pair self in
       let* ' (host, port_string) :=
         lift (unpack2 (PyStr.split ":" None aura_db_arrow_endpoint)) in
       let* port := lift (py_int port_string) in
       let* info := new_dict (arrow_connection_info host port token (_encrypted self)) in
       let* config := getitem params "config" in
       setitem_value config "arrowConnectionInfo" (VDict info)
     else ret tt) >>
  fallback_endpoint (with_params c params).

Definition close (self : AuraDbArrowQueryRunner) : M unit :=
  (λ w, let '(r, f) := client_close (client w) in (r, set_client f (log ClientClose w))) >>
  (λ w, let '(r, d) := fallback_close (fallback w) in (r, set_fallback d (log FallbackClose w))).

(** *** Observing a run *)

Definition is_handshake (e : event) : bool :=
  match e with Handshake _ _ => true | _ => false end.
Definition is_lookup (e : event) : bool :=
  match e with Lookup _ _ => true | _ => false end.
Definition is_forward (e : event) : bool :=
  match e with Forward _ _ => true | _ => false end.

Definition tally (p : event → bool) (t : list event) : nat :=
  length (List.filter p t).

Definition handshakes (t : list event) : nat := tally is_handshake t.
Definition lookups (t : list event) : nat := tally is_lookup t.
Definition forwards (t : list event) : nat := tally is_forward t.

(** A statement that leaves the number of [p]-events as it is, and one
    that adds exactly one, whether it returns or raises. *)
Definition quiet {A} (p : event → bool) (m : M A) : Prop :=
  ∀ w, tally p (trace (snd (m w))) = tally p (trace w).

Definition once {A} (p : event → bool) (m : M A) : Prop :=
  ∀ w, tally p (trace (snd (m w))) = S (tally p (trace w)).

(** The first steps of [call_endpoint] on their own: which branch the
    call takes.  [true] stands for the two branches that ask for a
    token. *)
Definition classify (self : AuraDbArrowQueryRunner) (c : call) : M bool :=
  let* params := given_params (c_params c) in
  if String.eqb GDS_REMOTE_PROJECTION_PROC_NAME (c_endpoint c) then ret true
  else if PyStr.endswith (c_endpoint c) ".write" then
         let* graph_name := getitem params "graph_name" in
         let* answer := is_remote_projected_graph self graph_name in
         lift (truth answer)
       else ret false.

Definition privileged (self : AuraDbArrowQueryRunner) (c : call) (w : world) : bool :=
  match classify self c w with
  | (inr b, _) => b
  | (inl _, _) => false
  end.

(** A caller that issues one call after the other, whatever each of
    them returns or raises. *)
Fixpoint run (self : AuraDbArrowQueryRunner) (cs : list call) (w : world) : world :=
  match cs with
  | [] => w
  | c :: cs' => run self cs' (snd (call_endpoint self c w))
  end.

Fixpoint privileged_calls (self : AuraDbArrowQueryRunner) (cs : list call) (w : world)
  : nat :=
  match cs with
  | [] => O
  | c :: cs' =>
      ((if privileged self c w then 1 else 0)
       + privileged_calls self cs' (snd (call_endpoint self c w)))%nat
  end.

(** The token that a forwarded call carries: under [token] for the
    remote projection, under [config.arrowConnectionInfo.bearerToken]
    for a write. *)
Definition dict_at (σ : store) (v : option value) : dict :=
  match v with
  | Some (VDict l) => contents σ l
  | _ => ∅
  end.

Definition injected_token (σ : store) (c : call) : option value :=
  let params := dict_at σ (VDict <$> c_params c) in
  if String.eqb GDS_REMOTE_PROJECTION_PROC_NAME (c_endpoint c)
  then params !! "token"
  else dict_at σ (dict_at σ (params !! "config") !! "arrowConnectionInfo") !! "bearerToken".

(** The tokens of the calls that were forwarded, oldest first. *)
Definition forwarded_tokens (t : list event) : list (option value) :=
  flat_map (λ e, match e with
                 | Forward c σ => [injected_token σ c]
                 | _ => []
                 end) t.

(** The two branches of [call_endpoint] after the handshake, and the
    write branch as a whole, named on their own. *)
Definition inject_projection (self : AuraDbArrowQueryRunner) (params : loc)
    (token aura_db_arrow_endpoint : string) : M unit :=
  setitem params "token" (VStr token) >>
  setitem params "host" (VStr aura_db_arrow_endpoint) >>
  let* config := new_dict (encryption_config (_encrypted self)) in
  setitem params "config" (VDict config).

Definition inject_write (self : AuraDbArrowQueryRunner) (params : loc)
    (token aura_db_arrow_endpoint : string) : M unit :=
  let* ' (host, port_string) :=
    lift (unpack2 (PyStr.split ":" None aura_db_arrow_endpoint)) in
  let* port := lift (py_int port_string) in
  let* info := new_dict (arrow_connection_info host port token (_encrypted self)) in
  let* config := getitem params "config" in
  setitem_value config "arrowConnectionInfo" (VDict info).

Definition write_branch (self : AuraDbArrowQueryRunner) (params : loc) (remote : bool)
  : M unit :=
  if remote then
    let* ' (token, aura_db_arrow_endpoint) := _get_or_request_auth_pair self in
    inject_write self params token aura_db_arrow_endpoint
  else ret tt.

(** The order in which a call may meet its collaborators: the lookup,
    the handshake, the forwarding.  [ascending n evs] says that the events
    come in that order, each kind at most once, all after rank [n]. *)
Definition rank (e : event) : nat :=
  match e with
  | Lookup _ _ => 1
  | Handshake _ _ => 2
  | Forward _ _ => 3
  | ClientClose | FallbackClose => 0
  end.

Fixpoint ascending (n : nat) (evs : list event) : bool :=
  match evs with
  | [] => true
  | e :: evs' => (n <? rank e)%nat && ascending (rank e) evs'
  end.

(** A statement that records no event at all. *)
Definition silent {A} (m : M A) : Prop :=
  ∀ w, trace (snd (m w)) = trace w.

(** The world right after a handshake that brought back the token [t]
    and the address [a]. *)
Definition after_handshake (self : AuraDbArrowQueryRunner) (t a : string) (f : F)
    (w : world) : world :=
  set_middleware {| _token := Some t; _arrow_address := Some a |}
    (set_client f (log (Handshake (fst (_auth self)) (snd (_auth self))) w)).

(** The store after the three assignments of the projection branch. *)
Definition projected (σ : store) (p : loc) (t a : string) (encrypted : bool) : store :=
  let σ1 := <[p := <["token" := VStr t]> (contents σ p)]> σ in
  let σ2 := <[p := <["host" := VStr a]> (contents σ1 p)]> σ1 in
  let config := fresh (dom σ2) in
  let σ3 := <[config := encryption_config encrypted]> σ2 in
  <[p := <["config" := VDict config]> (contents σ3 p)]> σ3.

(** The store after the assignment of the write branch, [config] being
    the dictionary found under [params["config"]]. *)
Definition written (σ : store) (config : loc) (host : string) (port : Z) (t : string)
    (encrypted : bool) : store :=
  let info := fresh (dom σ) in
  let σ1 := <[info := arrow_connection_info host port t encrypted]> σ in
  <[config := <["arrowConnectionInfo" := VDict info]> (contents σ1 config)]> σ1.

(** The world in which [is_remote_projected_graph] has asked about
    [graph_name] and the fallback has moved to [d]. *)
Definition looked_up (graph_name : value) (d : D) (w : world) : world :=
  let l := fresh (dom (heap w)) in
  let σ := <[l := graph_name_params graph_name]> (heap w) in
  set_fallback d (log (Lookup (graph_list l) σ) (set_heap σ w)).

(** *** Construction *)

(** The driver that [__init__] opens on the Aura DB endpoint: what
    opening it and calling [internal.arrow.status] gives, the frame or the
    exception of either, and whether the connection is encrypted. *)
Record Driver := {
  arrow_status : exn + DataFrame;
  encrypted : bool
}.

(** [flight.Location.for_grpc_tls(host, port)] and
    [flight.Location.for_grpc_tcp(host, port)], which refuse what they
    cannot make a location of, and
    [flight.FlightClient(location, **client_options)]. *)
Variable for_grpc_tls for_grpc_tcp : string → Z → exn + L.
Variable FlightClient : L → exn + F.

Definition not_running (aura_db_endpoint : string) : exn :=
  RuntimeError ("The Arrow Server is not running at `" +:+ aura_db_endpoint +:+ "`").

Definition no_connection_info : exn :=
  ConnectionError "Did not retrieve connection info from database".

(** [listen_address.split(":")] and the unpacking into [host] and
    [port_string]. *)
Definition split_address (listen_address : got) : exn + (string * string) :=
  match listen_address with
  | Got (VStr s) => unpack2 (PyStr.split ":" None s)
  | _ => inl (AttributeError "object has no attribute 'split'")
  end.

(** The runner and the world that a successful [__init__] returns. *)
Definition constructed (fallback_query_runner : D) (info : AuraDbConnectionInfo)
    (driver : Driver) (σ : store) (f : F) : AuraDbArrowQueryRunner * world :=
  ({| _auth := auth info; _encrypted := encrypted driver |},
   {| heap := σ; middleware := fresh_middleware; fallback := fallback_query_runner;
      client := f; trace := [] |}).

#[local] Notation "'let?' x := r 'in' k" :=
  (match r with inl e => inl e | inr x => k end)
  (at level 10, x name, r at level 100, k at level 200).
#[local] Notation "'let?' ' p := r 'in' k" :=
  (match r with inl e => inl e | inr x => let p := x in k end)
  (at level 10, p pattern, r at level 100, k at level 200).

(** [__init__]: the new runner and the world it starts in, or the
    exception that leaves no runner behind. *)
Definition __init__ (fallback_query_runner : D)
    (aura_db_connection_info : AuraDbConnectionInfo) (driver : Driver) (σ : store)
  : exn + (AuraDbArrowQueryRunner * world) :=
  let aura_db_endpoint := uri aura_db_connection_info in
  let? status := arrow_status driver in
  let arrow_info := squeeze status in
  let? running := get σ arrow_info "running" in
  let? stopped := not_ σ running in
  if stopped : bool then inl (not_running aura_db_endpoint)
  else
    let? listen_address := get σ arrow_info "advertisedListenAddress" in
    let? missing := not_ σ listen_address in
    if missing : bool then inl no_connection_info
    else
      let? ' (host, port_string) := split_address listen_address in
      let? port := py_int port_string in
      let? location :=
        if encrypted driver then for_grpc_tls host port else for_grpc_tcp host port in
      let? f := FlightClient location in
      inr (constructed fallback_query_runner aura_db_connection_info driver σ f).

End Runner.

(** ** The address split as the specification words it *)

(** Cut at the last occurrence of the separator; [None] when there is
    none. *)
Fixpoint split_at_last (sep : ascii) (s : string) : option (string * string) :=
  match s with
  | EmptyString => None
  | String c rest =>
      match split_at_last sep rest with
      | Some (a, b) => Some (String c a, b)
      | None => if Ascii.eqb c sep then Some (EmptyString, rest) else None
      end
  end.

(** ** Scripted collaborators

    A fallback query runner and a Flight client that replay a list of
    prepared answers; the examples below run the runner against them. *)

Module Scripted.

Inductive EndpointType := PROCEDURE | FUNCTION.

(** The answers still to give; an exhausted script answers with an
    empty frame. *)
Definition D := list (exn + DataFrame).

Definition answer (d : D) : (exn + DataFrame) * D :=
  match d with
  | r :: d' => (r, d')
  | [] => (inr {| df_columns := []; df_rows := [] |}, [])
  end.

Record F := Flight {
  responses : list (exn + headers);
  on_close : exn + unit
}.

Definition handshake (user password : string) (f : F) : (exn + headers) * F :=
  match responses f with
  | r :: rs => (r, {| responses := rs; on_close := on_close f |})
  | [] => (inl (Raised "no response"), f)
  end.

Definition world : Type := @world EndpointType D F.

Definition start (σ : store) (d : D) (f : F) : world :=
  {| heap := σ; middleware := fresh_middleware; fallback := d; client := f; trace := [] |}.

Definition call_endpoint (self : AuraDbArrowQueryRunner) (c : @call EndpointType)
  : M (EndpointType := EndpointType) DataFrame :=
  call_endpoint PyStr.int (λ _ _, answer) (λ _ _, answer) handshake self c.

Definition close (self : AuraDbArrowQueryRunner)
  : M (EndpointType := EndpointType) unit :=
  close (D := D) (λ d, (inr tt, d)) (λ f, (on_close f, f)) self.

Definition silent : F := {| responses := []; on_close := inr tt |}.

(** Locations that record what they were made of.  The constructors
    take every host and the ports from 0 to 65535. *)
Inductive Location :=
| grpc_tls (host : string) (port : Z)
| grpc_tcp (host : string) (port : Z).

Definition in_range (port : Z) (location : Location) : exn + Location :=
  if (0 <=? port) && (port <=? 65535) then inr location
  else inl (Raised "ArrowInvalid").

Definition for_grpc_tls (host : string) (port : Z) : exn + Location :=
  in_range port (grpc_tls host port).

Definition for_grpc_tcp (host : string) (port : Z) : exn + Location :=
  in_range port (grpc_tcp host port).

Definition __init__ (info : AuraDbConnectionInfo) (driver : Driver) (σ : store)
  : exn + AuraDbArrowQueryRunner * world :=
  __init__ PyStr.int for_grpc_tls for_grpc_tcp (λ _, inr silent) [] info driver σ.

(** A status answer of one row with the given fields. *)
Definition row (fields : list (string * value)) : DataFrame :=
  {| df_columns := fields.*1; df_rows := [fields.*2] |}.

Definition status (running : bool) (address : option string) : DataFrame :=
  match address with
  | Some a => row [("running", VBool running); ("advertisedListenAddress", VStr a)]
  | None => row [("running", VBool running)]
  end.

Definition self : AuraDbArrowQueryRunner :=
  {| _auth := ("neo4j", "secret"); _encrypted := true |}.

Definition request (endpoint : string) (params : option loc) : @call EndpointType :=
  {| c_type := PROCEDURE; c_endpoint := endpoint; c_yields := None; c_body := None;
     c_params := params; c_database := None; c_custom_error := true |}.

Definition server (rs : list (exn + headers)) : F :=
  {| responses := rs; on_close := inr tt |}.

Definition location_frame (where_ : string) : DataFrame :=
  {| df_columns := ["databaseLocation"]; df_rows := [[VStr where_]] |}.

Definition bearer (token address : string) : headers :=
  {[ "authorization" := HList [IStr ("Bearer " +:+ token)];
     "arrowpluginaddress" := HList [IStr address] ]}.

(** A response with another scheme than Bearer. *)
Definition basic (credential address : string) : headers :=
  {[ "authorization" := HStr ("Basic " +:+ credential);
     "arrowpluginaddress" := HStr address ]}.

(** The caller's dictionaries of the examples: [params] at 1, holding
    the graph name and, under [config], the dictionary at 2. *)
Definition caller_store : store :=
  {[ 1%positive := {[ "graph_name" := VStr "g"; "config" := VDict 2%positive ]};
     2%positive := {[ "foo" := VInt 1 ]} ]}.

Definition bare_store : store :=
  {[ 1%positive := {[ "graph_name" := VStr "g" ]} ]}.

End Scripted.


(** ** The endpoint objects that talk to a query runner

    [SystemEndpoints], the pipeline creation runners and the graph export
    runners keep the name of the procedure they are about to call in
    [_namespace] and extend it in place. *)

Module SystemEndpoints.

(** [gdsclient/system/system_endpoints.py] *)
Record t := Endpoints { _namespace : string }.

Section Methods.

(** [QueryRunner.run_query(query, params)] of the query runner the
    object was built with, on a state [Q] of its own. *)
Context {Q R : Type}.
Variable run_query : string → gmap string value → Q → R * Q.

(** [listProgress]: the result of [run_query], the object and the query
    runner afterwards.  [if job_id] is false of [None] and of the empty
    string. *)
Definition listProgress (job_id : option string) (self : t) (q : Q) : R * t * Q :=
  let namespace := _namespace self +:+ ".listProgress" in
  let request :=
    match job_id with
    | Some j =>
        if negb (String.eqb j "")
        then ("CALL " +:+ namespace +:+ "($job_id)", {[ "job_id" := VStr j ]})
        else ("CALL " +:+ namespace +:+ "()", ∅)
    | None => ("CALL " +:+ namespace +:+ "()", ∅)
    end in
  let '(r, q') := run_query (fst request) (snd request) q in
  (r, {| _namespace := namespace |}, q').

(** One call after the other on the same object. *)
Fixpoint listProgress_all (job_ids : list (option string)) (self : t) (q : Q) : t * Q :=
  match job_ids with
  | [] => (self, q)
  | j :: js => let '(_, self', q') := listProgress j self q in listProgress_all js self' q'
  end.

End Methods.

End SystemEndpoints.

Module PipelineCreateRunner.

(** [NCPipelineCreateRunner], [NRPipelineCreateRunner] and
    [LPPipelineCreateRunner]: the three classes differ in the class of the
    pipeline they return, which is given here by its name. *)
Record t := Runner { _namespace : string }.

Section Methods.

(** [call_procedure(endpoint=..., body=..., params=...)] *)
Context {Q : Type}.
Variable call_procedure : string → string → gmap string value → Q → (exn + DataFrame) * Q.

(** [create]: the namespace is extended before the procedure is called,
    and stays extended when the call raises. *)
Definition create (name : string) (self : t) (q : Q)
  : (exn + (string * squeezed)) * t * Q :=
  let namespace := _namespace self +:+ ".create" in
  let params : gmap string value := {[ "name" := VStr name ]} in
  match call_procedure namespace "$name" params q with
  | (inl e, q') => (inl e, {| _namespace := namespace |}, q')
  | (inr df, q') => (inr (name, squeeze df), {| _namespace := namespace |}, q')
  end.

End Methods.

End PipelineCreateRunner.

Module GraphExport.

(** [graphdatascience/graph/graph_export_runner.py].  A graph is given
    by what [G.name()] returns; [graph_type_check] lets every [Graph]
    pass. *)
Inductive arg :=
| AStr (s : string)
| AMap (config : gmap string value).

(** [GraphExportRunner] and [GraphExportCsvRunner] alike. *)
Record t := Runner { _namespace : string }.

Section Methods.

Context {Q : Type}.
Variable call_procedure : string → string → gmap string arg → Q → (exn + DataFrame) * Q.

Definition _export_call (G : string) (config : gmap string value) (self : t) (q : Q)
  : (exn + squeezed) * Q :=
  let params : gmap string arg := {[ "graph_name" := AStr G; "config" := AMap config ]} in
  match call_procedure (_namespace self) "$graph_name, $config" params q with
  | (inl e, q') => (inl e, q')
  | (inr df, q') => (inr (squeeze df), q')
  end.

(** [__call__] *)
Definition export (G : string) (config : gmap string value) (self : t) (q : Q)
  : (exn + squeezed) * Q :=
  _export_call G config self q.

(** [estimate] of the CSV runner: the result, and the runner afterwards. *)
Definition estimate (G : string) (config : gmap string value) (self : t) (q : Q)
  : (exn + squeezed) * t * Q :=
  let self' := {| _namespace := _namespace self +:+ ".estimate" |} in
  let '(r, q') := _export_call G config self' q in
  (r, self', q').

(** The property [csv]: the CSV runner it returns, and the runner it
    was read from afterwards. *)
Definition csv (self : t) : t * t :=
  let namespace := _namespace self +:+ ".csv" in
  ({| _namespace := namespace |}, {| _namespace := namespace |}).

End Methods.

End GraphExport.

(** ** Worlds for the examples *)

Module Examples.

Import Scripted.

Definition projection (params : option loc) : @call EndpointType :=
  request GDS_REMOTE_PROJECTION_PROC_NAME params.

Definition write (params : option loc) : @call EndpointType :=
  request "gds.pageRank.write" params.

(** The world in which the fallback answers the lookup with [answers]
    and the Flight client answers a handshake with [responses]. *)
Definition world_with (σ : store) (answers : D) (responses : list (exn + headers)) : world :=
  start σ answers (server responses).

(** The caller's [params] of the examples with something else than a
    dictionary under [config]. *)
Definition flat_store : store :=
  {[ 1%positive := {[ "graph_name" := VStr "g"; "config" := VStr "none" ]} ]}.

(** A query runner that only records what it is asked. *)
Definition recorder (query : string) (params : gmap string value)
    (q : list (string * gmap string value)) : unit * list (string * gmap string value) :=
  (tt, (q ++ [(query, params)])%list).

End Examples.
(** ** Facts about the string operations *)

Module PyStrFacts.

Lemma count_app sep a b : PyStr.count sep (a +:+ b) = (PyStr.count sep a + PyStr.count sep b)%nat.
Proof. induction a as [|c a IH]; simpl; [done|]. rewrite IH. lia. Qed.

Lemma split_nonempty sep n s : PyStr.split sep n s ≠ [].
Proof.
  revert n. induction s as [|c s IH]; intros [[|n]|]; simpl; try done;
    destruct (Ascii.eqb c sep); try done.
  - specialize (IH (Some (S n))). by destruct (PyStr.split sep (Some (S n)) s).
  - specialize (IH None). by destruct (PyStr.split sep None s).
Qed.

(** Without a limit there is one piece more than there are separators. *)
Lemma length_split sep s : length (PyStr.split sep None s) = S (PyStr.count sep s).
Proof.
  induction s as [|c s IH]; simpl; [done|].
  destruct (Ascii.eqb c sep); simpl; [by rewrite IH|].
  pose proof (split_nonempty sep None s).
  destruct (PyStr.split sep None s); simpl in *; [done | lia].
Qed.

Lemma split_absent sep n s : PyStr.count sep s = O → PyStr.split sep n s = [s].
Proof.
  revert n. induction s as [|c s IH]; intros n Hc.
  - by destruct n as [[|n]|].
  - simpl in Hc. destruct n as [[|n]|]; simpl; [done| |];
      destruct (Ascii.eqb c sep); try done; rewrite IH; auto.
Qed.

(** The piece before the first separator, and the rest split further. *)
Lemma split_first sep a b :
  PyStr.count sep a = O →
  PyStr.split sep None (a +:+ String sep b) = a :: PyStr.split sep None b.
Proof.
  induction a as [|c a IH]; simpl; intros Hc.
  - by rewrite Ascii.eqb_refl.
  - destruct (Ascii.eqb c sep); [done|]. by rewrite IH.
Qed.

(** With [maxsplit = 1] the string is cut at the first separator only. *)
Lemma split_once sep a b :
  PyStr.count sep a = O →
  PyStr.split sep (Some 1%nat) (a +:+ String sep b) = [a; b].
Proof.
  induction a as [|c a IH]; simpl; intros Hc.
  - rewrite Ascii.eqb_refl. by destruct b.
  - destruct (Ascii.eqb c sep); [done|]. by rewrite IH.
Qed.

(** Exactly one separator: two pieces, cut at it. *)
Lemma split_pair sep a b :
  PyStr.count sep a = O → PyStr.count sep b = O →
  PyStr.split sep None (a +:+ String sep b) = [a; b].
Proof. intros Ha Hb. by rewrite split_first, (split_absent _ _ b). Qed.

Lemma unpack2_length pieces :
  length pieces ≠ 2%nat → ∃ msg, unpack2 pieces = inl (ValueError msg).
Proof. destruct pieces as [|a [|b [|c l]]]; simpl; intros; try done; eauto. Qed.

End PyStrFacts.

(** ** The intercepting middleware *)

Lemma read_auth_header_text a s scheme credential :
  auth_text a = Some s →
  s = scheme +:+ " " +:+ credential →
  PyStr.count " " scheme = O →
  _read_auth_header a = inr (scheme, credential).
Proof.
  intros Ha -> Hc.
  assert (split_auth (IStr (scheme +:+ " " +:+ credential)) = inr (scheme, credential)) as Hs.
  { unfold split_auth. change (" " +:+ credential) with (String " " credential).
    by rewrite PyStrFacts.split_once. }
  destruct a as [s'|[|[s'| |] items]|]; simpl in Ha; try done; by simplify_eq.
Qed.

Lemma received_headers_token hs self scheme credential :
  _read_auth_header (headers_get hs "authorization") = inr (scheme, credential) →
  _token (snd (received_headers hs self)) =
    if String.eqb scheme "Bearer" then Some credential else _token self.
Proof.
  intros H. unfold received_headers. rewrite H.
  destruct (_read_address_header _); by destruct (String.eqb scheme "Bearer").
Qed.

(** A response with a Bearer authorization header and an address header
    fills both attributes, whatever they held before. *)
Lemma received_headers_bearer hs self t a :
  carries_bearer hs t → carries_address hs a →
  received_headers hs self = (inr tt, {| _token := Some t; _arrow_address := Some a |}).
Proof.
  intros Ht Ha. unfold received_headers.
  rewrite (read_auth_header_text _ _ "Bearer" t Ht); [|done..].
  by rewrite Ha.
Qed.

(** C8: the authorization header is taken as a [str] or as the first
    element of a list, cut at its first space into scheme and credential,
    and the credential becomes the token exactly when the scheme is
    "Bearer" (otherwise the token is not assigned); a header that is
    neither a [str] nor a list is refused with ValueError.  A list holding
    "Bearer abc123" gives the token "abc123"; the string "Basic xyz" leaves
    a token that was unset unset. *)
Theorem received_headers_authorization (hs : headers) (self : AuthPairInterceptingMiddleware) :
  (∀ s scheme credential,
     auth_text (headers_get hs "authorization") = Some s →
     s = scheme +:+ " " +:+ credential →
     PyStr.count " " scheme = O →
     _token (snd (received_headers hs self)) =
       if String.eqb scheme "Bearer" then Some credential else _token self)
  ∧ (headers_get hs "authorization" = HOther →
     ∃ msg, received_headers hs self = (inl (ValueError msg), self))
  ∧ (hs !! "authorization" = Some (HList [IStr "Bearer abc123"]) →
     _token (snd (received_headers hs self)) = Some "abc123")
  ∧ (hs !! "authorization" = Some (HStr "Basic xyz") →
     _token self = None →
     _token (snd (received_headers hs self)) = None).
Proof.
  repeat split.
  - intros s scheme credential Ha Hs Hc.
    apply received_headers_token. eauto using read_auth_header_text.
  - intros Ha. unfold received_headers. rewrite Ha. simpl. eauto.
  - intros Ha. rewrite (received_headers_token _ _ "Bearer" "abc123"); [done|].
    unfold headers_get. by rewrite Ha.
  - intros Ha Hnone. rewrite (received_headers_token _ _ "Basic" "xyz"); [done|].
    unfold headers_get. by rewrite Ha.
Qed.

Lemma received_headers_authorization_witness :
  _token (snd (received_headers {[ "authorization" := HList [IStr "Bearer abc123"] ]}
                 fresh_middleware)) = Some "abc123"
  ∧ _token (snd (received_headers {[ "authorization" := HStr "Basic xyz" ]}
                   {| _token := Some "old"; _arrow_address := None |})) = Some "old"
  ∧ ∃ msg, received_headers ∅ fresh_middleware = (inl (ValueError msg), fresh_middleware).
Proof.
  split; [|split].
  - apply (received_headers_authorization
             {[ "authorization" := HList [IStr "Bearer abc123"] ]} fresh_middleware).
    reflexivity.
  - apply (received_headers_authorization
             {[ "authorization" := HStr "Basic xyz" ]}
             {| _token := Some "old"; _arrow_address := None |}
           ) with (s := "Basic xyz") (scheme := "Basic") (credential := "xyz");
      reflexivity.
  - apply (received_headers_authorization ∅ fresh_middleware). reflexivity.
Defined.

(** ** Construction *)

Section Construction.

Context {EndpointType D F L : Type}.
Variable int : string → option Z.
Variable for_grpc_tls for_grpc_tcp : string → Z → exn + L.
Variable FlightClient : L → exn + F.

#[local] Abbreviation init :=
  (__init__ (EndpointType := EndpointType) (D := D) int for_grpc_tls for_grpc_tcp
     FlightClient).

(** A single row of no column or of several is squeezed to a Series that
    is labelled by the column names. *)
Lemma squeeze_row (df : DataFrame) row :
  df_rows df = [row] → length (df_columns df) ≠ 1%nat →
  squeeze df = SqSeries (Labels (df_columns df)) row.
Proof.
  unfold squeeze. intros -> Hlen.
  by destruct (df_columns df) as [|column [|column' columns]].
Qed.

Lemma get_row (σ : store) (df : DataFrame) row name :
  df_rows df = [row] → length (df_columns df) ≠ 1%nat →
  get σ (squeeze df) name =
    inr (match entries (df_columns df) row name with
         | [] => Got VNone
         | [v] => Got v
         | _ => GotSeries
         end).
Proof. intros Hrow Hlen. by rewrite (squeeze_row df row Hrow Hlen). Qed.

Lemma truthy_str σ s : s ≠ "" → truthy σ (VStr s) = true.
Proof. simpl. intros H. by destruct s. Qed.

(** [__init__] from the address on, for a status that is running. *)
Lemma init_running (fallback : D) (info : AuraDbConnectionInfo) (driver : Driver)
    (σ : store) (status : DataFrame) r listen_address :
  arrow_status driver = inr status →
  get σ (squeeze status) "running" = inr (Got r) → truthy σ r = true →
  get σ (squeeze status) "advertisedListenAddress" = inr (Got listen_address) →
  truthy σ listen_address = true →
  init fallback info driver σ =
    match split_address (Got listen_address) with
    | inl e => inl e
    | inr (host, port_string) =>
        match py_int int port_string with
        | inl e => inl e
        | inr port =>
            match (if encrypted driver then for_grpc_tls host port
                   else for_grpc_tcp host port) with
            | inl e => inl e
            | inr location =>
                match FlightClient location with
                | inl e => inl e
                | inr f =>
                    inr (constructed (EndpointType := EndpointType) fallback info driver σ f)
                end
            end
        end
    end.
Proof.
  intros Hs Hr Hrun Ha Haddr. unfold __init__. rewrite Hs, Hr. cbn [not_].
  rewrite Hrun. cbn [negb]. rewrite Ha. cbn [not_]. rewrite Haddr. cbn [negb].
  by destruct (split_address _) as [e|[host port_string]].
Qed.

(** The same, for an address that has one colon. *)
Lemma init_cut (fallback : D) (info : AuraDbConnectionInfo) (driver : Driver)
    (σ : store) (status : DataFrame) r host port_string :
  arrow_status driver = inr status →
  get σ (squeeze status) "running" = inr (Got r) → truthy σ r = true →
  get σ (squeeze status) "advertisedListenAddress"
  = inr (Got (VStr (host +:+ ":" +:+ port_string))) →
  PyStr.count ":" host = O → PyStr.count ":" port_string = O →
  init fallback info driver σ =
    match py_int int port_string with
    | inl e => inl e
    | inr port =>
        match (if encrypted driver then for_grpc_tls host port
               else for_grpc_tcp host port) with
        | inl e => inl e
        | inr location =>
            match FlightClient location with
            | inl e => inl e
            | inr f =>
                inr (constructed (EndpointType := EndpointType) fallback info driver σ f)
            end
        end
    end.
Proof.
  intros Hs Hr Hrun Ha Hh Hp.
  rewrite (init_running fallback info driver σ status r _ Hs Hr Hrun Ha)
    by (apply truthy_str; by destruct host).
  unfold split_address. change (":" +:+ port_string) with (String ":" port_string).
  by rewrite PyStrFacts.split_pair.
Qed.


(** C2, as the code has it: a listen address with exactly one colon is
    cut there into the host and the port text, [int] reads the port, and
    the two go to the constructor of the location on which the Flight
    client is opened; an address with no colon or with several, or with a
    port that [int] refuses, stops [__init__] with ValueError.
    "10.0.0.5:9999" gives the host "10.0.0.5" and the port 9999. *)
Theorem init_splits_address (fallback : D) (info : AuraDbConnectionInfo)
    (driver : Driver) (σ : store) (status : DataFrame) (r : value) (s : string) :
  arrow_status driver = inr status →
  get σ (squeeze status) "running" = inr (Got r) → truthy σ r = true →
  get σ (squeeze status) "advertisedListenAddress" = inr (Got (VStr s)) →
  (∀ host port_string port location f,
     s = host +:+ ":" +:+ port_string →
     PyStr.count ":" host = O → PyStr.count ":" port_string = O →
     int port_string = Some port →
     (if encrypted driver then for_grpc_tls host port else for_grpc_tcp host port)
     = inr location →
     FlightClient location = inr f →
     init fallback info driver σ
     = inr (constructed (EndpointType := EndpointType) fallback info driver σ f))
  ∧ (s ≠ "" → PyStr.count ":" s ≠ 1%nat →
     ∃ msg, init fallback info driver σ = inl (ValueError msg))
  ∧ (∀ host port_string,
       s = host +:+ ":" +:+ port_string →
       PyStr.count ":" host = O → PyStr.count ":" port_string = O →
       int port_string = None →
       ∃ msg, init fallback info driver σ = inl (ValueError msg))
  ∧ (∀ location f,
       s = "10.0.0.5:9999" → int "9999" = Some 9999 →
       (if encrypted driver then for_grpc_tls "10.0.0.5" 9999
        else for_grpc_tcp "10.0.0.5" 9999) = inr location →
       FlightClient location = inr f →
       init fallback info driver σ
       = inr (constructed (EndpointType := EndpointType) fallback info driver σ f)).
Proof.
  intros Hs Hr Hrun Ha.
  assert (∀ host port_string port location f,
            s = host +:+ ":" +:+ port_string →
            PyStr.count ":" host = O → PyStr.count ":" port_string = O →
            int port_string = Some port →
            (if encrypted driver then for_grpc_tls host port else for_grpc_tcp host port)
            = inr location →
            FlightClient location = inr f →
            init fallback info driver σ
            = inr (constructed (EndpointType := EndpointType) fallback info driver σ f))
    as Hgood.
  { intros host port_string port location f -> Hh Hp Hint Hl Hf.
    rewrite (init_cut fallback info driver σ status r host port_string) by done.
    unfold py_int. rewrite Hint. cbv beta iota. rewrite Hl. by rewrite Hf. }
  split; [done|]. split; [|split].
  - intros Hne Hcount.
    rewrite (init_running fallback info driver σ status r _ Hs Hr Hrun Ha)
      by (by apply truthy_str).
    unfold split_address.
    destruct (PyStrFacts.unpack2_length (PyStr.split ":" None s)) as [msg Hmsg].
    { rewrite PyStrFacts.length_split. lia. }
    rewrite Hmsg. eauto.
  - intros host port_string -> Hh Hp Hint.
    rewrite (init_cut fallback info driver σ status r host port_string) by done.
    unfold py_int. rewrite Hint. eauto.
  - intros location f Heq Hint Hl Hf.
    by apply (Hgood "10.0.0.5" "9999" 9999 location f).
Qed.

End Construction.



Lemma init_splits_address_witness :
  __init__ (EndpointType := Scripted.EndpointType) PyStr.int
    Scripted.for_grpc_tls Scripted.for_grpc_tcp (λ location, inr location) ([] : Scripted.D)
    {| uri := "neo4j+s://db"; auth := ("neo4j", "secret") |}
    {| arrow_status := inr (Scripted.status true (Some "10.0.0.5:9999")); encrypted := true |} ∅
  = inr ({| _auth := ("neo4j", "secret"); _encrypted := true |},
         {| heap := ∅; middleware := fresh_middleware; fallback := [];
            client := Scripted.grpc_tls "10.0.0.5" 9999; trace := [] |}).
Proof.
  refine (proj2 (proj2 (proj2
            (init_splits_address (EndpointType := Scripted.EndpointType) PyStr.int
               Scripted.for_grpc_tls Scripted.for_grpc_tcp (λ location, inr location)
               ([] : Scripted.D)
               {| uri := "neo4j+s://db"; auth := ("neo4j", "secret") |}
               {| arrow_status := inr (Scripted.status true (Some "10.0.0.5:9999"));
                  encrypted := true |} ∅ _ (VBool true) "10.0.0.5:9999"
               eq_refl eq_refl eq_refl eq_refl)))
            (Scripted.grpc_tls "10.0.0.5" 9999) _ eq_refl _ _ eq_refl);
    reflexivity.
Defined.

(** Against C2 as stated: cutting "[::1]:8491" at its last colon would
    give the host "[::1]" and the port 8491, but [__init__] cuts at every
    colon and stops with ValueError. *)
Lemma init_last_colon_counterexample :
  split_at_last ":" "[::1]:8491" = Some ("[::1]", "8491")
  ∧ PyStr.int "8491" = Some 8491
  ∧ Scripted.__init__ {| uri := "neo4j+s://db"; auth := ("neo4j", "secret") |}
      {| arrow_status := inr (Scripted.status true (Some "[::1]:8491")); encrypted := true |} ∅
    = inl (ValueError "too many values to unpack (expected 2)").
Proof. repeat split; vm_compute; reflexivity. Qed.

(** ** More on the string operations *)

Lemma concat_cons_char (sep : string) (c : ascii) (piece : string) (pieces : list string) :
  String.concat sep (String c piece :: pieces) = String c (String.concat sep (piece :: pieces)).
Proof. by destruct pieces. Qed.

Lemma concat_cons_empty (sep : string) (pieces : list string) :
  pieces ≠ [] → String.concat sep ("" :: pieces) = sep +:+ String.concat sep pieces.
Proof. by destruct pieces. Qed.

(** X14: [split] loses nothing and cuts at every separator: joining the
    pieces with the separator gives the string back, for every limit, and
    without a limit no piece contains the separator. *)
Theorem split_join (sep : ascii) (s : string) :
  (∀ maxsplit, String.concat (String sep "") (PyStr.split sep maxsplit s) = s)
  ∧ Forall (λ piece, PyStr.count sep piece = O) (PyStr.split sep None s).
Proof.
  split.
  - induction s as [|c s IH]; intros maxsplit.
    + by destruct maxsplit as [[|n]|].
    + assert (∀ m, String.concat (String sep "")
                     (if Ascii.eqb c sep
                      then "" :: PyStr.split sep (Nat.pred <$> m) s
                      else match PyStr.split sep m s with
                           | piece :: pieces => String c piece :: pieces
                           | [] => [String c ""]
                           end) = String c s) as Hstep.
      { intros m. destruct (Ascii.eqb_spec c sep) as [->|Hne].
        - rewrite concat_cons_empty by apply PyStrFacts.split_nonempty.
          by rewrite IH.
        - specialize (IH m).
          pose proof (PyStrFacts.split_nonempty sep m s) as Hnil.
          destruct (PyStr.split sep m s) as [|piece pieces]; [done|].
          by rewrite concat_cons_char, IH. }
      destruct maxsplit as [[|n]|]; [done| |]; apply Hstep.
  - induction s as [|c s IH]; simpl; [by constructor|].
    destruct (Ascii.eqb_spec c sep) as [->|Hne].
    + by constructor.
    + pose proof (PyStrFacts.split_nonempty sep None s) as Hnil.
      destruct (PyStr.split sep None s) as [|piece pieces]; [done|].
      inversion IH as [|? ? Hpiece Hpieces]; subst. constructor; [|done].
      simpl. by destruct (Ascii.eqb_spec c sep).
Qed.

Lemma substring_all (b : string) : String.substring 0 (String.length b) b = b.
Proof. induction b as [|c b IH]; simpl; [done|]. by rewrite IH. Qed.

Lemma substring_suffix (a b : string) :
  String.substring (String.length a) (String.length b) (a +:+ b) = b.
Proof. induction a as [|c a IH]; simpl; [apply substring_all | done]. Qed.

Lemma substring_split (m : nat) (s : string) :
  (m ≤ String.length s)%nat →
  s = String.substring 0 m s +:+ String.substring m (String.length s - m) s.
Proof.
  revert m. induction s as [|c s IH]; intros [|m] Hm; simpl in Hm.
  - done.
  - lia.
  - simpl. by rewrite substring_all.
  - transitivity (String c (String.substring 0 m s
                            +:+ String.substring m (String.length s - m) s));
      [f_equal; apply IH; lia | reflexivity].
Qed.

Lemma length_append (a b : string) :
  String.length (a +:+ b) = (String.length a + String.length b)%nat.
Proof. induction a; simpl; [done|]. by f_equal. Qed.

(** [endswith] holds of the strings that end with the suffix, and of no
    others. *)
Lemma endswith_iff (s suffix : string) :
  PyStr.endswith s suffix = true ↔ ∃ a, s = a +:+ suffix.
Proof.
  unfold PyStr.endswith. split.
  - intros H. apply andb_true_iff in H as [Hle Heq].
    apply Nat.leb_le in Hle. apply String.eqb_eq in Heq.
    remember (String.length suffix) as k eqn:Hk. clear Hk.
    exists (String.substring 0 (String.length s - k) s). rewrite <- Heq.
    pose proof (substring_split (String.length s - k) s) as Hsplit.
    replace (String.length s - (String.length s - k))%nat with k in Hsplit by lia.
    apply Hsplit. lia.
  - intros [a ->]. rewrite length_append. apply andb_true_iff. split.
    + apply Nat.leb_le. lia.
    + replace (String.length a + String.length suffix - String.length suffix)%nat
        with (String.length a) by lia.
      rewrite substring_suffix. apply String.eqb_refl.
Qed.

(** ** The runner *)

Local Open Scope list_scope.

(** Unfolding the methods by name, for the proofs below. *)
Ltac unfold_call_endpoint := unfold call_endpoint.
Ltac unfold_call_endpoint_in H := unfold call_endpoint in H.
Ltac unfold_classify := unfold classify.
Ltac unfold_classify_in H := unfold classify in H.
Ltac unfold_close := unfold close.
Ltac unfold_close_in H := unfold close in H.
Ltac unfold_inject_projection := unfold inject_projection.
Ltac unfold_inject_projection_in H := unfold inject_projection in H.
Ltac unfold_inject_write := unfold inject_write.
Ltac unfold_inject_write_in H := unfold inject_write in H.
Ltac unfold_privileged := unfold privileged.
Ltac unfold_privileged_in H := unfold privileged in H.
Ltac unfold_write_branch := unfold write_branch.
Ltac unfold_write_branch_in H := unfold write_branch in H.

Section RunnerFacts.

Context {EndpointType D F : Type}.
Variable int : string → option Z.
Variable fallback_call_endpoint : call (EndpointType := EndpointType) → store → D → (exn + DataFrame) * D.
Variable fallback_call_procedure : procedure_call → store → D → (exn + DataFrame) * D.
Variable fallback_close : D → (exn + unit) * D.
Variable authenticate_basic_token : string → string → F → (exn + headers) * F.
Variable client_close : F → (exn + unit) * F.

#[local] Abbreviation call := (call (EndpointType := EndpointType)).
#[local] Abbreviation event := (event (EndpointType := EndpointType)).
#[local] Abbreviation is_handshake := (is_handshake (EndpointType := EndpointType)).
#[local] Abbreviation is_lookup := (is_lookup (EndpointType := EndpointType)).
#[local] Abbreviation is_forward := (is_forward (EndpointType := EndpointType)).
#[local] Abbreviation world := (world (EndpointType := EndpointType) (D := D) (F := F)).
#[local] Abbreviation M := (M (EndpointType := EndpointType) (D := D) (F := F)).
#[local] Abbreviation call_endpoint :=
  (call_endpoint int fallback_call_endpoint fallback_call_procedure authenticate_basic_token).
#[local] Abbreviation classify := (classify (F := F) fallback_call_procedure).
#[local] Abbreviation privileged := (privileged (F := F) fallback_call_procedure).
#[local] Abbreviation privileged_calls :=
  (privileged_calls int fallback_call_endpoint fallback_call_procedure
     authenticate_basic_token).
#[local] Abbreviation run :=
  (run int fallback_call_endpoint fallback_call_procedure authenticate_basic_token).
#[local] Abbreviation close := (close fallback_close client_close).
#[local] Abbreviation get_or_request :=
  (_get_or_request_auth_pair (EndpointType := EndpointType) (D := D) authenticate_basic_token).
#[local] Abbreviation is_remote :=
  (is_remote_projected_graph (F := F) fallback_call_procedure).
#[local] Abbreviation forward := (fallback_endpoint (F := F) fallback_call_endpoint).
#[local] Abbreviation authenticate :=
  (client_authenticate (EndpointType := EndpointType) (D := D) authenticate_basic_token).
#[local] Abbreviation inject_projection :=
  (inject_projection (EndpointType := EndpointType) (D := D) (F := F)).
#[local] Abbreviation inject_write :=
  (inject_write (EndpointType := EndpointType) (D := D) (F := F) int).
#[local] Abbreviation write_branch :=
  (write_branch (EndpointType := EndpointType) (D := D) int authenticate_basic_token).
#[local] Abbreviation procedure := (fallback_procedure (F := F) fallback_call_procedure).

(** *** Running a sequence of statements *)

Lemma bind_inr {A B} (m : M A) (k : A → M B) w a w' :
  m w = (inr a, w') → bind m k w = k a w'.
Proof. unfold bind. by intros ->. Qed.

Lemma bind_inl {A B} (m : M A) (k : A → M B) w e w' :
  m w = (inl e, w') → bind m k w = (inl e, w').
Proof. unfold bind. by intros ->. Qed.

(** *** Counting events *)

Lemma tally_app p (t1 t2 : list event) :
  tally p (t1 ++ t2) = (tally p t1 + tally p t2)%nat.
Proof. unfold tally. by rewrite List.filter_app, length_app. Qed.

Lemma quiet_bind {A B} p (m : M A) (k : A → M B) :
  quiet p m → (∀ a, quiet p (k a)) → quiet p (bind m k).
Proof.
  intros Hm Hk w. unfold bind. specialize (Hm w).
  destruct (m w) as [[e|a] w']; simpl in *; [done|]. by rewrite Hk.
Qed.

Lemma once_bind {A B} p (m : M A) (k : A → M B) :
  once p m → (∀ a, quiet p (k a)) → once p (bind m k).
Proof.
  intros Hm Hk w. unfold bind. specialize (Hm w).
  destruct (m w) as [[e|a] w']; simpl in *; [done|]. by rewrite Hk.
Qed.

Lemma quiet_silent {A} p (m : M A) : silent m → quiet p m.
Proof. intros H w. by rewrite H. Qed.

Lemma silent_bind {A B} (m : M A) (k : A → M B) :
  silent m → (∀ a, silent (k a)) → silent (bind m k).
Proof.
  intros Hm Hk w. unfold bind. specialize (Hm w).
  destruct (m w) as [[e|a] w']; simpl in *; [done|]. by rewrite Hk.
Qed.

Lemma silent_ret {A} (a : A) : silent (ret a : M A).
Proof. by intros w. Qed.

Lemma silent_raise {A} e : silent (raise e : M A).
Proof. by intros w. Qed.

Lemma silent_lift {A} (r : exn + A) : silent (lift r : M A).
Proof. destruct r; [apply silent_raise | apply silent_ret]. Qed.

Lemma silent_new_dict d : silent (new_dict d : M loc).
Proof. by intros w. Qed.

Lemma silent_given_params o : silent (given_params o : M loc).
Proof. destruct o; [apply silent_ret | apply silent_new_dict]. Qed.

Lemma silent_getitem l key : silent (getitem l key : M value).
Proof. intros w. unfold getitem. by destruct (_ !! _). Qed.

Lemma silent_setitem l key v : silent (setitem l key v : M unit).
Proof. by intros w. Qed.

Lemma silent_setitem_value x key v : silent (setitem_value x key v : M unit).
Proof. destruct x; try apply silent_raise. apply silent_setitem. Qed.

Lemma silent_token : silent (λ w : world, lift (token (middleware w)) w).
Proof. intros w. by destruct (token (middleware w)). Qed.

Lemma silent_endpoint : silent (λ w : world, lift (endpoint (middleware w)) w).
Proof. intros w. by destruct (endpoint (middleware w)). Qed.

Lemma trace_authenticate user password (w : world) :
  trace (snd (authenticate user password w)) = trace w ++ [Handshake user password].
Proof.
  unfold client_authenticate. cbn [log client middleware].
  destruct (authenticate_basic_token _ _ _) as [[e|hs] f]; [done|].
  by destruct (received_headers _ _).
Qed.

Lemma trace_procedure pc (w : world) :
  trace (snd (procedure pc w)) = trace w ++ [Lookup pc (heap w)].
Proof.
  unfold fallback_procedure. cbn [log heap fallback].
  by destruct (fallback_call_procedure _ _ _).
Qed.

Lemma trace_forward c (w : world) :
  trace (snd (forward c w)) = trace w ++ [Forward c (heap w)].
Proof.
  unfold fallback_endpoint. cbn [log heap fallback].
  by destruct (fallback_call_endpoint _ _ _).
Qed.

Lemma once_by_trace {A} p (m : M A) (e : world → event) :
  (∀ w, p (e w) = true) → (∀ w, trace (snd (m w)) = trace w ++ [e w]) → once p m.
Proof.
  intros Hp Ht w. rewrite Ht, tally_app. unfold tally at 2. simpl.
  rewrite Hp. simpl. lia.
Qed.

Lemma quiet_by_trace {A} p (m : M A) (e : world → event) :
  (∀ w, p (e w) = false) → (∀ w, trace (snd (m w)) = trace w ++ [e w]) → quiet p m.
Proof.
  intros Hp Ht w. rewrite Ht, tally_app. unfold tally at 2. simpl.
  rewrite Hp. simpl. lia.
Qed.

Lemma once_authenticate user password : once is_handshake (authenticate user password).
Proof. eapply once_by_trace; [|apply trace_authenticate]; done. Qed.

Lemma quiet_authenticate user password : quiet is_lookup (authenticate user password).
Proof. eapply quiet_by_trace; [|apply trace_authenticate]; done. Qed.

Lemma once_procedure pc : once is_lookup (procedure pc).
Proof. eapply once_by_trace; [|apply trace_procedure]; done. Qed.

Lemma quiet_procedure pc : quiet is_handshake (procedure pc).
Proof. eapply quiet_by_trace; [|apply trace_procedure]; done. Qed.

Lemma quiet_forward_handshake c : quiet is_handshake (forward c).
Proof. eapply quiet_by_trace; [|apply trace_forward]; done. Qed.

Lemma quiet_forward_lookup c : quiet is_lookup (forward c).
Proof. eapply quiet_by_trace; [|apply trace_forward]; done. Qed.

Create HintDb quiet.
#[local] Hint Resolve silent_ret silent_raise silent_lift silent_new_dict
  silent_given_params silent_getitem silent_setitem silent_setitem_value
  silent_token silent_endpoint : quiet.
#[local] Hint Resolve quiet_silent quiet_authenticate quiet_procedure
  quiet_forward_handshake quiet_forward_lookup : quiet.

Ltac silent :=
  repeat first
    [ progress auto with quiet
    | apply silent_bind
    | intros []
    | intro ].

Ltac quiet :=
  repeat first
    [ progress auto with quiet
    | apply quiet_bind
    | apply quiet_silent; solve [silent]
    | intros []
    | intro ].

Lemma once_get_or_request self : once is_handshake (get_or_request self).
Proof.
  unfold _get_or_request_auth_pair. apply once_bind; [apply once_authenticate|].
  quiet.
Qed.

Lemma quiet_get_or_request self : quiet is_lookup (get_or_request self).
Proof. unfold _get_or_request_auth_pair. quiet. Qed.

Lemma quiet_is_remote self g : quiet is_handshake (is_remote self g).
Proof. unfold is_remote_projected_graph. quiet. Qed.

Lemma once_is_remote self g : once is_lookup (is_remote self g).
Proof.
  unfold is_remote_projected_graph. intros w.
  unfold bind at 1, new_dict.
  refine (once_bind is_lookup (procedure _) _ (once_procedure _) _
            (set_heap _ w)).
  quiet.
Qed.

(** [call_endpoint], with its branches by their names. *)
Lemma call_endpoint_eq self c (w : world) :
  call_endpoint self c w =
    bind (given_params (c_params c))
      (λ params,
         bind (if String.eqb GDS_REMOTE_PROJECTION_PROC_NAME (c_endpoint c) then
                 bind (get_or_request self)
                   (λ '(token, address), inject_projection self params token address)
               else
                 bind (if PyStr.endswith (c_endpoint c) ".write" then
                         bind (getitem params "graph_name")
                           (λ graph_name,
                              bind (is_remote self graph_name)
                                (λ answer, lift (truth answer)))
                       else ret false)
                   (write_branch self params))
           (λ _, forward (with_params c params))) w.
Proof. reflexivity. Qed.

(** *** How many handshakes a call makes *)

Lemma given_params_run o (w : world) :
  ∃ p w0, given_params o w = (inr p, w0) ∧ trace w0 = trace w
          ∧ fallback w0 = fallback w ∧ client w0 = client w
          ∧ middleware w0 = middleware w.
Proof. destruct o; simpl; eauto 10. Qed.

(** The condition of the [elif]: no handshake is made while it is
    evaluated. *)
Lemma quiet_remote_check self (ends : bool) params :
  quiet is_handshake
    (if ends then
       bind (getitem params "graph_name")
         (λ graph_name, bind (is_remote self graph_name) (λ answer, lift (truth answer)))
     else ret false : M bool).
Proof.
  destruct ends; [|quiet].
  apply quiet_bind; [quiet|]. intros g.
  apply quiet_bind; [apply quiet_is_remote|]. quiet.
Qed.

Lemma silent_inject_projection self params token address :
  silent (inject_projection self params token address).
Proof. unfold_inject_projection. silent. Qed.

Lemma silent_inject_write self params token address :
  silent (inject_write self params token address).
Proof.
  unfold_inject_write.
  apply silent_bind; [silent|]. intros [host port_string]. silent.
Qed.

Lemma once_write_branch self params : once is_handshake (write_branch self params true).
Proof.
  apply once_bind; [apply once_get_or_request|].
  intros [token address]. apply quiet_silent, silent_inject_write.
Qed.

Lemma quiet_write_branch self params remote : quiet is_lookup (write_branch self params remote).
Proof.
  destruct remote; [|apply quiet_silent, silent_ret].
  apply quiet_bind; [apply quiet_get_or_request|].
  intros [token address]. apply quiet_silent, silent_inject_write.
Qed.

Lemma handshakes_call_endpoint self c (w : world) :
  handshakes (trace (snd (call_endpoint self c w))) =
    (handshakes (trace w) + if privileged self c w then 1 else 0)%nat.
Proof.
  unfold_call_endpoint; unfold_privileged; unfold_classify; unfold handshakes.
  destruct (given_params_run (c_params c) w) as (p & w0 & Hp & Ht & _).
  rewrite !(bind_inr _ _ _ _ _ Hp), <- Ht.
  destruct (String.eqb _ _).
  - cbn [ret]. rewrite Nat.add_1_r.
    apply (once_bind is_handshake); [|intros; apply quiet_forward_handshake].
    apply once_bind; [apply once_get_or_request|].
    intros [token address]. apply quiet_silent, (silent_inject_projection self p).
  - pose proof (quiet_remote_check self (PyStr.endswith (c_endpoint c) ".write") p w0) as Hq.
    set (check := if PyStr.endswith (c_endpoint c) ".write" then _ else _) in *.
    unfold bind at 1 2.
    destruct (check w0) as [[e|[|]] w1]; cbn [snd] in *.
    + lia.
    + rewrite Nat.add_1_r, <- Hq.
      apply (once_bind is_handshake); [|intros; apply quiet_forward_handshake].
      apply (once_write_branch self p).
    + rewrite Nat.add_0_r, <- Hq.
      apply (quiet_bind is_handshake); [quiet|].
      intros; apply quiet_forward_handshake.
Qed.

Lemma handshakes_run self cs (w : world) :
  handshakes (trace (run self cs w)) =
    (handshakes (trace w) + privileged_calls self cs w)%nat.
Proof.
  revert w. induction cs as [|c cs IH]; intros w; simpl; [lia|].
  rewrite IH, handshakes_call_endpoint. lia.
Qed.

(** *** The store *)

Lemma contents_insert (σ : store) l d : contents (<[l := d]> σ) l = d.
Proof. unfold contents. by rewrite lookup_insert_eq. Qed.

Lemma contents_insert_ne (σ : store) l l' d :
  l ≠ l' → contents (<[l := d]> σ) l' = contents σ l'.
Proof. intros. unfold contents. by rewrite lookup_insert_ne. Qed.

Lemma contents_lookup (σ : store) l d : σ !! l = Some d → contents σ l = d.
Proof. unfold contents. by intros ->. Qed.

Lemma contents_dom (σ : store) l key v : contents σ l !! key = Some v → l ∈ dom σ.
Proof.
  unfold contents. intros H. apply elem_of_dom.
  destruct (σ !! l); [done|]. simpl in H. by apply lookup_empty_Some in H.
Qed.

Lemma fresh_ne (σ : store) l : l ∈ dom σ → l ≠ fresh (dom σ).
Proof. intros Hl ->. by apply (is_fresh (dom σ)). Qed.

(** What the projection branch leaves in the store: the three keys in
    the caller's dictionary, a new dictionary for [config], and nothing
    else touched. *)
Lemma projected_spec (σ : store) p t a e :
  ∃ config,
    (config ∉ dom σ) ∧ config ≠ p
    ∧ contents (projected σ p t a e) p =
        <["config" := VDict config]>
          (<["host" := VStr a]> (<["token" := VStr t]> (contents σ p)))
    ∧ contents (projected σ p t a e) config = encryption_config e
    ∧ ∀ l, l ≠ p → l ≠ config → projected σ p t a e !! l = σ !! l.
Proof.
  unfold projected.
  set (σ1 := <[p := <["token" := VStr t]> (contents σ p)]> σ).
  set (σ2 := <[p := <["host" := VStr a]> (contents σ1 p)]> σ1).
  set (config := fresh (dom σ2)).
  assert (config ∉ dom σ2) as Hfresh by apply is_fresh.
  assert (config ≠ p) as Hne.
  { intros ->. apply Hfresh. unfold σ2. rewrite dom_insert_L. set_solver. }
  assert (config ∉ dom σ) as Hσ.
  { intros Hin. apply Hfresh. unfold σ2, σ1. rewrite !dom_insert_L. set_solver. }
  exists config. repeat split; try done.
  - rewrite contents_insert, contents_insert_ne by done.
    unfold σ2. rewrite contents_insert. unfold σ1. by rewrite contents_insert.
  - rewrite contents_insert_ne by done. by rewrite contents_insert.
  - intros l Hp Hc. unfold σ2, σ1. by rewrite !lookup_insert_ne.
Qed.

(** What the write branch leaves in the store when [config] is a
    dictionary of the store. *)
Lemma written_spec (σ : store) config host port t e :
  config ∈ dom σ →
  ∃ info,
    (info ∉ dom σ)
    ∧ contents (written σ config host port t e) config =
        <["arrowConnectionInfo" := VDict info]> (contents σ config)
    ∧ contents (written σ config host port t e) info =
        arrow_connection_info host port t e
    ∧ ∀ l, l ≠ config → l ≠ info → written σ config host port t e !! l = σ !! l.
Proof.
  intros Hin. unfold written. set (info := fresh (dom σ)).
  assert (info ∉ dom σ) as Hfresh by apply is_fresh.
  assert (config ≠ info) as Hne by (by apply fresh_ne).
  exists info. repeat split; try done.
  - by rewrite contents_insert, contents_insert_ne.
  - by rewrite contents_insert_ne, contents_insert.
  - intros l Hc Hi. by rewrite !lookup_insert_ne.
Qed.

(** *** One call, step by step *)

Lemma with_params_id (c : call) p : c_params c = Some p → with_params c p = c.
Proof. destruct c; simpl. by intros ->. Qed.

Lemma not_a_write s :
  PyStr.endswith s ".write" = true → String.eqb GDS_REMOTE_PROJECTION_PROC_NAME s = false.
Proof.
  intros H. destruct (String.eqb_spec GDS_REMOTE_PROJECTION_PROC_NAME s) as [<-|]; [|done].
  by vm_compute in H.
Qed.

Lemma eqb_name_false s :
  s ≠ GDS_REMOTE_PROJECTION_PROC_NAME → String.eqb GDS_REMOTE_PROJECTION_PROC_NAME s = false.
Proof. intros H. by destruct (String.eqb_spec GDS_REMOTE_PROJECTION_PROC_NAME s). Qed.

(** A response with a Bearer token and an address leaves both with the
    middleware, whatever it held. *)
Lemma carries_holds hs (m : AuthPairInterceptingMiddleware) t a :
  carries_bearer hs t → carries_address hs a → holds_after hs m t a.
Proof.
  intros Ht Ha. unfold holds_after. by rewrite (received_headers_bearer hs m t a).
Qed.

(** A response of another scheme than Bearer leaves the token that the
    middleware held, next to the address that the response brings. *)
Lemma other_scheme_holds hs (m : AuthPairInterceptingMiddleware) s scheme credential t0 a :
  auth_text (headers_get hs "authorization") = Some s →
  s = scheme +:+ " " +:+ credential →
  PyStr.count " " scheme = O →
  scheme ≠ "Bearer" →
  _token m = Some t0 →
  carries_address hs a →
  holds_after hs m t0 a.
Proof.
  intros Htext Hs Hscheme Hne Hheld Ha. unfold holds_after, received_headers.
  rewrite (read_auth_header_text _ s scheme credential Htext Hs Hscheme), Ha.
  destruct (String.eqb_spec scheme "Bearer") as [|_]; [done|].
  cbn [snd]. by rewrite Hheld.
Qed.

(** What the handshake does to the world: the Flight client moves on and
    the middleware reads the response; whether it could read it all does
    not show. *)
Lemma authenticate_run user password (w : world) hs f :
  authenticate_basic_token user password (client w) = (inr hs, f) →
  authenticate user password w
  = (inr tt, set_middleware (snd (received_headers hs (middleware w)))
               (set_client f (log (Handshake user password) w))).
Proof.
  intros Hauth. unfold client_authenticate. cbn [client log middleware].
  rewrite Hauth. by destruct (received_headers hs (middleware w)).
Qed.

(** A handshake after which the middleware holds a token and an
    address. *)
Lemma get_or_request_held self (w : world) hs f t a :
  authenticate_basic_token (fst (_auth self)) (snd (_auth self)) (client w) = (inr hs, f) →
  holds_after hs (middleware w) t a →
  get_or_request self w = (inr (t, a), after_handshake self t a f w).
Proof.
  intros Hauth Hheld. unfold _get_or_request_auth_pair.
  rewrite (bind_inr _ _ _ _ _ (authenticate_run _ _ w hs f Hauth)).
  unfold holds_after in Hheld. rewrite Hheld. reflexivity.
Qed.

(** A handshake whose response carries a Bearer token and an address. *)
Lemma get_or_request_bearer self (w : world) hs f t a :
  authenticate_basic_token (fst (_auth self)) (snd (_auth self)) (client w) = (inr hs, f) →
  carries_bearer hs t → carries_address hs a →
  get_or_request self w = (inr (t, a), after_handshake self t a f w).
Proof. eauto using get_or_request_held, carries_holds. Qed.

Lemma trace_get_or_request self (w : world) :
  trace (snd (get_or_request self w)) =
    trace w ++ [Handshake (fst (_auth self)) (snd (_auth self))].
Proof.
  unfold _get_or_request_auth_pair, bind.
  pose proof (trace_authenticate (fst (_auth self)) (snd (_auth self)) w) as Ht.
  destruct (authenticate _ _ w) as [[e|[]] w1]; cbn [snd] in *; [done|].
  destruct (token (middleware w1)); unfold lift, raise, ret; cbn [snd]; [done|].
  by destruct (endpoint (middleware w1)); cbn [snd].
Qed.

(** The remote projection, when the middleware holds a token and an
    address after the handshake. *)
Lemma projection_run_held self c (w w0 : world) p hs f t a :
  c_endpoint c = GDS_REMOTE_PROJECTION_PROC_NAME →
  given_params (c_params c) w = (inr p, w0) →
  authenticate_basic_token (fst (_auth self)) (snd (_auth self)) (client w0) = (inr hs, f) →
  holds_after hs (middleware w0) t a →
  call_endpoint self c w =
    forward (with_params c p)
      (set_heap (projected (heap w0) p t a (_encrypted self))
         (after_handshake self t a f w0)).
Proof.
  intros Hname Hp Hauth Hheld. unfold_call_endpoint.
  rewrite (bind_inr _ _ _ _ _ Hp), Hname, String.eqb_refl.
  unfold bind at 1 2.
  rewrite (get_or_request_held self w0 hs f t a Hauth Hheld).
  reflexivity.
Qed.

(** The remote projection, when the handshake brings a token. *)
Lemma projection_run_given self c (w w0 : world) p hs f t a :
  c_endpoint c = GDS_REMOTE_PROJECTION_PROC_NAME →
  given_params (c_params c) w = (inr p, w0) →
  authenticate_basic_token (fst (_auth self)) (snd (_auth self)) (client w0) = (inr hs, f) →
  carries_bearer hs t → carries_address hs a →
  call_endpoint self c w =
    forward (with_params c p)
      (set_heap (projected (heap w0) p t a (_encrypted self))
         (after_handshake self t a f w0)).
Proof. eauto using projection_run_held, carries_holds. Qed.

Lemma projection_run self c (w : world) p hs f t a :
  c_endpoint c = GDS_REMOTE_PROJECTION_PROC_NAME →
  c_params c = Some p →
  authenticate_basic_token (fst (_auth self)) (snd (_auth self)) (client w) = (inr hs, f) →
  carries_bearer hs t → carries_address hs a →
  call_endpoint self c w =
    forward c (set_heap (projected (heap w) p t a (_encrypted self))
                 (after_handshake self t a f w)).
Proof.
  intros Hname Hp Hauth Ht Ha.
  rewrite (projection_run_given self c w w p hs f t a), with_params_id; try done.
  by rewrite Hp.
Qed.

(** The condition of the [elif] for an endpoint that ends in ".write":
    one [gds.graph.list] call on a new dictionary that holds the graph
    name, and the truth value of its squeezed answer. *)
Lemma remote_check_run self (w : world) p g r d :
  contents (heap w) p !! "graph_name" = Some g →
  fallback_call_procedure (graph_list (fresh (dom (heap w))))
    (<[fresh (dom (heap w)) := graph_name_params g]> (heap w)) (fallback w) = (r, d) →
  bind (getitem p "graph_name")
    (λ graph_name, bind (is_remote self graph_name) (λ answer, lift (truth answer))) w
  = (match r with
     | inl e => inl e
     | inr df => truth (eq_str (squeeze df) "remote")
     end, looked_up g d w).
Proof.
  intros Hg Hlookup. unfold bind at 1, getitem. rewrite Hg.
  unfold is_remote_projected_graph, bind, new_dict, fallback_procedure.
  cbn [heap fallback log set_heap]. rewrite Hlookup.
  destruct r as [e|df].
  - reflexivity.
  - unfold ret, lift. destruct (truth _); reflexivity.
Qed.

Lemma heap_get_or_request self (w : world) :
  heap (snd (get_or_request self w)) = heap w.
Proof.
  unfold _get_or_request_auth_pair, bind, client_authenticate.
  cbn [client log middleware].
  destruct (authenticate_basic_token _ _ _) as [[e|hs] f]; [done|].
  destruct (received_headers _ _) as [r m].
  cbn [middleware set_middleware]. unfold lift, raise, ret.
  destruct (token m); [reflexivity|]. cbn [middleware set_middleware].
  destruct (endpoint m); reflexivity.
Qed.

(** The assignment of the write branch, from the address on. *)
Lemma write_injection_run self (w : world) p t host port_string port config :
  PyStr.count ":" host = O → PyStr.count ":" port_string = O →
  int port_string = Some port →
  contents (heap w) p !! "config" = Some (VDict config) →
  inject_write self p t (host +:+ ":" +:+ port_string) w
  = (inr tt, set_heap (written (heap w) config host port t (_encrypted self)) w).
Proof.
  intros Hh Hp Hint Hconfig. unfold_inject_write.
  change (":" +:+ port_string) with (String ":" port_string).
  rewrite PyStrFacts.split_pair by done.
  unfold unpack2, lift at 1, bind at 1, ret at 1. unfold py_int. rewrite Hint.
  unfold lift, bind at 1 2, ret, new_dict. cbn [heap set_heap].
  unfold bind, getitem. cbn [heap set_heap].
  rewrite contents_insert_ne by (apply not_eq_sym, fresh_ne; eauto using contents_dom).
  by rewrite Hconfig.
Qed.

(** Without a [config] entry the write branch ends in an exception and
    leaves the caller's dictionary as it found it. *)
Lemma write_injection_no_config self (w : world) p t a :
  p ∈ dom (heap w) →
  contents (heap w) p !! "config" = None →
  ∃ e w',
    inject_write self p t a w
    = (inl e, w')
    ∧ contents (heap w') p = contents (heap w) p
    ∧ trace w' = trace w
    ∧ (∀ host port_string port,
         a = host +:+ ":" +:+ port_string →
         PyStr.count ":" host = O → PyStr.count ":" port_string = O →
         int port_string = Some port →
         e = KeyError "config").
Proof.
  intros Hin Hnone. unfold_inject_write.
  destruct (unpack2 (PyStr.split ":" None a)) as [e|[host port_string]] eqn:Hsplit.
  { exists e, w. repeat split; try done.
    intros host port_string port -> Hh Hp _.
    change (":" +:+ port_string) with (String ":" port_string) in Hsplit.
    by rewrite PyStrFacts.split_pair in Hsplit. }
  destruct (py_int int port_string) as [e|port] eqn:Hint.
  { exists e, w. unfold bind, lift, ret. rewrite Hint. repeat split; try done.
    intros host' port_string' port -> Hh Hp Hint'.
    change (":" +:+ port_string') with (String ":" port_string') in Hsplit.
    rewrite PyStrFacts.split_pair in Hsplit by done.
    unfold unpack2 in Hsplit. simplify_eq.
    unfold py_int in Hint. by rewrite Hint' in Hint. }
  eexists (KeyError "config"), _.
  unfold lift at 1, bind at 1, ret at 1. rewrite Hint.
  unfold lift, bind at 1 2, ret, new_dict. cbn [heap set_heap].
  unfold bind, getitem. cbn [heap set_heap].
  rewrite contents_insert_ne by (by apply not_eq_sym, fresh_ne).
  rewrite Hnone. repeat split.
  cbn [heap set_heap]. rewrite contents_insert_ne; [done|].
  by apply not_eq_sym, fresh_ne.
Qed.

(** The write on a remotely projected graph, when the middleware holds
    a token and a well-formed address after the handshake and [params]
    has a [config]. *)
Lemma write_run_held self c (w : world) p g df d hs f t host port_string port config :
  PyStr.endswith (c_endpoint c) ".write" = true →
  c_params c = Some p →
  contents (heap w) p !! "graph_name" = Some g →
  fallback_call_procedure (graph_list (fresh (dom (heap w))))
    (<[fresh (dom (heap w)) := graph_name_params g]> (heap w)) (fallback w) = (inr df, d) →
  squeeze df = SqScalar (VStr "remote") →
  authenticate_basic_token (fst (_auth self)) (snd (_auth self)) (client w) = (inr hs, f) →
  holds_after hs (middleware w) t (host +:+ ":" +:+ port_string) →
  PyStr.count ":" host = O → PyStr.count ":" port_string = O →
  int port_string = Some port →
  contents (heap w) p !! "config" = Some (VDict config) →
  call_endpoint self c w =
    forward c
      (set_heap (written (heap (looked_up g d w)) config host port t (_encrypted self))
         (after_handshake self t (host +:+ ":" +:+ port_string) f (looked_up g d w))).
Proof.
  intros Hends Hp Hg Hlookup Hsq Hauth Hheld Hh Hps Hint Hconfig.
  rewrite call_endpoint_eq.
  rewrite Hp. cbn [given_params]. rewrite (bind_inr (ret p) _ w p w eq_refl).
  rewrite (not_a_write _ Hends), Hends, with_params_id by done.
  unfold bind at 1 2.
  rewrite (remote_check_run self w p g _ _ Hg Hlookup), Hsq.
  cbn [eq_str truth String.eqb Ascii.eqb Bool.eqb].
  unfold_write_branch; unfold bind at 1.
  rewrite (get_or_request_held self (looked_up g d w) hs f t _ Hauth Hheld).
  rewrite (write_injection_run self _ p t host port_string port config); try done.
  cbn [heap after_handshake looked_up set_middleware set_client set_fallback log set_heap].
  rewrite contents_insert_ne; [done|].
  apply not_eq_sym, fresh_ne. eauto using contents_dom.
Qed.

(** The same, when the handshake brings a Bearer token. *)
Lemma write_run self c (w : world) p g df d hs f t host port_string port config :
  PyStr.endswith (c_endpoint c) ".write" = true →
  c_params c = Some p →
  contents (heap w) p !! "graph_name" = Some g →
  fallback_call_procedure (graph_list (fresh (dom (heap w))))
    (<[fresh (dom (heap w)) := graph_name_params g]> (heap w)) (fallback w) = (inr df, d) →
  squeeze df = SqScalar (VStr "remote") →
  authenticate_basic_token (fst (_auth self)) (snd (_auth self)) (client w) = (inr hs, f) →
  carries_bearer hs t → carries_address hs (host +:+ ":" +:+ port_string) →
  PyStr.count ":" host = O → PyStr.count ":" port_string = O →
  int port_string = Some port →
  contents (heap w) p !! "config" = Some (VDict config) →
  call_endpoint self c w =
    forward c
      (set_heap (written (heap (looked_up g d w)) config host port t (_encrypted self))
         (after_handshake self t (host +:+ ":" +:+ port_string) f (looked_up g d w))).
Proof. eauto using write_run_held, carries_holds. Qed.

(** The other calls: nothing but the fallback's [call_endpoint]. *)
Lemma ordinary_run self c (w : world) p :
  c_endpoint c ≠ GDS_REMOTE_PROJECTION_PROC_NAME →
  PyStr.endswith (c_endpoint c) ".write" = false →
  c_params c = Some p →
  call_endpoint self c w = forward c w.
Proof.
  intros Hname Hends Hp. unfold_call_endpoint.
  rewrite Hp. cbn [given_params]. rewrite (bind_inr (ret p) _ w p w eq_refl).
  by rewrite (eqb_name_false _ Hname), Hends, with_params_id.
Qed.

Lemma ordinary_run_none self c (w : world) :
  c_endpoint c ≠ GDS_REMOTE_PROJECTION_PROC_NAME →
  PyStr.endswith (c_endpoint c) ".write" = false →
  c_params c = None →
  call_endpoint self c w =
    forward (with_params c (fresh (dom (heap w))))
      (set_heap (<[fresh (dom (heap w)) := ∅]> (heap w)) w).
Proof.
  intros Hname Hends Hp. unfold_call_endpoint.
  rewrite Hp. cbn [given_params]. rewrite (bind_inr (new_dict ∅) _ w _ _ eq_refl).
  by rewrite (eqb_name_false _ Hname), Hends.
Qed.

Lemma ordinary_write_run self c (w : world) p g df d v :
  PyStr.endswith (c_endpoint c) ".write" = true →
  c_params c = Some p →
  contents (heap w) p !! "graph_name" = Some g →
  fallback_call_procedure (graph_list (fresh (dom (heap w))))
    (<[fresh (dom (heap w)) := graph_name_params g]> (heap w)) (fallback w) = (inr df, d) →
  squeeze df = SqScalar v → v ≠ VStr "remote" →
  call_endpoint self c w = forward c (looked_up g d w).
Proof.
  intros Hends Hp Hg Hlookup Hsq Hv. unfold_call_endpoint.
  rewrite Hp. cbn [given_params]. rewrite (bind_inr (ret p) _ w p w eq_refl).
  rewrite (not_a_write _ Hends), Hends, with_params_id by done.
  unfold bind at 1 2.
  rewrite (remote_check_run self w p g _ _ Hg Hlookup), Hsq.
  assert (truth (eq_str (SqScalar v) "remote") = inr false) as ->; [|done].
  destruct v as [| | |s| |]; try done. simpl.
  destruct (String.eqb_spec s "remote"); [by subst|done].
Qed.

Lemma heap_looked_up g d (w : world) l :
  l ∈ dom (heap w) → heap (looked_up g d w) !! l = heap w !! l.
Proof.
  intros Hl. unfold looked_up. cbn [heap set_fallback log set_heap].
  rewrite lookup_insert_ne; [done|]. by apply not_eq_sym, fresh_ne.
Qed.

Lemma heap_forward c (w : world) : heap (snd (forward c w)) = heap w.
Proof. unfold fallback_endpoint. by destruct (fallback_call_endpoint _ _ _). Qed.

(** *** The write branch, step by step *)

(** A call of an endpoint ending in ".write", from the answer of the
    lookup on. *)
Lemma write_call_after_lookup self c (w : world) p g r d :
  PyStr.endswith (c_endpoint c) ".write" = true →
  c_params c = Some p →
  contents (heap w) p !! "graph_name" = Some g →
  fallback_call_procedure (graph_list (fresh (dom (heap w))))
    (<[fresh (dom (heap w)) := graph_name_params g]> (heap w)) (fallback w) = (r, d) →
  call_endpoint self c w =
    match match r with
          | inl e => inl e
          | inr df => truth (eq_str (squeeze df) "remote")
          end with
    | inl e => (inl e, looked_up g d w)
    | inr remote => bind (write_branch self p remote) (λ _, forward c) (looked_up g d w)
    end.
Proof.
  intros Hends Hp Hg Hlookup. rewrite call_endpoint_eq, Hp. cbn [given_params].
  rewrite (bind_inr (ret p) _ w p w eq_refl).
  rewrite (not_a_write _ Hends), Hends, with_params_id by done.
  unfold bind at 1 2. rewrite (remote_check_run self w p g r d Hg Hlookup).
  by destruct (match r with inl e => inl e | inr df => _ end).
Qed.

(** The write on a remotely projected graph, from the injection on. *)
Lemma remote_write_call_held self c (w : world) p g df d hs f t a :
  PyStr.endswith (c_endpoint c) ".write" = true →
  c_params c = Some p →
  contents (heap w) p !! "graph_name" = Some g →
  fallback_call_procedure (graph_list (fresh (dom (heap w))))
    (<[fresh (dom (heap w)) := graph_name_params g]> (heap w)) (fallback w) = (inr df, d) →
  squeeze df = SqScalar (VStr "remote") →
  authenticate_basic_token (fst (_auth self)) (snd (_auth self)) (client w) = (inr hs, f) →
  holds_after hs (middleware w) t a →
  call_endpoint self c w =
    bind (inject_write self p t a) (λ _, forward c)
      (after_handshake self t a f (looked_up g d w)).
Proof.
  intros Hends Hp Hg Hlookup Hsq Hauth Hheld.
  rewrite (write_call_after_lookup self c w p g _ d Hends Hp Hg Hlookup), Hsq.
  cbn [eq_str truth String.eqb Ascii.eqb Bool.eqb].
  unfold bind at 1; unfold_write_branch; unfold bind at 1.
  by rewrite (get_or_request_held self (looked_up g d w) hs f t a Hauth Hheld).
Qed.

Lemma remote_write_call self c (w : world) p g df d hs f t a :
  PyStr.endswith (c_endpoint c) ".write" = true →
  c_params c = Some p →
  contents (heap w) p !! "graph_name" = Some g →
  fallback_call_procedure (graph_list (fresh (dom (heap w))))
    (<[fresh (dom (heap w)) := graph_name_params g]> (heap w)) (fallback w) = (inr df, d) →
  squeeze df = SqScalar (VStr "remote") →
  authenticate_basic_token (fst (_auth self)) (snd (_auth self)) (client w) = (inr hs, f) →
  carries_bearer hs t → carries_address hs a →
  call_endpoint self c w =
    bind (inject_write self p t a) (λ _, forward c)
      (after_handshake self t a f (looked_up g d w)).
Proof. eauto using remote_write_call_held, carries_holds. Qed.

(** An address that does not read [host:port], with one colon and a port
    that [int] accepts, stops the injection with ValueError before any
    dictionary is made. *)
Lemma inject_write_malformed self p t a (w : world) :
  PyStr.count ":" a ≠ 1%nat
  ∨ (∃ host port_string,
       a = host +:+ ":" +:+ port_string ∧ PyStr.count ":" host = O
       ∧ PyStr.count ":" port_string = O ∧ int port_string = None) →
  ∃ msg, inject_write self p t a w = (inl (ValueError msg), w).
Proof.
  intros Hbad. unfold_inject_write.
  destruct Hbad as [Hcount|(host & port_string & -> & Hh & Hps & Hint)].
  - destruct (PyStrFacts.unpack2_length (PyStr.split ":" None a)) as [msg Hmsg].
    { rewrite PyStrFacts.length_split. lia. }
    rewrite Hmsg. eauto.
  - change (":" +:+ port_string) with (String ":" port_string).
    rewrite PyStrFacts.split_pair by done.
    unfold unpack2, lift at 1, bind at 1, ret at 1, py_int. rewrite Hint. eauto.
Qed.

(** *** Calls that are forwarded as they are *)

(** C4, as the code has it: a call of an endpoint that is neither the
    remote projection nor ends in ".write" is the fallback's
    [call_endpoint] on the same arguments and the same [params] object,
    whose entries are untouched; its result is returned as it is.  A call
    without [params] hands the fallback a new empty dictionary.  For an
    endpoint ending in ".write" the same holds once the fallback has
    answered the [gds.graph.list] lookup with a single value other than
    "remote", and no dictionary of the caller has changed.  A call of an
    endpoint ending in ".write" without a [graph_name] raises KeyError
    and reaches the fallback not at all. *)
Theorem call_endpoint_ordinary self c (w : world) :
  c_endpoint c ≠ GDS_REMOTE_PROJECTION_PROC_NAME →
  (∀ p, c_params c = Some p →
        PyStr.endswith (c_endpoint c) ".write" = false →
        call_endpoint self c w = fallback_endpoint fallback_call_endpoint c w
        ∧ fst (call_endpoint self c w)
          = fst (fallback_call_endpoint c (heap w) (fallback w))
        ∧ heap (snd (call_endpoint self c w)) = heap w)
  ∧ (c_params c = None →
     PyStr.endswith (c_endpoint c) ".write" = false →
     let l := fresh (dom (heap w)) in
     call_endpoint self c w =
       fallback_endpoint fallback_call_endpoint (with_params c l)
         (set_heap (<[l := ∅]> (heap w)) w))
  ∧ (∀ p g df d v,
       c_params c = Some p →
       PyStr.endswith (c_endpoint c) ".write" = true →
       contents (heap w) p !! "graph_name" = Some g →
       fallback_call_procedure (graph_list (fresh (dom (heap w))))
         (<[fresh (dom (heap w)) := graph_name_params g]> (heap w)) (fallback w)
       = (inr df, d) →
       squeeze df = SqScalar v → v ≠ VStr "remote" →
       call_endpoint self c w
       = fallback_endpoint fallback_call_endpoint c (looked_up g d w)
       ∧ fst (call_endpoint self c w)
         = fst (fallback_call_endpoint c (heap (looked_up g d w)) d)
       ∧ ∀ l, l ∈ dom (heap w) →
              heap (snd (call_endpoint self c w)) !! l = heap w !! l)
  ∧ (PyStr.endswith (c_endpoint c) ".write" = true →
     (∀ p, c_params c = Some p → contents (heap w) p !! "graph_name" = None) →
     fst (call_endpoint self c w) = inl (KeyError "graph_name")
     ∧ trace (snd (call_endpoint self c w)) = trace w
     ∧ fallback (snd (call_endpoint self c w)) = fallback w).
Proof.
  intros Hname. split; [|split; [|split]].
  - intros p Hp Hends. rewrite (ordinary_run self c w p) by done.
    split; [done|]. unfold fallback_endpoint. cbn [log heap fallback].
    by destruct (fallback_call_endpoint _ _ _).
  - intros Hp Hends l. by apply ordinary_run_none.
  - intros p g df d v Hp Hends Hg Hlookup Hsq Hv.
    rewrite (ordinary_write_run self c w p g df d v) by done.
    split; [done|]. split.
    + unfold fallback_endpoint. cbn [log heap fallback looked_up set_fallback set_heap].
      by destruct (fallback_call_endpoint _ _ _).
    + intros l Hl. by rewrite heap_forward, heap_looked_up.
  - intros Hends Hnone.
    assert (∃ w0, call_endpoint self c w = (inl (KeyError "graph_name"), w0)
                  ∧ trace w0 = trace w ∧ fallback w0 = fallback w)
      as (w0 & -> & Htrace & Hfallback); [|done].
    rewrite call_endpoint_eq, (not_a_write _ Hends), Hends.
    destruct (c_params c) as [p|]; cbn [given_params].
    + rewrite (bind_inr (ret p) _ w p w eq_refl).
      unfold bind at 1 2 3, getitem. rewrite (Hnone p eq_refl). eauto.
    + rewrite (bind_inr (new_dict ∅) _ w _ _ eq_refl).
      unfold bind at 1 2 3, getitem. cbn [heap set_heap].
      rewrite contents_insert. eauto.
Qed.

(** *** Writes and the lookup *)

(** C5, as the code has it: for an endpoint ending in ".write" and
    [params] that hold a [graph_name], the call makes exactly one
    [gds.graph.list] lookup, as its first step, on a new dictionary that
    holds the graph name, yielding [databaseLocation]; when the answer is
    a single value other than "remote", no handshake is made and the
    call is forwarded with every dictionary of the caller as it was. *)
Theorem write_lookup_once self c (w : world) p g :
  PyStr.endswith (c_endpoint c) ".write" = true →
  c_params c = Some p →
  contents (heap w) p !! "graph_name" = Some g →
  let l := fresh (dom (heap w)) in
  let σ := <[l := graph_name_params g]> (heap w) in
  lookups (trace (snd (call_endpoint self c w))) = S (lookups (trace w))
  ∧ (∃ rest, trace (snd (call_endpoint self c w))
             = trace w ++ Lookup (graph_list l) σ :: rest)
  ∧ p_endpoint (graph_list l) = "gds.graph.list"
  ∧ p_yields (graph_list l) = Some ["databaseLocation"]
  ∧ p_params (graph_list l) = Some l
  ∧ σ !! l = Some (graph_name_params g)
  ∧ (∀ df d v,
       fallback_call_procedure (graph_list l) σ (fallback w) = (inr df, d) →
       squeeze df = SqScalar v → v ≠ VStr "remote" →
       trace (snd (call_endpoint self c w))
       = trace w ++ [Lookup (graph_list l) σ; Forward c σ]
       ∧ handshakes (trace (snd (call_endpoint self c w))) = handshakes (trace w)
       ∧ fst (call_endpoint self c w) = fst (fallback_call_endpoint c σ d)
       ∧ ∀ l', l' ∈ dom (heap w) →
               heap (snd (call_endpoint self c w)) !! l' = heap w !! l').
Proof.
  intros Hends Hp Hg l σ.
  destruct (fallback_call_procedure (graph_list l) σ (fallback w)) as [r d] eqn:Hlookup.
  assert (call_endpoint self c w =
          bind (bind (bind (getitem p "graph_name")
                        (λ graph_name,
                           bind (is_remote self graph_name)
                             (λ answer, lift (truth answer))))
                  (write_branch self p))
            (λ _, forward c) w) as Hcall.
  { rewrite call_endpoint_eq, Hp. cbn [given_params].
    rewrite (bind_inr (ret p) _ w p w eq_refl).
    rewrite (not_a_write _ Hends), Hends, with_params_id by done. reflexivity. }
  pose proof (remote_check_run self w p g r d Hg Hlookup) as Hcheck.
  assert (trace (looked_up g d w) = trace w ++ [Lookup (graph_list l) σ]) as Htrace by done.
  split; [|split; [|do 4 (split; [try done; by apply lookup_insert_eq|])]].
  - rewrite Hcall. unfold bind at 1 2. rewrite Hcheck.
    destruct (match r with inl e => inl e | inr df => _ end) as [e|remote];
      cbv beta iota.
    + cbn [snd]. rewrite Htrace. unfold lookups. rewrite tally_app. unfold tally at 2.
      simpl. lia.
    + pose proof (quiet_bind is_lookup _ _ (quiet_write_branch self p remote)
                    (λ _, quiet_forward_lookup c) (looked_up g d w)) as Htail.
      unfold bind at 1 in Htail. unfold lookups. rewrite Htail, Htrace, tally_app.
      unfold tally at 2. simpl. lia.
  - rewrite Hcall. unfold bind at 1 2. rewrite Hcheck.
    destruct (match r with inl e => inl e | inr df => _ end) as [e|remote];
      cbv beta iota.
    + exists []. cbn [snd]. by rewrite Htrace.
    + destruct remote.
      * pose proof (trace_get_or_request self (looked_up g d w)) as Hshake.
        unfold_write_branch; unfold bind at 1.
        destruct (get_or_request self (looked_up g d w)) as [[e|[token address]] w1];
          cbn [snd] in Hshake; cbv beta iota.
        { eexists. cbn [snd]. rewrite Hshake, Htrace, <- app_assoc. reflexivity. }
        pose proof (silent_inject_write self p token address w1) as Hsilent.
        destruct (inject_write self p token address w1) as [[e|[]] w2];
          cbn [snd] in Hsilent; cbv beta iota.
        { eexists. cbn [snd]. rewrite Hsilent, Hshake, Htrace, <- app_assoc.
          reflexivity. }
        rewrite trace_forward, Hsilent, Hshake, Htrace, <- !app_assoc.
        eexists. reflexivity.
      * unfold_write_branch; unfold ret.
        rewrite trace_forward, Htrace, <- app_assoc. eexists. reflexivity.
  - intros df d' v Hl Hsq Hv. simplify_eq.
    rewrite (ordinary_write_run self c w p g df d' v) by done.
    rewrite trace_forward, heap_forward, Htrace, <- app_assoc.
    repeat split.
    + unfold handshakes. rewrite tally_app. unfold tally at 2. simpl. lia.
    + unfold fallback_endpoint. cbn [log heap fallback looked_up set_fallback set_heap].
      by destruct (fallback_call_endpoint _ _ _).
    + intros l' Hl'. by rewrite heap_looked_up.
Qed.

(** *** The remote projection *)

Lemma privileged_projection self c (w : world) :
  c_endpoint c = GDS_REMOTE_PROJECTION_PROC_NAME → privileged self c w = true.
Proof.
  intros Hname. unfold_privileged; unfold_classify.
  destruct (given_params_run (c_params c) w) as (p & w0 & Hp & _).
  by rewrite (bind_inr _ _ _ _ _ Hp), Hname, String.eqb_refl.
Qed.

(** A handshake, a silent injection, and the forwarding: the events. *)
Lemma shake_then_forward self (inject : string → string → M unit) c' (w : world) :
  (∀ t a, silent (inject t a)) →
  ∃ rest,
    trace (snd (bind (bind (get_or_request self) (λ '(t, a), inject t a))
                  (λ _, forward c') w))
    = trace w ++ Handshake (fst (_auth self)) (snd (_auth self)) :: rest
    ∧ (rest = [] ∨ ∃ σ', rest = [Forward c' σ']).
Proof.
  intros Hsilent. pose proof (trace_get_or_request self w) as Hshake.
  unfold bind at 1 2.
  destruct (get_or_request self w) as [[e|[t a]] w1]; cbn [snd] in Hshake; cbv beta iota.
  { exists []. cbn [snd]. eauto. }
  specialize (Hsilent t a w1).
  destruct (inject t a w1) as [[e|[]] w2]; cbn [snd] in Hsilent; cbv beta iota.
  { exists []. cbn [snd]. rewrite Hsilent. eauto. }
  rewrite trace_forward, Hsilent, Hshake, <- app_assoc. eauto.
Qed.

(** C6, as the code has it: a call of [gds.graph.project.remoteDb]
    starts with a handshake, whatever the world it is made in, and makes
    exactly one; nothing is forwarded before it.  When the middleware
    holds the token [t] and the address [a] after the handshake, the
    caller's [params] are forwarded with [token] set to [t], [host] set to
    [a] and [config] set to a new dictionary that holds [useEncryption]
    only.  The token it holds is the credential of the response when the
    response carries a Bearer authorization header, and the token it held
    before the call when the response has another scheme. *)
Theorem projection_handshake_then_injection self c (w : world) :
  c_endpoint c = GDS_REMOTE_PROJECTION_PROC_NAME →
  let shake := Handshake (fst (_auth self)) (snd (_auth self)) in
  handshakes (trace (snd (call_endpoint self c w))) = S (handshakes (trace w))
  ∧ (∃ rest, trace (snd (call_endpoint self c w)) = trace w ++ shake :: rest
             ∧ (rest = [] ∨ ∃ c' σ', rest = [Forward c' σ']))
  ∧ (∀ p hs f t a,
       c_params c = Some p →
       authenticate_basic_token (fst (_auth self)) (snd (_auth self)) (client w)
       = (inr hs, f) →
       holds_after hs (middleware w) t a →
       ∃ config σ',
         trace (snd (call_endpoint self c w)) = trace w ++ [shake; Forward c σ']
         ∧ fst (call_endpoint self c w) = fst (fallback_call_endpoint c σ' (fallback w))
         ∧ contents σ' p =
             <["config" := VDict config]>
               (<["host" := VStr a]> (<["token" := VStr t]> (contents (heap w) p)))
         ∧ contents σ' config = {[ "useEncryption" := VBool (_encrypted self) ]}
         ∧ config ∉ dom (heap w))
  ∧ (∀ hs t a,
       carries_bearer hs t → carries_address hs a →
       holds_after hs (middleware w) t a)
  ∧ (∀ hs s scheme credential t0 a,
       auth_text (headers_get hs "authorization") = Some s →
       s = scheme +:+ " " +:+ credential →
       PyStr.count " " scheme = O →
       scheme ≠ "Bearer" →
       _token (middleware w) = Some t0 →
       carries_address hs a →
       holds_after hs (middleware w) t0 a).
Proof.
  intros Hname shake. split; [|split; [|split; [|split]]];
    [| | |intros; by apply carries_holds|intros; by eapply other_scheme_holds].
  - unfold handshakes in *. pose proof (handshakes_call_endpoint self c w) as H.
    unfold handshakes in H. rewrite H, privileged_projection by done. lia.
  - rewrite call_endpoint_eq.
    destruct (given_params_run (c_params c) w) as (p & w0 & Hp & Ht & _).
    rewrite (bind_inr _ _ _ _ _ Hp), Hname, String.eqb_refl, <- Ht.
    destruct (shake_then_forward self (inject_projection self p) (with_params c p) w0)
      as (rest & Hrest & Hcases); [intros; apply silent_inject_projection|].
    exists rest. split; [done|]. destruct Hcases as [?|[σ' ?]]; eauto.
  - intros p hs f t a Hp Hauth Hheld.
    rewrite (projection_run_held self c w w p hs f t a), with_params_id;
      try done; [|by rewrite Hp].
    destruct (projected_spec (heap w) p t a (_encrypted self))
      as (config & Hfresh & Hne & Hparams & Hconfig & _).
    exists config, (projected (heap w) p t a (_encrypted self)).
    rewrite trace_forward. cbn [trace heap set_heap after_handshake set_middleware
                                  set_client log].
    rewrite <- app_assoc. repeat split; try done.
    unfold fallback_endpoint.
    cbn [log heap fallback set_heap after_handshake set_middleware set_client].
    by destruct (fallback_call_endpoint _ _ _).
Qed.

(** *** The write on a remotely projected graph *)


(** *** What the caller sees afterwards *)

(** C10: the caller's own dictionaries are changed in place, and the
    change is there when the call has returned or raised.  Whenever the
    middleware holds a token and an address after the handshake, be they
    of this response or of an earlier one, a remote projection leaves the
    caller's [params] with [token], [host] and [config], and [config] is a
    new dictionary with [useEncryption] alone: whatever [params] held
    under [config] before is no longer referred to, and that object, like
    every other object of the store, is left as it was.  After a remote
    write that gets as far as its assignment, the dictionary that the
    caller's [params] hold under [config] has the additional entry
    [arrowConnectionInfo]. *)
Theorem injection_mutates_in_place self c (w : world) p hs f t a :
  c_params c = Some p →
  authenticate_basic_token (fst (_auth self)) (snd (_auth self)) (client w) = (inr hs, f) →
  holds_after hs (middleware w) t a →
  (c_endpoint c = GDS_REMOTE_PROJECTION_PROC_NAME →
     ∃ config,
       (config ∉ dom (heap w))
       ∧ contents (heap (snd (call_endpoint self c w))) p =
           <["config" := VDict config]>
             (<["host" := VStr a]> (<["token" := VStr t]> (contents (heap w) p)))
       ∧ contents (heap (snd (call_endpoint self c w))) p !! "config" = Some (VDict config)
       ∧ contents (heap (snd (call_endpoint self c w))) config
         = {[ "useEncryption" := VBool (_encrypted self) ]}
       ∧ ∀ l, l ≠ p → l ∈ dom (heap w) →
              heap (snd (call_endpoint self c w)) !! l = heap w !! l)
  ∧ (∀ g df d host port_string port config,
       PyStr.endswith (c_endpoint c) ".write" = true →
       contents (heap w) p !! "graph_name" = Some g →
       fallback_call_procedure (graph_list (fresh (dom (heap w))))
         (<[fresh (dom (heap w)) := graph_name_params g]> (heap w)) (fallback w)
       = (inr df, d) →
       squeeze df = SqScalar (VStr "remote") →
       a = host +:+ ":" +:+ port_string →
       PyStr.count ":" host = O → PyStr.count ":" port_string = O →
       int port_string = Some port →
       contents (heap w) p !! "config" = Some (VDict config) →
       config ∈ dom (heap w) →
       ∃ info,
         (info ∉ dom (heap w))
         ∧ contents (heap (snd (call_endpoint self c w))) config =
             <["arrowConnectionInfo" := VDict info]> (contents (heap w) config)
         ∧ contents (heap (snd (call_endpoint self c w))) p !! "config"
           = Some (VDict config)
         ∧ contents (heap (snd (call_endpoint self c w))) info =
             {[ "hostname" := VStr host; "port" := VInt port; "bearerToken" := VStr t;
                "useEncryption" := VBool (_encrypted self) ]}).
Proof.
  intros Hp Hauth Hheld. split.
  - intros Hname.
    rewrite (projection_run_held self c w w p hs f t a), heap_forward;
      try done; [|by rewrite Hp].
    cbn [heap set_heap].
    destruct (projected_spec (heap w) p t a (_encrypted self))
      as (config & Hfresh & Hne & Hparams & Hconfig & Hother).
    exists config. split; [done|]. split; [done|]. split.
    { by rewrite Hparams, lookup_insert_eq. }
    split; [done|]. intros l Hl Hin. apply Hother; [done|].
    intros ->. by apply Hfresh.
  - intros g df d host port_string port config Hends Hg Hlookup Hsq -> Hh Hps Hint
      Hconfig Hin.
    rewrite (write_run_held self c w p g df d hs f t host port_string port config),
      heap_forward by done.
    cbn [heap set_heap].
    assert (p ∈ dom (heap w)) as Hdom by eauto using contents_dom.
    set (σ1 := heap (looked_up g d w)).
    assert (∀ l, l ∈ dom (heap w) → l ∈ dom σ1 ∧ contents σ1 l = contents (heap w) l)
      as Hσ1.
    { intros l Hl. unfold contents, σ1. rewrite heap_looked_up by done.
      split; [|done]. apply elem_of_dom. rewrite heap_looked_up by done.
      by apply elem_of_dom. }
    destruct (written_spec σ1 config host port t (_encrypted self))
      as (info & Hfresh & Hcfg & Hinfo & Hother); [by apply Hσ1|].
    exists info. split; [|split; [|split]].
    + intros Hi. apply Hfresh. by apply Hσ1.
    + by rewrite Hcfg, (proj2 (Hσ1 config Hin)).
    + destruct (decide (p = config)) as [->|Hne].
      * rewrite Hcfg, lookup_insert_ne by done.
        by rewrite (proj2 (Hσ1 config Hin)).
      * unfold contents at 1. rewrite Hother; [| done |].
        -- fold (contents σ1 p). by rewrite (proj2 (Hσ1 p Hdom)).
        -- intros ->. apply Hfresh. by apply Hσ1.
    + done.
Qed.

(** *** Closing *)

(** C1, as the code has it: [close] closes the Flight client first and
    the fallback query runner after it.  When closing the client raises,
    that exception is what the caller gets and the fallback is not
    closed; when it succeeds, the fallback is closed and its outcome is
    the outcome of [close]. *)
Theorem close_in_sequence self (w : world) :
  (∀ e f, client_close (client w) = (inl e, f) →
          close self w = (inl e, set_client f (log ClientClose w))
          ∧ trace (snd (close self w)) = trace w ++ [ClientClose]
          ∧ fallback (snd (close self w)) = fallback w)
  ∧ (∀ f r d, client_close (client w) = (inr tt, f) →
              fallback_close (fallback w) = (r, d) →
              fst (close self w) = r
              ∧ trace (snd (close self w)) = trace w ++ [ClientClose; FallbackClose]
              ∧ fallback (snd (close self w)) = d).
Proof.
  split.
  - intros e f Hc. unfold_close; unfold bind. by rewrite Hc.
  - intros f r d Hc Hf. unfold_close; unfold bind. rewrite Hc.
    cbn [fallback set_client log]. rewrite Hf. cbn [fst snd trace set_fallback log set_client].
    by rewrite <- app_assoc.
Qed.

(** *** A handshake of its own for every privileged call *)

Lemma connection_info_token host port t e :
  arrow_connection_info host port t e !! "bearerToken" = Some (VStr t).
Proof. reflexivity. Qed.

(** When the write branch gets as far as its assignment, the token is
    found under [config.arrowConnectionInfo.bearerToken] of [params]. *)
Lemma inject_write_token self (w w' : world) p t a :
  p ∈ dom (heap w) →
  inject_write self p t a w = (inr tt, w') →
  dict_at (heap w')
    (dict_at (heap w') (contents (heap w') p !! "config") !! "arrowConnectionInfo")
    !! "bearerToken" = Some (VStr t).
Proof.
  intros Hdom. unfold_inject_write.
  destruct (unpack2 _) as [e|[host port_string]]; [done|].
  unfold lift at 1, bind at 1, ret at 1.
  destruct (py_int int port_string) as [e|port]; [done|].
  unfold lift, bind at 1 2, ret, new_dict. cbn [heap set_heap].
  set (info := fresh (dom (heap w))).
  set (σ := <[info := arrow_connection_info host port t (_encrypted self)]> (heap w)).
  assert (p ≠ info) as Hne by (by apply fresh_ne).
  unfold bind, getitem. cbn [heap set_heap].
  destruct (contents σ p !! "config") as [config|] eqn:Hconfig; [|done].
  destruct config as [| | | | |config]; try done.
  unfold setitem_value, setitem. cbn [heap set_heap]. intros [= <-]. cbn [heap].
  set (σ' := <[config := _]> σ). cbn [heap set_heap].
  assert (contents σ' p !! "config" = Some (VDict config)) as ->.
  { unfold σ'. destruct (decide (config = p)) as [->|].
    - by rewrite contents_insert, lookup_insert_ne.
    - by rewrite contents_insert_ne. }
  cbn [dict_at]. unfold σ' at 2. rewrite contents_insert, lookup_insert_eq.
  cbn [dict_at]. unfold σ'. destruct (decide (config = info)) as [->|].
  - rewrite contents_insert, lookup_insert_ne by done.
    unfold σ. by rewrite contents_insert.
  - rewrite contents_insert_ne by done. unfold σ. by rewrite contents_insert.
Qed.


(** *** When the credentials cannot be had *)

(** A privileged call, from the world its classification left: the
    handshake, one of the two injections, the forwarding. *)
Lemma privileged_call self c (w w1 : world) :
  classify self c w = (inr true, w1) →
  ∃ p (inject : string → string → M unit),
    (∀ t a, silent (inject t a))
    ∧ call_endpoint self c w =
        bind (bind (get_or_request self) (λ '(t, a), inject t a))
          (λ _, forward (with_params c p)) w1.
Proof.
  intros Hclass. unfold_classify_in Hclass.
  destruct (given_params (c_params c) w) as [[e|p] w0] eqn:Hp.
  { by rewrite (bind_inl _ _ _ _ _ Hp) in Hclass. }
  rewrite (bind_inr _ _ _ _ _ Hp) in Hclass.
  rewrite call_endpoint_eq, (bind_inr _ _ _ _ _ Hp).
  destruct (String.eqb GDS_REMOTE_PROJECTION_PROC_NAME (c_endpoint c)) eqn:Hname.
  - injection Hclass as <-. exists p, (inject_projection self p).
    split; [intros; apply silent_inject_projection | done].
  - exists p, (inject_write self p).
    split; [intros; apply silent_inject_write|].
    destruct (PyStr.endswith (c_endpoint c) ".write"); [|done].
    unfold bind at 1 2. by rewrite Hclass.
Qed.

Lemma get_or_request_fails_call self c (w w1 w2 : world) e :
  classify self c w = (inr true, w1) →
  get_or_request self w1 = (inl e, w2) →
  call_endpoint self c w = (inl e, w2).
Proof.
  intros Hclass Hfail. destruct (privileged_call self c w w1 Hclass) as (p & inject & _ & ->).
  unfold bind at 1 2. by rewrite Hfail.
Qed.

(** X1: when the Flight client refuses the handshake of a privileged call,
    the call raises that very exception: nothing is injected and nothing
    forwarded, and the store and the middleware are as they were when the
    handshake began. *)
Theorem handshake_refused self c (w w1 : world) e f :
  classify self c w = (inr true, w1) →
  authenticate_basic_token (fst (_auth self)) (snd (_auth self)) (client w1) = (inl e, f) →
  call_endpoint self c w
  = (inl e, set_client f (log (Handshake (fst (_auth self)) (snd (_auth self))) w1))
  ∧ heap (snd (call_endpoint self c w)) = heap w1
  ∧ middleware (snd (call_endpoint self c w)) = middleware w1
  ∧ forwards (trace (snd (call_endpoint self c w))) = forwards (trace w1).
Proof.
  intros Hclass Hauth.
  rewrite (get_or_request_fails_call self c w w1
             (set_client f (log (Handshake (fst (_auth self)) (snd (_auth self))) w1)) e
             Hclass).
  - repeat split. cbn [snd trace set_client log]. unfold forwards.
    rewrite tally_app. unfold tally at 2. simpl. lia.
  - unfold _get_or_request_auth_pair, bind, client_authenticate.
    cbn [client log]. by rewrite Hauth.
Qed.

(** A privileged call after whose handshake the middleware holds a
    token and an address either stops in the injection or forwards that
    token. *)
Lemma privileged_call_held self c (w w1 : world) hs f t a :
  classify self c w = (inr true, w1) →
  authenticate_basic_token (fst (_auth self)) (snd (_auth self)) (client w1) = (inr hs, f) →
  holds_after hs (middleware w1) t a →
  ∃ rest,
    trace (snd (call_endpoint self c w))
    = trace w1 ++ Handshake (fst (_auth self)) (snd (_auth self)) :: rest
    ∧ (rest = []
       ∨ ∃ c' σ', rest = [Forward c' σ'] ∧ injected_token σ' c' = Some (VStr t))
    ∧ (c_endpoint c = GDS_REMOTE_PROJECTION_PROC_NAME → rest ≠ []).
Proof.
  intros Hclass Hauth Hheld. unfold_classify_in Hclass.
  destruct (given_params (c_params c) w) as [[e|p] w0] eqn:Hp.
  { by rewrite (bind_inl _ _ _ _ _ Hp) in Hclass. }
  rewrite (bind_inr _ _ _ _ _ Hp) in Hclass.
  destruct (String.eqb GDS_REMOTE_PROJECTION_PROC_NAME (c_endpoint c)) eqn:Hname.
  - apply String.eqb_eq in Hname. injection Hclass as <-.
    rewrite (projection_run_held self c w w0 p hs f t a) by done.
    rewrite trace_forward.
    cbn [trace heap set_heap after_handshake set_middleware set_client log].
    rewrite <- app_assoc. eexists. split; [reflexivity|]. split; [|done]. right.
    eexists _, _. split; [reflexivity|].
    unfold injected_token. cbn [c_params c_endpoint with_params fmap option_fmap option_map].
    rewrite <- Hname, String.eqb_refl. cbn [dict_at].
    destruct (projected_spec (heap w0) p t a (_encrypted self))
      as (config & _ & _ & -> & _).
    do 2 (rewrite lookup_insert_ne by done). by rewrite lookup_insert_eq.
  - destruct (PyStr.endswith (c_endpoint c) ".write") eqn:Hends; [|done].
    assert (call_endpoint self c w =
            bind (write_branch self p true) (λ _, forward (with_params c p)) w1) as ->.
    { rewrite call_endpoint_eq, (bind_inr _ _ _ _ _ Hp), Hname, Hends.
      unfold bind at 1 2. by rewrite Hclass. }
    assert (p ∈ dom (heap w1)) as Hdom.
    { destruct (contents (heap w0) p !! "graph_name") as [g|] eqn:Hg.
      - destruct (fallback_call_procedure (graph_list (fresh (dom (heap w0))))
                    (<[fresh (dom (heap w0)) := graph_name_params g]> (heap w0))
                    (fallback w0)) as [r d] eqn:Hlookup.
        rewrite (remote_check_run self w0 p g r d Hg Hlookup) in Hclass.
        injection Hclass as _ <-. apply elem_of_dom.
        rewrite heap_looked_up by eauto using contents_dom.
        apply elem_of_dom. eauto using contents_dom.
      - unfold bind at 1, getitem in Hclass. by rewrite Hg in Hclass. }
    assert (c_endpoint c ≠ GDS_REMOTE_PROJECTION_PROC_NAME) as Hother.
    { intros Heq. by rewrite Heq, String.eqb_refl in Hname. }
    unfold bind at 1; unfold_write_branch; unfold bind at 1.
    rewrite (get_or_request_held self w1 hs f t a Hauth Hheld).
    set (w2 := after_handshake self t a f w1).
    pose proof (silent_inject_write self p t a w2) as Hsilent.
    destruct (inject_write self p t a w2) as [[e|[]] w3] eqn:Hrun; cbn [snd] in Hsilent.
    + exists []. cbn [snd]. rewrite Hsilent. split; [done|]. split; [by left | done].
    + rewrite trace_forward, Hsilent.
      cbn [trace w2 after_handshake set_middleware set_client log].
      rewrite <- app_assoc. eexists. split; [reflexivity|]. split; [|done]. right.
      eexists _, _. split; [reflexivity|].
      unfold injected_token.
      cbn [c_params c_endpoint with_params fmap option_fmap option_map].
      rewrite Hname. cbn [dict_at].
      by apply (inject_write_token self w2 w3 p t a).
Qed.

(** X2: an authorization header that [received_headers] cannot read does
    not stop the handshake, for the Flight client drops the exception of
    its middleware.  Nothing is assigned, and a privileged call goes on
    with what the middleware held before: without a token it raises
    AttributeError and forwards nothing; with the token and the address of
    an earlier handshake it forwards that token, and a remote projection
    is forwarded for sure. *)
Theorem handshake_without_authorization self c (w w1 : world) hs f e :
  classify self c w = (inr true, w1) →
  authenticate_basic_token (fst (_auth self)) (snd (_auth self)) (client w1) = (inr hs, f) →
  _read_auth_header (headers_get hs "authorization") = inl e →
  received_headers hs (middleware w1) = (inl e, middleware w1)
  ∧ (_token (middleware w1) = None →
     fst (call_endpoint self c w) = inl (AttributeError "_token")
     ∧ heap (snd (call_endpoint self c w)) = heap w1
     ∧ middleware (snd (call_endpoint self c w)) = middleware w1
     ∧ forwards (trace (snd (call_endpoint self c w))) = forwards (trace w1))
  ∧ (∀ t a,
       middleware w1 = {| _token := Some t; _arrow_address := Some a |} →
       ∃ rest,
         trace (snd (call_endpoint self c w))
         = trace w1 ++ Handshake (fst (_auth self)) (snd (_auth self)) :: rest
         ∧ (rest = []
            ∨ ∃ c' σ', rest = [Forward c' σ'] ∧ injected_token σ' c' = Some (VStr t))
         ∧ (c_endpoint c = GDS_REMOTE_PROJECTION_PROC_NAME → rest ≠ [])).
Proof.
  intros Hclass Hauth Hheader.
  assert (received_headers hs (middleware w1) = (inl e, middleware w1)) as Hread.
  { unfold received_headers. by rewrite Hheader. }
  split; [done|]. split.
  - intros Hnone.
    rewrite (get_or_request_fails_call self c w w1
               (set_middleware (middleware w1)
                  (set_client f (log (Handshake (fst (_auth self)) (snd (_auth self))) w1)))
               (AttributeError "_token") Hclass).
    + repeat split. cbn [snd trace set_client set_middleware log]. unfold forwards.
      rewrite tally_app. unfold tally at 2. simpl. lia.
    + unfold _get_or_request_auth_pair.
      rewrite (bind_inr _ _ _ _ _ (authenticate_run _ _ w1 hs f Hauth)), Hread.
      cbn [snd]. unfold bind, lift, token. cbn [middleware set_middleware].
      by rewrite Hnone.
  - intros t a Hheld. apply (privileged_call_held self c w w1 hs f t a Hclass Hauth).
    unfold holds_after. by rewrite Hread.
Qed.

(** X3: the token is only ever assigned by a Bearer response.  When the
    middleware holds no token yet and the response to the handshake has
    another scheme, reading the token raises AttributeError: a privileged
    call forwards nothing and the store stays as it was, although the
    address of the response has been taken over. *)
Theorem handshake_without_bearer self c (w w1 : world) hs f s scheme credential a :
  classify self c w = (inr true, w1) →
  _token (middleware w1) = None →
  authenticate_basic_token (fst (_auth self)) (snd (_auth self)) (client w1) = (inr hs, f) →
  auth_text (headers_get hs "authorization") = Some s →
  s = scheme +:+ " " +:+ credential →
  PyStr.count " " scheme = O →
  scheme ≠ "Bearer" →
  carries_address hs a →
  fst (call_endpoint self c w) = inl (AttributeError "_token")
  ∧ heap (snd (call_endpoint self c w)) = heap w1
  ∧ middleware (snd (call_endpoint self c w))
    = {| _token := None; _arrow_address := Some a |}
  ∧ forwards (trace (snd (call_endpoint self c w))) = forwards (trace w1).
Proof.
  intros Hclass Hnone Hauth Htext Hs Hscheme Hne Ha.
  rewrite (get_or_request_fails_call self c w w1
             (set_middleware {| _token := None; _arrow_address := Some a |}
                (set_client f (log (Handshake (fst (_auth self)) (snd (_auth self))) w1)))
             (AttributeError "_token") Hclass).
  - repeat split. cbn [snd trace set_client set_middleware log]. unfold forwards.
    rewrite tally_app. unfold tally at 2. simpl. lia.
  - unfold _get_or_request_auth_pair.
    rewrite (bind_inr _ _ _ _ _ (authenticate_run _ _ w1 hs f Hauth)).
    assert (snd (received_headers hs (middleware w1))
            = {| _token := None; _arrow_address := Some a |}) as ->.
    { unfold received_headers.
      rewrite (read_auth_header_text _ s scheme credential Htext Hs Hscheme).
      destruct (String.eqb_spec scheme "Bearer") as [|_]; [done|].
      rewrite Ha. cbn [snd]. by rewrite Hnone. }
    reflexivity.
Qed.

(** *** The lookup and the write branch, when things are missing *)

Lemma squeeze_scalar df v :
  squeeze df = SqScalar v → length (df_columns df) = 1%nat ∧ df_rows df = [[v]].
Proof.
  unfold squeeze.
  destruct (df_columns df) as [|col [|col' cols]], (df_rows df) as [|[|v' [|v'' row]] [|row' rows]];
    simpl; intros H; by simplify_eq.
Qed.

(** X4: the lookup must come back as one row of one column.  When
    [gds.graph.list] lists no graph of that name, or several rows, the
    comparison with "remote" is an array without a truth value: the call
    raises ValueError after the lookup, makes no handshake and forwards
    nothing. *)
Theorem lookup_not_a_single_value self c (w : world) p g df d :
  PyStr.endswith (c_endpoint c) ".write" = true →
  c_params c = Some p →
  contents (heap w) p !! "graph_name" = Some g →
  fallback_call_procedure (graph_list (fresh (dom (heap w))))
    (<[fresh (dom (heap w)) := graph_name_params g]> (heap w)) (fallback w) = (inr df, d) →
  length (df_rows df) ≠ 1%nat ∨ length (df_columns df) ≠ 1%nat →
  call_endpoint self c w
  = (inl (ValueError "The truth value of a Series is ambiguous"), looked_up g d w)
  ∧ handshakes (trace (snd (call_endpoint self c w))) = handshakes (trace w)
  ∧ forwards (trace (snd (call_endpoint self c w))) = forwards (trace w).
Proof.
  intros Hends Hp Hg Hlookup Hshape.
  rewrite (write_call_after_lookup self c w p g _ d Hends Hp Hg Hlookup).
  assert (eq_str (squeeze df) "remote" = CmpArray) as ->.
  { destruct (squeeze df) as [v| |] eqn:Hsq; try done.
    apply squeeze_scalar in Hsq as [Hc Hr].
    destruct Hshape as [H|H]; [by rewrite Hr in H | done]. }
  cbn [truth snd]. split; [done|].
  split; cbn [trace looked_up set_fallback log set_heap]; unfold handshakes, forwards;
    rewrite tally_app; unfold tally at 2; simpl; lia.
Qed.

(** X5: an exception of the lookup is the outcome of the call: one lookup,
    no handshake, nothing forwarded, and the caller's dictionaries as they
    were. *)
Theorem lookup_raises self c (w : world) p g e d :
  PyStr.endswith (c_endpoint c) ".write" = true →
  c_params c = Some p →
  contents (heap w) p !! "graph_name" = Some g →
  fallback_call_procedure (graph_list (fresh (dom (heap w))))
    (<[fresh (dom (heap w)) := graph_name_params g]> (heap w)) (fallback w) = (inl e, d) →
  call_endpoint self c w = (inl e, looked_up g d w)
  ∧ lookups (trace (snd (call_endpoint self c w))) = S (lookups (trace w))
  ∧ handshakes (trace (snd (call_endpoint self c w))) = handshakes (trace w)
  ∧ forwards (trace (snd (call_endpoint self c w))) = forwards (trace w)
  ∧ ∀ l, l ∈ dom (heap w) → heap (snd (call_endpoint self c w)) !! l = heap w !! l.
Proof.
  intros Hends Hp Hg Hlookup.
  rewrite (write_call_after_lookup self c w p g _ d Hends Hp Hg Hlookup).
  split; [done|]. cbn [snd]. split; [|split; [|split]].
  1-3: cbn [trace looked_up set_fallback log set_heap];
       unfold lookups, handshakes, forwards; rewrite tally_app; unfold tally at 2;
       simpl; lia.
  intros l Hl. by apply heap_looked_up.
Qed.

(** X6: on the write branch the intercepted address must read
    [host:port] with exactly one colon and a port that [int] accepts.
    Otherwise the call raises ValueError after the handshake: nothing is
    forwarded and no dictionary is created or changed. *)
Theorem write_with_malformed_address self c (w : world) p g df d hs f t a :
  PyStr.endswith (c_endpoint c) ".write" = true →
  c_params c = Some p →
  contents (heap w) p !! "graph_name" = Some g →
  fallback_call_procedure (graph_list (fresh (dom (heap w))))
    (<[fresh (dom (heap w)) := graph_name_params g]> (heap w)) (fallback w) = (inr df, d) →
  squeeze df = SqScalar (VStr "remote") →
  authenticate_basic_token (fst (_auth self)) (snd (_auth self)) (client w) = (inr hs, f) →
  carries_bearer hs t → carries_address hs a →
  PyStr.count ":" a ≠ 1%nat
  ∨ (∃ host port_string,
       a = host +:+ ":" +:+ port_string ∧ PyStr.count ":" host = O
       ∧ PyStr.count ":" port_string = O ∧ int port_string = None) →
  ∃ msg,
    call_endpoint self c w
    = (inl (ValueError msg), after_handshake self t a f (looked_up g d w)).
Proof.
  intros Hends Hp Hg Hlookup Hsq Hauth Ht Ha Hbad.
  rewrite (remote_write_call self c w p g df d hs f t a) by done.
  unfold bind at 1; unfold_inject_write.
  destruct Hbad as [Hcount|(host & port_string & -> & Hh & Hps & Hint)].
  - destruct (PyStrFacts.unpack2_length (PyStr.split ":" None a)) as [msg Hmsg].
    { rewrite PyStrFacts.length_split. lia. }
    rewrite Hmsg. eauto.
  - change (":" +:+ port_string) with (String ":" port_string).
    rewrite PyStrFacts.split_pair by done.
    unfold unpack2, lift at 1, bind at 1, ret at 1, py_int. rewrite Hint. eauto.
Qed.

(** X7: when [params] hold something under [config] that is no
    dictionary, the assignment of the write branch raises TypeError:
    nothing is forwarded and every object of the caller is as it was. *)
Theorem write_with_config_not_a_dict self c (w : world) p g df d hs f t
    host port_string port v :
  PyStr.endswith (c_endpoint c) ".write" = true →
  c_params c = Some p →
  contents (heap w) p !! "graph_name" = Some g →
  fallback_call_procedure (graph_list (fresh (dom (heap w))))
    (<[fresh (dom (heap w)) := graph_name_params g]> (heap w)) (fallback w) = (inr df, d) →
  squeeze df = SqScalar (VStr "remote") →
  authenticate_basic_token (fst (_auth self)) (snd (_auth self)) (client w) = (inr hs, f) →
  carries_bearer hs t → carries_address hs (host +:+ ":" +:+ port_string) →
  PyStr.count ":" host = O → PyStr.count ":" port_string = O →
  int port_string = Some port →
  contents (heap w) p !! "config" = Some v →
  (∀ l, v ≠ VDict l) →
  (∃ msg, fst (call_endpoint self c w) = inl (TypeError msg))
  ∧ forwards (trace (snd (call_endpoint self c w))) = forwards (trace w)
  ∧ ∀ l, l ∈ dom (heap w) → heap (snd (call_endpoint self c w)) !! l = heap w !! l.
Proof.
  intros Hends Hp Hg Hlookup Hsq Hauth Ht Ha Hh Hps Hint Hconfig Hv.
  rewrite (remote_write_call self c w p g df d hs f t _) by done.
  assert (p ∈ dom (heap w)) as Hdom by eauto using contents_dom.
  set (w2 := after_handshake self t (host +:+ ":" +:+ port_string) f (looked_up g d w)).
  assert (∀ l, l ∈ dom (heap w) → l ∈ dom (heap w2) ∧ heap w2 !! l = heap w !! l) as Hw2.
  { intros l Hl. cbn [w2 heap after_handshake set_middleware set_client log].
    rewrite heap_looked_up by done. split; [|done].
    apply elem_of_dom. rewrite heap_looked_up by done. by apply elem_of_dom. }
  assert (∃ msg,
            bind (inject_write self p t (host +:+ ":" +:+ port_string)) (λ _, forward c) w2
            = (inl (TypeError msg),
               set_heap (<[fresh (dom (heap w2)) :=
                             arrow_connection_info host port t (_encrypted self)]>
                           (heap w2)) w2)) as [msg ->].
  { unfold bind at 1; unfold_inject_write.
    change (":" +:+ port_string) with (String ":" port_string).
    rewrite PyStrFacts.split_pair by done.
    unfold unpack2, lift at 1, bind at 1, ret at 1, py_int. rewrite Hint.
    unfold lift, bind at 1 2, ret, new_dict. cbn [heap set_heap].
    unfold bind, getitem. cbn [heap set_heap].
    rewrite contents_insert_ne by (apply not_eq_sym, fresh_ne; by apply Hw2).
    unfold contents at 1. rewrite (proj2 (Hw2 p Hdom)). fold (contents (heap w) p).
    rewrite Hconfig.
    destruct v; try (eexists; reflexivity). by destruct (Hv l). }
  cbn [fst snd heap trace set_heap]. split; [eauto|]. split.
  - unfold w2.
    cbn [trace after_handshake set_middleware set_client log looked_up set_fallback
         set_heap]. unfold forwards. rewrite !tally_app. unfold tally at 2 3. simpl. lia.
  - intros l Hl. rewrite lookup_insert_ne by (apply not_eq_sym, fresh_ne; by apply Hw2).
    by apply Hw2.
Qed.

(** X8: a remote projection called without [params] forwards a
    dictionary of its own making that holds just the three injected
    entries, and leaves every object the caller has untouched. *)
Theorem projection_without_params self c (w : world) hs f t a :
  c_endpoint c = GDS_REMOTE_PROJECTION_PROC_NAME →
  c_params c = None →
  authenticate_basic_token (fst (_auth self)) (snd (_auth self)) (client w) = (inr hs, f) →
  carries_bearer hs t → carries_address hs a →
  ∃ p config σ',
    (p ∉ dom (heap w))
    ∧ last (trace (snd (call_endpoint self c w))) = Some (Forward (with_params c p) σ')
    ∧ fst (call_endpoint self c w)
      = fst (fallback_call_endpoint (with_params c p) σ' (fallback w))
    ∧ contents σ' p =
        <["config" := VDict config]>
          (<["host" := VStr a]> (<["token" := VStr t]> ∅))
    ∧ contents σ' config = {[ "useEncryption" := VBool (_encrypted self) ]}
    ∧ ∀ l, l ∈ dom (heap w) → heap (snd (call_endpoint self c w)) !! l = heap w !! l.
Proof.
  clear client_close. intros Hname Hp Hauth Ht Ha.
  set (p := fresh (dom (heap w))).
  set (w0 := set_heap (<[p := ∅]> (heap w)) w).
  rewrite (projection_run_given self c w w0 p hs f t a); try done; [|by rewrite Hp].
  destruct (projected_spec (heap w0) p t a (_encrypted self))
    as (config & Hfresh & Hne & Hparams & Hconfig & Hother).
  exists p, config, (projected (heap w0) p t a (_encrypted self)).
  assert (p ∉ dom (heap w)) as Hp_fresh by apply is_fresh.
  split; [done|]. rewrite trace_forward, heap_forward. split; [by rewrite last_snoc|].
  split; [|split; [|split; [done|]]].
  - unfold fallback_endpoint.
    cbn [log heap fallback set_heap after_handshake set_middleware set_client w0].
    by destruct (fallback_call_endpoint _ _ _).
  - rewrite Hparams. cbn [w0 heap set_heap]. by rewrite contents_insert.
  - intros l Hl. cbn [heap set_heap]. rewrite Hother.
    + cbn [w0 heap set_heap]. rewrite lookup_insert_ne; [done|]. by intros ->.
    + by intros ->.
    + intros ->. apply Hfresh. cbn [w0 heap set_heap]. rewrite dom_insert_L. set_solver.
Qed.

(** *** What a call leaves alone *)

Lemma frame_inject_write self p t a (w : world) l :
  l ∈ dom (heap w) →
  contents (heap w) p !! "config" ≠ Some (VDict l) →
  heap (snd (inject_write self p t a w)) !! l = heap w !! l.
Proof.
  intros Hl Hconfig. unfold_inject_write.
  destruct (unpack2 _) as [e|[host port_string]]; [done|].
  unfold lift at 1, bind at 1, ret at 1.
  destruct (py_int int port_string) as [e|port]; [done|].
  unfold lift, bind at 1 2, ret, new_dict. cbn [heap set_heap].
  set (info := fresh (dom (heap w))).
  set (σ := <[info := arrow_connection_info host port t (_encrypted self)]> (heap w)).
  assert (l ≠ info) as Hne by (by apply fresh_ne).
  assert (σ !! l = heap w !! l) as Hσ by (unfold σ; by rewrite lookup_insert_ne).
  unfold bind, getitem. cbn [heap set_heap].
  destruct (contents σ p !! "config") as [v|] eqn:Hv; [|done].
  destruct v as [| | | | |config]; try done.
  unfold setitem_value, setitem. cbn [snd heap set_heap].
  rewrite lookup_insert_ne; [done|]. intros ->. apply Hconfig.
  destruct (decide (p = info)) as [->|Hp].
  - unfold σ in Hv. by rewrite contents_insert in Hv.
  - unfold σ in Hv. by rewrite contents_insert_ne in Hv.
Qed.

Lemma frame_projection_branch self c' p (w : world) l :
  l ∈ dom (heap w) → l ≠ p →
  heap (snd (bind (bind (get_or_request self)
                     (λ '(t, a), inject_projection self p t a))
               (λ _, forward c') w)) !! l = heap w !! l.
Proof.
  intros Hl Hne. pose proof (heap_get_or_request self w) as Hheap.
  unfold bind at 1 2.
  destruct (get_or_request self w) as [[e|[t a]] w1]; cbn [snd] in Hheap; cbv beta iota.
  { cbn [snd]. by rewrite Hheap. }
  change (inject_projection self p t a w1)
    with (inr (A := exn) tt, set_heap (projected (heap w1) p t a (_encrypted self)) w1).
  cbv beta iota. rewrite heap_forward. cbn [heap set_heap]. rewrite Hheap.
  destruct (projected_spec (heap w) p t a (_encrypted self))
    as (config & Hfresh & _ & _ & _ & Hother).
  apply Hother; [done|]. by intros ->.
Qed.

Lemma frame_write_branch self c' p remote (w : world) l :
  l ∈ dom (heap w) →
  contents (heap w) p !! "config" ≠ Some (VDict l) →
  heap (snd (bind (write_branch self p remote) (λ _, forward c') w)) !! l = heap w !! l.
Proof.
  intros Hl Hconfig. unfold bind at 1; unfold_write_branch.
  destruct remote; [|unfold ret; cbv beta iota; by rewrite heap_forward].
  pose proof (heap_get_or_request self w) as Hheap. unfold bind at 1.
  destruct (get_or_request self w) as [[e|[t a]] w1]; cbn [snd] in Hheap; cbv beta iota.
  { cbn [snd]. by rewrite Hheap. }
  pose proof (frame_inject_write self p t a w1 l) as Hframe.
  rewrite Hheap in Hframe.
  specialize (Hframe Hl Hconfig).
  destruct (inject_write self p t a w1) as [[e|[]] w2]; cbn [snd] in Hframe; [done|].
  by rewrite heap_forward.
Qed.

(** X9: whatever a call does and however it ends, the only objects of
    the caller it can have changed are the [params] dictionary and the
    dictionary found under [params["config"]]; every other object is as it
    was, and none is lost. *)
Theorem call_endpoint_frame self c (w : world) l :
  l ∈ dom (heap w) →
  c_params c ≠ Some l →
  (∀ p, c_params c = Some p → contents (heap w) p !! "config" ≠ Some (VDict l)) →
  heap (snd (call_endpoint self c w)) !! l = heap w !! l.
Proof.
  intros Hl Hparams Hconfig. rewrite call_endpoint_eq.
  assert (∃ p w0, given_params (c_params c) w = (inr p, w0)
                  ∧ l ≠ p ∧ l ∈ dom (heap w0) ∧ heap w0 !! l = heap w !! l
                  ∧ contents (heap w0) p !! "config" ≠ Some (VDict l))
    as (p & w0 & Hp & Hne & Hl0 & Hsame & Hconfig0).
  { destruct (c_params c) as [p|] eqn:Hc.
    - exists p, w. repeat split; auto. by intros ->.
    - exists (fresh (dom (heap w))), (set_heap (<[fresh (dom (heap w)) := ∅]> (heap w)) w).
      cbn [given_params heap set_heap]. split; [done|]. split; [by apply fresh_ne|].
      split; [rewrite dom_insert_L; set_solver|].
      split; [rewrite lookup_insert_ne; [done|]; by apply not_eq_sym, fresh_ne|].
      by rewrite contents_insert. }
  rewrite (bind_inr _ _ _ _ _ Hp), <- Hsame. clear Hp Hsame Hparams Hconfig.
  destruct (String.eqb GDS_REMOTE_PROJECTION_PROC_NAME (c_endpoint c)).
  { by apply frame_projection_branch. }
  destruct (PyStr.endswith (c_endpoint c) ".write").
  - destruct (contents (heap w0) p !! "graph_name") as [g|] eqn:Hg.
    + destruct (fallback_call_procedure (graph_list (fresh (dom (heap w0))))
                  (<[fresh (dom (heap w0)) := graph_name_params g]> (heap w0))
                  (fallback w0)) as [r d] eqn:Hlookup.
      unfold bind at 1 2. rewrite (remote_check_run self w0 p g r d Hg Hlookup).
      assert (p ∈ dom (heap w0)) as Hpdom by eauto using contents_dom.
      destruct (match r with inl e => inl e | inr df => _ end) as [e|remote];
        cbv beta iota.
      { cbn [snd]. by apply heap_looked_up. }
      rewrite <- (heap_looked_up g d w0 l Hl0).
      apply (frame_write_branch self (with_params c p) p remote (looked_up g d w0) l).
      * apply elem_of_dom. rewrite heap_looked_up by done. by apply elem_of_dom.
      * unfold contents. by rewrite heap_looked_up.
    + unfold bind at 1 2 3, getitem. by rewrite Hg.
  - unfold bind at 1 2, ret. cbv beta iota.
    apply (frame_write_branch self (with_params c p) p false w0 l Hl0 Hconfig0).
Qed.

(** *** The order of events *)

(** X10: a call meets its collaborators in one order and each at most
    once: the lookup, then the handshake, then the forwarding; however the
    call ends, what it adds to the trace is a part of that sequence. *)
Theorem call_endpoint_in_order self c (w : world) :
  ∃ evs, trace (snd (call_endpoint self c w)) = trace w ++ evs ∧ ascending 0 evs = true.
Proof.
  rewrite call_endpoint_eq.
  destruct (given_params_run (c_params c) w) as (p & w0 & Hp & <- & _).
  rewrite (bind_inr _ _ _ _ _ Hp). clear Hp.
  assert (∀ (inject : string → string → M unit) (w1 : world),
            (∀ t a, silent (inject t a)) →
            ∃ evs, trace (snd (bind (bind (get_or_request self) (λ '(t, a), inject t a))
                                 (λ _, forward (with_params c p)) w1))
                   = trace w1 ++ evs
                   ∧ ascending 1 evs = true) as Hshake.
  { intros inject w1 Hsilent.
    destruct (shake_then_forward self inject (with_params c p) w1 Hsilent)
      as (rest & -> & [->|[σ' ->]]); eauto. }
  destruct (String.eqb GDS_REMOTE_PROJECTION_PROC_NAME (c_endpoint c)).
  { destruct (Hshake (inject_projection self p) w0) as (evs & -> & Hasc);
      [intros; apply silent_inject_projection|].
    exists evs. split; [done|]. by destruct evs as [|[] [|[] [|]]]. }
  destruct (PyStr.endswith (c_endpoint c) ".write").
  - destruct (contents (heap w0) p !! "graph_name") as [g|] eqn:Hg.
    + destruct (fallback_call_procedure (graph_list (fresh (dom (heap w0))))
                  (<[fresh (dom (heap w0)) := graph_name_params g]> (heap w0))
                  (fallback w0)) as [r d] eqn:Hlookup.
      unfold bind at 1 2. rewrite (remote_check_run self w0 p g r d Hg Hlookup).
      assert (trace (looked_up g d w0)
              = trace w0 ++ [Lookup (graph_list (fresh (dom (heap w0))))
                               (<[fresh (dom (heap w0)) := graph_name_params g]> (heap w0))])
        as Htrace by done.
      destruct (match r with inl e => inl e | inr df => _ end) as [e|[|]];
        cbv beta iota.
      * cbn [snd]. rewrite Htrace. eauto.
      * destruct (Hshake (inject_write self p) (looked_up g d w0)) as (evs & Hevs & Hasc);
          [intros; apply silent_inject_write|].
        eexists (_ :: evs). split.
        { etransitivity; [exact Hevs|]. by rewrite Htrace, <- app_assoc. }
        exact Hasc.
      * eexists [_; _]. split.
        { etransitivity; [exact (trace_forward (with_params c p) (looked_up g d w0))|].
          by rewrite Htrace, <- app_assoc. }
        reflexivity.
    + unfold bind at 1 2 3, getitem. rewrite Hg. exists []. by rewrite app_nil_r.
  - eexists [_]. split; [exact (trace_forward (with_params c p) w0) | reflexivity].
Qed.

(** X15: the lookup belongs to the endpoints that end in ".write" and to
    no others: a call of any other endpoint never asks [gds.graph.list],
    however it ends. *)
Theorem no_lookup_unless_write self c (w : world) :
  (∀ a, c_endpoint c ≠ a +:+ ".write") →
  lookups (trace (snd (call_endpoint self c w))) = lookups (trace w).
Proof.
  intros Hends.
  assert (PyStr.endswith (c_endpoint c) ".write" = false) as Hfalse.
  { destruct (PyStr.endswith (c_endpoint c) ".write") eqn:H; [|done].
    apply endswith_iff in H as [a Ha]. by destruct (Hends a). }
  rewrite call_endpoint_eq, Hfalse.
  apply (quiet_bind is_lookup); [quiet|]. intros p.
  apply quiet_bind; [|intros; apply quiet_forward_lookup].
  destruct (String.eqb GDS_REMOTE_PROJECTION_PROC_NAME (c_endpoint c)).
  - apply quiet_bind; [apply quiet_get_or_request|].
    intros [t a]. apply quiet_silent, silent_inject_projection.
  - apply quiet_bind; [quiet|]. intros remote. apply quiet_write_branch.
Qed.

End RunnerFacts.

(** ** The theorems at work on the scripted collaborators *)

Lemma call_endpoint_ordinary_witness :
  Scripted.call_endpoint Scripted.self
    (Scripted.request "gds.pageRank.stream" (Some 1%positive))
    (Scripted.start Scripted.caller_store [] (Scripted.server []))
  = fallback_endpoint (λ _ _, Scripted.answer)
      (Scripted.request "gds.pageRank.stream" (Some 1%positive))
      (Scripted.start Scripted.caller_store [] (Scripted.server [])).
Proof.
  refine (proj1 (proj1 (call_endpoint_ordinary PyStr.int (λ _ _, Scripted.answer)
                          (λ _ _, Scripted.answer) Scripted.handshake Scripted.self
                          (Scripted.request "gds.pageRank.stream" (Some 1%positive))
                          (Scripted.start Scripted.caller_store [] (Scripted.server []))
                          _) 1%positive eq_refl eq_refl)).
  discriminate.
Defined.

(** Against C4 as stated: "gds.pageRank.write" called without [params]
    is not the remote projection and is not classified as a write on a
    remotely projected graph, and the fallback has an answer for the call;
    yet the runner raises KeyError and the fallback is never asked. *)
Lemma write_without_params_counterexample :
  let c := Scripted.request "gds.pageRank.write" None in
  let answer := {| df_columns := ["writeMillis"]; df_rows := [[VInt 7]] |} in
  let w := Scripted.start ∅ [inr answer] (Scripted.server []) in
  c_endpoint c ≠ GDS_REMOTE_PROJECTION_PROC_NAME
  ∧ privileged (F := Scripted.F) (λ _ _, Scripted.answer) Scripted.self c w = false
  ∧ fst (fallback_endpoint (F := Scripted.F) (λ _ _, Scripted.answer) c w) = inr answer
  ∧ fst (Scripted.call_endpoint Scripted.self c w) = inl (KeyError "graph_name")
  ∧ trace (snd (Scripted.call_endpoint Scripted.self c w)) = []
  ∧ fallback (snd (Scripted.call_endpoint Scripted.self c w)) = [inr answer].
Proof. split; [discriminate|]. repeat split; vm_compute; reflexivity. Qed.

(** Against C5 as stated: a call of an endpoint ending in ".write" whose
    [params] hold no [graph_name] raises KeyError before any lookup. *)
Lemma write_without_graph_name_counterexample :
  PyStr.endswith "gds.pageRank.write" ".write" = true
  ∧ fst (Scripted.call_endpoint Scripted.self
           (Scripted.request "gds.pageRank.write" (Some 2%positive))
           (Scripted.start Scripted.caller_store [inr (Scripted.location_frame "local")]
              (Scripted.server [])))
    = inl (KeyError "graph_name")
  ∧ lookups (trace (snd (Scripted.call_endpoint Scripted.self
                           (Scripted.request "gds.pageRank.write" (Some 2%positive))
                           (Scripted.start Scripted.caller_store
                              [inr (Scripted.location_frame "local")]
                              (Scripted.server [])))))
    = O.
Proof. repeat split; vm_compute; reflexivity. Qed.

Lemma write_lookup_once_witness :
  lookups (trace (snd (Scripted.call_endpoint Scripted.self
                         (Scripted.request "gds.pageRank.write" (Some 1%positive))
                         (Scripted.start Scripted.caller_store
                            [inr (Scripted.location_frame "local")]
                            (Scripted.server [])))))
  = 1%nat.
Proof.
  refine (proj1 (write_lookup_once PyStr.int (λ _ _, Scripted.answer)
                   (λ _ _, Scripted.answer)
                   Scripted.handshake Scripted.self
                   (Scripted.request "gds.pageRank.write" (Some 1%positive))
                   (Scripted.start Scripted.caller_store
                      [inr (Scripted.location_frame "local")] (Scripted.server []))
                   1%positive (VStr "g") _ _ _)); reflexivity.
Defined.

Lemma projection_handshake_then_injection_witness :
  let c := Scripted.request "gds.graph.project.remoteDb" (Some 1%positive) in
  let w := Scripted.start Scripted.bare_store []
             (Scripted.server [inr (Scripted.bearer "T" "h2:5")]) in
  handshakes (trace (snd (Scripted.call_endpoint Scripted.self c w))) = 1%nat
  ∧ ∃ config σ',
      trace (snd (Scripted.call_endpoint Scripted.self c w))
      = [Handshake "neo4j" "secret"; Forward c σ']
      ∧ contents σ' 1%positive
        = <["config" := VDict config]>
            (<["host" := VStr "h2:5"]>
               (<["token" := VStr "T"]> (contents Scripted.bare_store 1%positive)))
      ∧ contents σ' config = {[ "useEncryption" := VBool true ]}.
Proof.
  intros c w.
  destruct (projection_handshake_then_injection PyStr.int (λ _ _, Scripted.answer)
              (λ _ _, Scripted.answer) Scripted.handshake Scripted.self c w eq_refl)
    as (Hcount & _ & Hinject & Hbearer & _).
  split; [exact Hcount|].
  destruct (Hinject 1%positive (Scripted.bearer "T" "h2:5") (Scripted.server []) "T" "h2:5"
              eq_refl eq_refl
              (Hbearer (Scripted.bearer "T" "h2:5") "T" "h2:5" eq_refl eq_refl))
    as (config & σ' & Htrace & _ & Hparams & Hconfig & _).
  exists config, σ'. auto.
Defined.

(** Against C6 as stated: the second of two remote projections is
    answered with a Basic authorization header; the token it injects is
    the one the first handshake had brought, next to the address of the
    second. *)
Lemma projection_keeps_old_token_counterexample :
  let c := Scripted.request "gds.graph.project.remoteDb" (Some 1%positive) in
  let w := Scripted.start Scripted.bare_store []
             (Scripted.server [inr (Scripted.bearer "T1" "h:1");
                               inr (Scripted.basic "xyz" "h:2")]) in
  let w1 := snd (Scripted.call_endpoint Scripted.self c w) in
  let w2 := snd (Scripted.call_endpoint Scripted.self c w1) in
  Scripted.responses (client w1) = [inr (Scripted.basic "xyz" "h:2")]
  ∧ headers_get (Scripted.basic "xyz" "h:2") "authorization" = HStr "Basic xyz"
  ∧ handshakes (trace w2) = 2%nat
  ∧ forwards (trace w2) = 2%nat
  ∧ contents (heap w2) 1%positive !! "token" = Some (VStr "T1")
  ∧ contents (heap w2) 1%positive !! "host" = Some (VStr "h:2").
Proof. repeat split; vm_compute; reflexivity. Qed.



Lemma injection_mutates_in_place_witness :
  (∃ config,
     (config ∉ dom Scripted.caller_store)
     ∧ contents (heap (snd (Scripted.call_endpoint Scripted.self
                              (Scripted.request "gds.graph.project.remoteDb" (Some 1%positive))
                              (Scripted.start Scripted.caller_store []
                                 (Scripted.server [inr (Scripted.bearer "T" "h2:5")])))))
         1%positive !! "config" = Some (VDict config)
     ∧ contents (heap (snd (Scripted.call_endpoint Scripted.self
                              (Scripted.request "gds.graph.project.remoteDb" (Some 1%positive))
                              (Scripted.start Scripted.caller_store []
                                 (Scripted.server [inr (Scripted.bearer "T" "h2:5")])))))
         config = {[ "useEncryption" := VBool true ]})
  ∧ (∃ info,
       (info ∉ dom Scripted.caller_store)
       ∧ contents (heap (snd (Scripted.call_endpoint Scripted.self
                                (Scripted.request "x.write" (Some 1%positive))
                                (Scripted.start Scripted.caller_store
                                   [inr (Scripted.location_frame "remote")]
                                   (Scripted.server [inr (Scripted.bearer "T" "h2:5")])))))
           2%positive
         = <["arrowConnectionInfo" := VDict info]> (contents Scripted.caller_store 2%positive)
       ∧ contents (heap (snd (Scripted.call_endpoint Scripted.self
                                (Scripted.request "x.write" (Some 1%positive))
                                (Scripted.start Scripted.caller_store
                                   [inr (Scripted.location_frame "remote")]
                                   (Scripted.server [inr (Scripted.bearer "T" "h2:5")])))))
           info
         = {[ "hostname" := VStr "h2"; "port" := VInt 5; "bearerToken" := VStr "T";
              "useEncryption" := VBool true ]}).
Proof.
  split.
  - destruct (proj1 (injection_mutates_in_place PyStr.int (λ _ _, Scripted.answer)
                       (λ _ _, Scripted.answer) Scripted.handshake Scripted.self
                       (Scripted.request "gds.graph.project.remoteDb" (Some 1%positive))
                       (Scripted.start Scripted.caller_store []
                          (Scripted.server [inr (Scripted.bearer "T" "h2:5")]))
                       1%positive (Scripted.bearer "T" "h2:5") (Scripted.server []) "T" "h2:5"
                       eq_refl eq_refl eq_refl) eq_refl)
      as (config & Hfresh & _ & Hentry & Hconfig & _).
    exists config. auto.
  - destruct (proj2 (injection_mutates_in_place PyStr.int (λ _ _, Scripted.answer)
                       (λ _ _, Scripted.answer) Scripted.handshake Scripted.self
                       (Scripted.request "x.write" (Some 1%positive))
                       (Scripted.start Scripted.caller_store
                          [inr (Scripted.location_frame "remote")]
                          (Scripted.server [inr (Scripted.bearer "T" "h2:5")]))
                       1%positive (Scripted.bearer "T" "h2:5") (Scripted.server []) "T" "h2:5"
                       eq_refl eq_refl eq_refl)
                (VStr "g") (Scripted.location_frame "remote") [] "h2" "5" 5 2%positive
                eq_refl eq_refl eq_refl eq_refl eq_refl eq_refl eq_refl eq_refl eq_refl
                ltac:(reflexivity))
      as (info & Hfresh & Hconfig & _ & Hinfo).
    exists info. auto.
Defined.

(** Against C1 as stated: when closing the Flight client raises, the
    fallback query runner is not closed. *)
Lemma close_skips_fallback_counterexample :
  Scripted.close Scripted.self
    (Scripted.start ∅ [] {| Scripted.responses := []; Scripted.on_close := inl (Raised "transport") |})
  = (inl (Raised "transport"),
     {| heap := ∅; middleware := fresh_middleware; fallback := [];
        client := {| Scripted.responses := [];
                     Scripted.on_close := inl (Raised "transport") |};
        trace := [ClientClose] |}).
Proof. reflexivity. Qed.

Lemma close_in_sequence_witness :
  trace (snd (Scripted.close Scripted.self
                (Scripted.start ∅ []
                   {| Scripted.responses := [];
                      Scripted.on_close := inl (Raised "transport") |})))
  = [ClientClose]
  ∧ trace (snd (Scripted.close Scripted.self (Scripted.start ∅ [] (Scripted.server []))))
    = [ClientClose; FallbackClose].
Proof.
  split.
  - refine (proj1 (proj2 (proj1 (close_in_sequence (EndpointType := Scripted.EndpointType)
                                   (λ d : Scripted.D, (inr tt, d))
                                   (λ f, (Scripted.on_close f, f)) Scripted.self
                                   (Scripted.start ∅ []
                                      {| Scripted.responses := [];
                                         Scripted.on_close := inl (Raised "transport") |}))
                            (Raised "transport") _ eq_refl))).
  - refine (proj1 (proj2 (proj2 (close_in_sequence (EndpointType := Scripted.EndpointType)
                                   (λ d : Scripted.D, (inr tt, d))
                                   (λ f, (Scripted.on_close f, f)) Scripted.self
                                   (Scripted.start ∅ [] (Scripted.server [])))
                            _ (inr tt) [] eq_refl eq_refl))).
Defined.



(** ** More on the middleware *)

(** X11: an authorization header that cannot be read stops
    [received_headers] before anything is assigned: an empty list raises
    IndexError, a list whose first element is a [bytes] object raises
    TypeError, one whose first element has no [split] raises
    AttributeError, a text without a space raises ValueError, and in each
    case the middleware keeps the token and the address it had. *)
Theorem received_headers_refused_authorization (hs : headers)
    (self : AuthPairInterceptingMiddleware) :
  (∀ e, _read_auth_header (headers_get hs "authorization") = inl e →
        received_headers hs self = (inl e, self))
  ∧ (headers_get hs "authorization" = HList [] →
     ∃ msg, received_headers hs self = (inl (IndexError msg), self))
  ∧ (∀ r rest, headers_get hs "authorization" = HList (IBytes r :: rest) →
     ∃ msg, received_headers hs self = (inl (TypeError msg), self))
  ∧ (∀ r rest, headers_get hs "authorization" = HList (IOther r :: rest) →
     ∃ msg, received_headers hs self = (inl (AttributeError msg), self))
  ∧ (∀ s, auth_text (headers_get hs "authorization") = Some s →
          PyStr.count " " s = O →
          ∃ msg, received_headers hs self = (inl (ValueError msg), self)).
Proof.
  assert (∀ e, _read_auth_header (headers_get hs "authorization") = inl e →
               received_headers hs self = (inl e, self)) as Hstop.
  { intros e He. unfold received_headers. by rewrite He. }
  split; [done|]. split; [|split; [|split]].
  - intros Ha. eexists. apply Hstop. by rewrite Ha.
  - intros r rest Ha. eexists. apply Hstop. by rewrite Ha.
  - intros r rest Ha. eexists. apply Hstop. by rewrite Ha.
  - intros s Ha Hs. exists "not enough values to unpack (expected 2, got 1)".
    apply Hstop.
    assert (split_auth (IStr s)
            = inl (ValueError "not enough values to unpack (expected 2, got 1)"))
      as Hsplit.
    { unfold split_auth. by rewrite PyStrFacts.split_absent. }
    destruct (headers_get hs "authorization") as [s'|[|[s'| |] items]|]; simpl in Ha;
      try done; simplify_eq; exact Hsplit.
Qed.

(** X12: the token is assigned before the address header is looked at.
    A Bearer response whose address header is missing (or is neither a
    [str] nor a list) makes [received_headers] raise ValueError, and an
    empty address list makes it raise IndexError, yet the new token is in
    place and the old address still is. *)
Theorem received_headers_token_before_address (hs : headers)
    (self : AuthPairInterceptingMiddleware) (t : string) :
  carries_bearer hs t →
  (∀ e, _read_address_header (headers_get hs "arrowpluginaddress") = inl e →
        received_headers hs self
        = (inl e, {| _token := Some t; _arrow_address := _arrow_address self |}))
  ∧ (headers_get hs "arrowpluginaddress" = HOther →
     ∃ msg, received_headers hs self
            = (inl (ValueError msg),
               {| _token := Some t; _arrow_address := _arrow_address self |}))
  ∧ (headers_get hs "arrowpluginaddress" = HList [] →
     ∃ msg, received_headers hs self
            = (inl (IndexError msg),
               {| _token := Some t; _arrow_address := _arrow_address self |})).
Proof.
  intros Ht.
  assert (∀ e, _read_address_header (headers_get hs "arrowpluginaddress") = inl e →
               received_headers hs self
               = (inl e, {| _token := Some t; _arrow_address := _arrow_address self |}))
    as Hstop.
  { intros e He. unfold received_headers.
    rewrite (read_auth_header_text _ _ "Bearer" t Ht); [|done..]. by rewrite He. }
  split; [done|]. split; intros Ha; eexists; apply Hstop; by rewrite Ha.
Qed.

(** X13: the address is taken from every response that is read to the
    end, the token only from a Bearer one.  After a Bearer response and
    then a response of another scheme, the middleware holds the token of
    the first together with the address of the second. *)
Theorem token_and_address_from_different_responses (hs1 hs2 : headers)
    (self : AuthPairInterceptingMiddleware) (t1 a1 s scheme credential a2 : string) :
  carries_bearer hs1 t1 → carries_address hs1 a1 →
  auth_text (headers_get hs2 "authorization") = Some s →
  s = scheme +:+ " " +:+ credential →
  PyStr.count " " scheme = O →
  scheme ≠ "Bearer" →
  carries_address hs2 a2 →
  received_headers hs2 (snd (received_headers hs1 self))
  = (inr tt, {| _token := Some t1; _arrow_address := Some a2 |}).
Proof.
  intros Ht1 Ha1 Htext Hs Hscheme Hne Ha2.
  rewrite (received_headers_bearer hs1 self t1 a1 Ht1 Ha1). cbn [snd].
  unfold received_headers.
  rewrite (read_auth_header_text _ s scheme credential Htext Hs Hscheme), Ha2.
  by destruct (String.eqb_spec scheme "Bearer").
Qed.


(** ** More on construction *)

Section ConstructionEdges.

Context {EndpointType D F L : Type}.
Variable int : string → option Z.
Variable for_grpc_tls for_grpc_tcp : string → Z → exn + L.
Variable FlightClient : L → exn + F.
Variable fallback_call_endpoint : call (EndpointType := EndpointType) → store → D → (exn + DataFrame) * D.
Variable fallback_call_procedure : procedure_call → store → D → (exn + DataFrame) * D.
Variable authenticate_basic_token : string → string → F → (exn + headers) * F.

#[local] Abbreviation init :=
  (__init__ (EndpointType := EndpointType) (D := D) int for_grpc_tls for_grpc_tcp
     FlightClient).

(** X16: [__init__] goes by truth values, not by types.  In a status row
    of several columns a [running] field of 0, of the empty string, of an
    empty list or of [None] counts as not running; an empty address
    counts as no address; and an address that is true but no [str] (a
    number, say) has no [split] and raises AttributeError. *)
Theorem init_goes_by_truth_values (fallback : D) (info : AuraDbConnectionInfo)
    (driver : Driver) (σ : store) (status : DataFrame) (row : list value) (r : value) :
  arrow_status driver = inr status →
  df_rows status = [row] → length (df_columns status) ≠ 1%nat →
  entries (df_columns status) row "running" = [r] →
  (r ∈ [VNone; VBool false; VInt 0; VStr ""; VList []] →
   init fallback info driver σ
   = inl (RuntimeError ("The Arrow Server is not running at `" +:+ uri info +:+ "`")))
  ∧ (truthy σ r = true →
     (∀ a, entries (df_columns status) row "advertisedListenAddress" = [a] →
           a ∈ [VNone; VStr ""] →
           init fallback info driver σ
           = inl (ConnectionError "Did not retrieve connection info from database"))
     ∧ (∀ n, entries (df_columns status) row "advertisedListenAddress" = [VInt n] →
             n ≠ 0%Z →
             ∃ msg, init fallback info driver σ = inl (AttributeError msg))).
Proof.
  intros Hs Hrow Hlen Hr. unfold __init__. rewrite Hs.
  rewrite !(get_row σ status row _ Hrow Hlen), Hr. cbn [not_].
  split; [|intros Hrun; rewrite Hrun; cbn [negb]; split].
  - intros Hin. assert (truthy σ r = false) as ->; [|done].
    repeat (apply elem_of_cons in Hin as [->|Hin]; [done|]).
    by apply elem_of_nil in Hin.
  - intros a -> Hin. cbn [not_].
    assert (truthy σ a = false) as ->; [|done].
    repeat (apply elem_of_cons in Hin as [->|Hin]; [done|]).
    by apply elem_of_nil in Hin.
  - intros n -> Hn. cbn [not_ truthy]. destruct (Z.eqb_spec n 0); [done|].
    simpl. eauto.
Qed.

(** X17: what the collaborators raise during construction is what
    [__init__] raises: the exception of the status query, and, once the
    address has been read, the exception of the location constructor for
    a host or a port it refuses, and that of the Flight client. *)
Theorem init_passes_failures_on (fallback : D) (info : AuraDbConnectionInfo)
    (driver : Driver) (σ : store) :
  (∀ e, arrow_status driver = inl e → init fallback info driver σ = inl e)
  ∧ (∀ status r host port_string port,
       arrow_status driver = inr status →
       get σ (squeeze status) "running" = inr (Got r) → truthy σ r = true →
       get σ (squeeze status) "advertisedListenAddress"
       = inr (Got (VStr (host +:+ ":" +:+ port_string))) →
       PyStr.count ":" host = O → PyStr.count ":" port_string = O →
       int port_string = Some port →
       (∀ e, (if encrypted driver then for_grpc_tls host port
              else for_grpc_tcp host port) = inl e →
             init fallback info driver σ = inl e)
       ∧ (∀ location e,
            (if encrypted driver then for_grpc_tls host port
             else for_grpc_tcp host port) = inr location →
            FlightClient location = inl e →
            init fallback info driver σ = inl e)).
Proof.
  split.
  - intros e He. unfold __init__. by rewrite He.
  - intros status r host port_string port Hs Hr Hrun Ha Hh Hp Hint.
    rewrite (init_cut int for_grpc_tls for_grpc_tcp FlightClient fallback info driver σ
               status r host port_string) by done.
    unfold py_int. rewrite Hint. cbv beta iota. split.
    + by intros e ->.
    + intros location e ->. by intros ->.
Qed.

Lemma init_constructed (fallback : D) (info : AuraDbConnectionInfo)
    (driver : Driver) (σ : store) self w :
  init fallback info driver σ = inr (self, w) →
  ∃ f, (self, w) = constructed fallback info driver σ f.
Proof.
  unfold __init__. destruct (arrow_status driver) as [e|status]; [done|].
  destruct (get σ _ "running") as [e|running]; [done|].
  destruct (not_ σ running) as [e|[|]]; [done..|].
  destruct (get σ _ "advertisedListenAddress") as [e|listen_address]; [done|].
  destruct (not_ σ listen_address) as [e|[|]]; [done..|].
  destruct (split_address _) as [e|[host port_string]]; [done|].
  destruct (py_int int port_string) as [e|port]; [done|].
  destruct (if encrypted driver then _ else _) as [e|location]; [done|].
  destruct (FlightClient _) as [e|f]; [done|]. intros [= <- <-]. eauto.
Qed.

(** X18: a runner that [__init__] has returned starts without a token,
    and its first remote projection begins with a handshake under the
    credentials of the connection info it was built from; with a Bearer
    answer the [config] it forwards carries the encryption flag of the
    driver. *)
Theorem first_call_after_init (fallback : D) (info : AuraDbConnectionInfo)
    (driver : Driver) (σ : store) self w c :
  init fallback info driver σ = inr (self, w) →
  c_endpoint c = GDS_REMOTE_PROJECTION_PROC_NAME →
  token (middleware w) = inl (AttributeError "_token")
  ∧ (∃ rest,
       trace (snd (call_endpoint int fallback_call_endpoint fallback_call_procedure
                     authenticate_basic_token self c w))
       = Handshake (fst (auth info)) (snd (auth info)) :: rest)
  ∧ (∀ p hs f t a,
       c_params c = Some p →
       authenticate_basic_token (fst (auth info)) (snd (auth info)) (client w)
       = (inr hs, f) →
       carries_bearer hs t → carries_address hs a →
       ∃ config,
         contents (heap (snd (call_endpoint int fallback_call_endpoint
                                fallback_call_procedure authenticate_basic_token
                                self c w))) p !! "config"
         = Some (VDict config)
         ∧ contents (heap (snd (call_endpoint int fallback_call_endpoint
                                  fallback_call_procedure authenticate_basic_token
                                  self c w))) config
           = {[ "useEncryption" := VBool (encrypted driver) ]}).
Proof.
  intros Hinit Hname.
  destruct (init_constructed fallback info driver σ self w Hinit) as (f0 & Heq).
  assert (_auth self = auth info ∧ _encrypted self = encrypted driver
          ∧ middleware w = fresh_middleware ∧ trace w = []) as (Hauth & Henc & Hmw & Htr).
  { unfold constructed in Heq. by injection Heq as -> ->. }
  rewrite <- Hauth, <- Henc. split; [by rewrite Hmw|]. split.
  - rewrite call_endpoint_eq.
    destruct (given_params_run (c_params c) w) as (p & w0 & Hp & Ht & _).
    rewrite (bind_inr _ _ _ _ _ Hp), Hname, String.eqb_refl.
    destruct (shake_then_forward fallback_call_endpoint authenticate_basic_token self
                (inject_projection self p) (with_params c p) w0)
      as (rest & Hrest & _); [intros; apply silent_inject_projection|].
    exists rest. by rewrite Hrest, Ht, Htr.
  - intros p hs f t a Hp Hshake Htoken Ha.
    rewrite (projection_run int fallback_call_endpoint fallback_call_procedure
               authenticate_basic_token self c w p hs f t a) by done.
    rewrite heap_forward. cbn [heap set_heap].
    destruct (projected_spec int authenticate_basic_token (heap w) p t a (_encrypted self))
      as (config & _ & _ & Hparams & Hconfig & _).
    exists config. split; [|done]. by rewrite Hparams, lookup_insert_eq.
Qed.

End ConstructionEdges.

(** ** The endpoint objects *)

Lemma append_assoc (a b c : string) : (a +:+ b) +:+ c = a +:+ (b +:+ c).
Proof.
  induction a as [|x a IH]; [done|].
  change (String x ((a +:+ b) +:+ c) = String x (a +:+ b +:+ c)). by rewrite IH.
Qed.

Lemma append_nil_r (a : string) : a +:+ "" = a.
Proof.
  induction a as [|x a IH]; [done|].
  change (String x (a +:+ "") = String x a). by rewrite IH.
Qed.

Lemma concat_nosep_cons (x : string) (l : list string) :
  String.concat "" (x :: l) = x +:+ String.concat "" l.
Proof. destruct l; [by rewrite append_nil_r | done]. Qed.

Section EndpointObjects.

Context {Q R : Type}.

(** X19: [listProgress] extends the namespace of the object it is called
    on, and the extension stays.  After [n] calls on one object the
    namespace ends in [n] copies of ".listProgress", so that the next call
    without a job id asks for a procedure with [n + 1] of them. *)
Theorem listProgress_accumulates (run_query : string → gmap string value → Q → R * Q)
    (job_ids : list (option string)) (self : SystemEndpoints.t) (q : Q) :
  let after := SystemEndpoints.listProgress_all run_query job_ids self q in
  let suffix := String.concat "" (replicate (length job_ids) ".listProgress") in
  SystemEndpoints._namespace (fst after) = SystemEndpoints._namespace self +:+ suffix
  ∧ fst (fst (SystemEndpoints.listProgress run_query None (fst after) (snd after)))
    = fst (run_query ("CALL " +:+ SystemEndpoints._namespace self +:+ suffix
                      +:+ ".listProgress" +:+ "()") ∅ (snd after)).
Proof.
  cbv zeta.
  assert (SystemEndpoints._namespace
            (fst (SystemEndpoints.listProgress_all run_query job_ids self q))
          = SystemEndpoints._namespace self
            +:+ String.concat "" (replicate (length job_ids) ".listProgress")) as Hns.
  { revert self q. induction job_ids as [|j js IH]; intros self q.
    - simpl. by rewrite append_nil_r.
    - cbn [SystemEndpoints.listProgress_all length replicate].
      unfold SystemEndpoints.listProgress at 1.
      destruct (run_query _ _ q) as [r q']. cbv beta iota. rewrite IH.
      cbn [SystemEndpoints._namespace]. by rewrite append_assoc, concat_nosep_cons. }
  split; [done|].
  unfold SystemEndpoints.listProgress. rewrite Hns. cbn [fst snd].
  rewrite !append_assoc. by destruct (run_query _ _ _).
Qed.

(** X20: the job id decides the query.  A job id that is not empty is
    passed as the parameter [job_id] of a query that names it; an empty
    job id is treated like none at all. *)
Theorem listProgress_job_id (run_query : string → gmap string value → Q → R * Q)
    (self : SystemEndpoints.t) (q : Q) :
  (∀ j, j ≠ "" →
        fst (fst (SystemEndpoints.listProgress run_query (Some j) self q))
        = fst (run_query ("CALL " +:+ (SystemEndpoints._namespace self +:+ ".listProgress")
                          +:+ "($job_id)")
                 {[ "job_id" := VStr j ]} q))
  ∧ fst (fst (SystemEndpoints.listProgress run_query None self q))
    = fst (run_query ("CALL " +:+ (SystemEndpoints._namespace self +:+ ".listProgress")
                      +:+ "()") ∅ q)
  ∧ SystemEndpoints.listProgress run_query (Some "") self q
    = SystemEndpoints.listProgress run_query None self q.
Proof.
  split; [|split].
  - intros j Hj. unfold SystemEndpoints.listProgress.
    destruct (String.eqb_spec j ""); [done|]. cbn [negb fst snd].
    by destruct (run_query _ _ q).
  - unfold SystemEndpoints.listProgress. cbn [fst snd]. by destruct (run_query _ _ q).
  - reflexivity.
Qed.

(** X21: [create] extends the namespace before it calls the procedure,
    so the extension is there whether the call returns or raises: a second
    [create] on the same runner, a retry after a failure included, calls
    the procedure under ".create.create". *)
Theorem create_twice
    (call_procedure : string → string → gmap string value → Q → (exn + DataFrame) * Q)
    (name1 name2 : string) (self : PipelineCreateRunner.t) (q : Q) :
  let first := PipelineCreateRunner.create call_procedure name1 self q in
  let second := PipelineCreateRunner.create call_procedure name2 (snd (fst first)) (snd first) in
  PipelineCreateRunner._namespace (snd (fst first))
  = PipelineCreateRunner._namespace self +:+ ".create"
  ∧ snd first
    = snd (call_procedure (PipelineCreateRunner._namespace self +:+ ".create") "$name"
             {[ "name" := VStr name1 ]} q)
  ∧ snd second
    = snd (call_procedure (PipelineCreateRunner._namespace self +:+ ".create.create")
             "$name" {[ "name" := VStr name2 ]} (snd first))
  ∧ PipelineCreateRunner._namespace (snd (fst second))
    = PipelineCreateRunner._namespace self +:+ ".create.create".
Proof.
  cbv zeta.
  assert (∀ name s q0,
            PipelineCreateRunner._namespace
              (snd (fst (PipelineCreateRunner.create call_procedure name s q0)))
            = PipelineCreateRunner._namespace s +:+ ".create"
            ∧ snd (PipelineCreateRunner.create call_procedure name s q0)
              = snd (call_procedure (PipelineCreateRunner._namespace s +:+ ".create")
                       "$name" {[ "name" := VStr name ]} q0)) as Hcreate.
  { intros name s q0. unfold PipelineCreateRunner.create.
    by destruct (call_procedure _ _ _ q0) as [[e|df] q']. }
  destruct (Hcreate name1 self q) as [Hns1 Hq1].
  destruct (Hcreate name2
              (snd (fst (PipelineCreateRunner.create call_procedure name1 self q)))
              (snd (PipelineCreateRunner.create call_procedure name1 self q)))
    as [Hns2 Hq2].
  rewrite Hns1, append_assoc in Hns2, Hq2. by rewrite Hns1, Hq1 in *.
Qed.

(** X22: reading [csv] and calling [estimate] both extend the namespace
    of the runner they are used on, for good.  After [csv] has been read,
    an export through the runner itself goes to the ".csv" procedure, and
    after [estimate] has been called on a CSV runner, its plain export
    goes to the ".estimate" procedure. *)
Theorem export_namespace_sticks
    (call_procedure : string → string → gmap string GraphExport.arg → Q
                      → (exn + DataFrame) * Q)
    (G : string) (config config' : gmap string value) (self : GraphExport.t) (q : Q) :
  snd (GraphExport.export call_procedure G config (snd (GraphExport.csv self)) q)
  = snd (call_procedure (GraphExport._namespace self +:+ ".csv") "$graph_name, $config"
           {[ "graph_name" := GraphExport.AStr G; "config" := GraphExport.AMap config ]} q)
  ∧ GraphExport._namespace (fst (GraphExport.csv (snd (GraphExport.csv self))))
    = GraphExport._namespace self +:+ ".csv.csv"
  ∧ (let '(_, self', q') := GraphExport.estimate call_procedure G config self q in
     snd (GraphExport.export call_procedure G config' self' q')
     = snd (call_procedure (GraphExport._namespace self +:+ ".estimate")
              "$graph_name, $config"
              {[ "graph_name" := GraphExport.AStr G; "config" := GraphExport.AMap config' ]}
              q')).
Proof.
  assert (∀ cfg s q0,
            snd (GraphExport.export call_procedure G cfg s q0)
            = snd (call_procedure (GraphExport._namespace s) "$graph_name, $config"
                     {[ "graph_name" := GraphExport.AStr G;
                        "config" := GraphExport.AMap cfg ]} q0)) as Hexport.
  { intros cfg s q0. unfold GraphExport.export, GraphExport._export_call.
    by destruct (call_procedure _ _ _ q0) as [[e|df] q']. }
  split; [apply Hexport|]. split.
  - simpl. by rewrite append_assoc.
  - unfold GraphExport.estimate.
    destruct (GraphExport._export_call _ _ _ _ _) as [r q']. apply Hexport.
Qed.

End EndpointObjects.

(** ** The further theorems at work *)

Lemma handshake_refused_witness :
  fst (Scripted.call_endpoint Scripted.self (Examples.projection (Some 1%positive))
         (Examples.world_with Scripted.bare_store [] [inl (Raised "refused")]))
  = inl (Raised "refused").
Proof.
  refine (f_equal fst
            (proj1 (handshake_refused PyStr.int (λ _ _, Scripted.answer) (λ _ _, Scripted.answer)
                      Scripted.handshake Scripted.self
                      (Examples.projection (Some 1%positive))
                      (Examples.world_with Scripted.bare_store [] [inl (Raised "refused")])
                      (Examples.world_with Scripted.bare_store [] [inl (Raised "refused")])
                      (Raised "refused") (Scripted.server []) _ _))); reflexivity.
Defined.

Lemma handshake_without_authorization_witness :
  fst (Scripted.call_endpoint Scripted.self (Examples.projection (Some 1%positive))
         (Examples.world_with Scripted.bare_store [] [inr ∅]))
  = inl (AttributeError "_token")
  ∧ forwards (trace (snd (Scripted.call_endpoint Scripted.self
                            (Examples.projection (Some 1%positive))
                            (Examples.world_with Scripted.bare_store [] [inr ∅]))))
    = O.
Proof.
  destruct (handshake_without_authorization PyStr.int
              (λ _ _, Scripted.answer) (λ _ _, Scripted.answer)
              Scripted.handshake Scripted.self
              (Examples.projection (Some 1%positive))
              (Examples.world_with Scripted.bare_store [] [inr ∅])
              (Examples.world_with Scripted.bare_store [] [inr ∅])
              ∅ (Scripted.server [])
              (ValueError "Incompatible header format '{}'"))
    as (_ & Hnone & _); [reflexivity..|].
  destruct Hnone as (Hraise & _ & _ & Hforwards); [reflexivity|].
  split; [exact Hraise | exact Hforwards].
Defined.

Lemma handshake_without_bearer_witness :
  fst (Scripted.call_endpoint Scripted.self (Examples.projection (Some 1%positive))
         (Examples.world_with Scripted.bare_store [] [inr (Scripted.basic "xyz" "h:1")]))
  = inl (AttributeError "_token").
Proof.
  refine (proj1 (handshake_without_bearer PyStr.int (λ _ _, Scripted.answer)
                   (λ _ _, Scripted.answer) Scripted.handshake Scripted.self
                   (Examples.projection (Some 1%positive))
                   (Examples.world_with Scripted.bare_store []
                      [inr (Scripted.basic "xyz" "h:1")])
                   (Examples.world_with Scripted.bare_store []
                      [inr (Scripted.basic "xyz" "h:1")])
                   (Scripted.basic "xyz" "h:1") (Scripted.server [])
                   "Basic xyz" "Basic" "xyz" "h:1" _ _ _ _ _ _ _ _));
    try reflexivity.
  discriminate.
Defined.

Lemma lookup_not_a_single_value_witness :
  fst (Scripted.call_endpoint Scripted.self (Examples.write (Some 1%positive))
         (Examples.world_with Scripted.caller_store
            [inr {| df_columns := ["databaseLocation"]; df_rows := [] |}] []))
  = inl (ValueError "The truth value of a Series is ambiguous").
Proof.
  refine (f_equal fst
            (proj1 (lookup_not_a_single_value PyStr.int (λ _ _, Scripted.answer)
                      (λ _ _, Scripted.answer) Scripted.handshake Scripted.self
                      (Examples.write (Some 1%positive))
                      (Examples.world_with Scripted.caller_store
                         [inr {| df_columns := ["databaseLocation"]; df_rows := [] |}] [])
                      1%positive (VStr "g")
                      {| df_columns := ["databaseLocation"]; df_rows := [] |} []
                      _ _ _ _ _))); try reflexivity.
  left. simpl. lia.
Defined.

Lemma lookup_raises_witness :
  fst (Scripted.call_endpoint Scripted.self (Examples.write (Some 1%positive))
         (Examples.world_with Scripted.caller_store [inl (Raised "no such procedure")] []))
  = inl (Raised "no such procedure").
Proof.
  refine (f_equal fst
            (proj1 (lookup_raises PyStr.int (λ _ _, Scripted.answer) (λ _ _, Scripted.answer)
                      Scripted.handshake Scripted.self (Examples.write (Some 1%positive))
                      (Examples.world_with Scripted.caller_store
                         [inl (Raised "no such procedure")] [])
                      1%positive (VStr "g") (Raised "no such procedure") []
                      _ _ _ _))); reflexivity.
Defined.

Lemma write_with_malformed_address_witness :
  ∃ msg,
    Scripted.call_endpoint Scripted.self (Examples.write (Some 1%positive))
      (Examples.world_with Scripted.caller_store [inr (Scripted.location_frame "remote")]
         [inr (Scripted.bearer "T" "[::1]:8491")])
    = (inl (ValueError msg),
       after_handshake Scripted.self "T" "[::1]:8491" (Scripted.server [])
         (looked_up (VStr "g") []
            (Examples.world_with Scripted.caller_store
               [inr (Scripted.location_frame "remote")]
               [inr (Scripted.bearer "T" "[::1]:8491")]))).
Proof.
  refine (write_with_malformed_address PyStr.int (λ _ _, Scripted.answer) (λ _ _, Scripted.answer)
            Scripted.handshake Scripted.self (Examples.write (Some 1%positive))
            (Examples.world_with Scripted.caller_store
               [inr (Scripted.location_frame "remote")]
               [inr (Scripted.bearer "T" "[::1]:8491")])
            1%positive (VStr "g") (Scripted.location_frame "remote") []
            (Scripted.bearer "T" "[::1]:8491") (Scripted.server []) "T" "[::1]:8491"
            _ _ _ _ _ _ _ _ _); try reflexivity.
  left. simpl. lia.
Defined.

Lemma write_with_config_not_a_dict_witness :
  ∃ msg,
    fst (Scripted.call_endpoint Scripted.self (Examples.write (Some 1%positive))
           (Examples.world_with Examples.flat_store
              [inr (Scripted.location_frame "remote")]
              [inr (Scripted.bearer "T" "h2:5")]))
    = inl (TypeError msg).
Proof.
  refine (proj1 (write_with_config_not_a_dict PyStr.int (λ _ _, Scripted.answer)
                   (λ _ _, Scripted.answer) Scripted.handshake Scripted.self
                   (Examples.write (Some 1%positive))
                   (Examples.world_with Examples.flat_store
                      [inr (Scripted.location_frame "remote")]
                      [inr (Scripted.bearer "T" "h2:5")])
                   1%positive (VStr "g") (Scripted.location_frame "remote") []
                   (Scripted.bearer "T" "h2:5") (Scripted.server []) "T" "h2" "5" 5
                   (VStr "none") _ _ _ _ _ _ _ _ _ _ _ _ _)); try reflexivity.
  discriminate.
Defined.

Lemma projection_without_params_witness :
  ∃ p config σ',
    (p ∉ dom Scripted.caller_store)
    ∧ last (trace (snd (Scripted.call_endpoint Scripted.self (Examples.projection None)
                          (Examples.world_with Scripted.caller_store []
                             [inr (Scripted.bearer "T" "h2:5")]))))
      = Some (Forward (with_params (Examples.projection None) p) σ')
    ∧ contents σ' p
      = <["config" := VDict config]> (<["host" := VStr "h2:5"]> (<["token" := VStr "T"]> ∅)).
Proof.
  destruct (projection_without_params PyStr.int (λ _ _, Scripted.answer) (λ _ _, Scripted.answer)
              Scripted.handshake Scripted.self (Examples.projection None)
              (Examples.world_with Scripted.caller_store []
                 [inr (Scripted.bearer "T" "h2:5")])
              (Scripted.bearer "T" "h2:5") (Scripted.server []) "T" "h2:5"
              eq_refl eq_refl eq_refl eq_refl eq_refl)
    as (p & config & σ' & Hp & Hlast & _ & Hparams & _).
  exists p, config, σ'. auto.
Defined.

Lemma call_endpoint_frame_witness :
  heap (snd (Scripted.call_endpoint Scripted.self (Examples.projection (Some 2%positive))
               (Examples.world_with Scripted.caller_store []
                  [inr (Scripted.bearer "T" "h2:5")]))) !! 1%positive
  = Scripted.caller_store !! 1%positive.
Proof.
  refine (call_endpoint_frame PyStr.int (λ _ _, Scripted.answer) (λ _ _, Scripted.answer)
            Scripted.handshake Scripted.self (Examples.projection (Some 2%positive))
            (Examples.world_with Scripted.caller_store []
               [inr (Scripted.bearer "T" "h2:5")])
            1%positive _ _ _).
  - reflexivity.
  - discriminate.
  - intros p [= <-]. discriminate.
Defined.

Lemma no_lookup_unless_write_witness :
  lookups (trace (snd (Scripted.call_endpoint Scripted.self
                         (Scripted.request "gds.pageRank.stream" (Some 1%positive))
                         (Examples.world_with Scripted.caller_store [] []))))
  = O.
Proof.
  refine (no_lookup_unless_write PyStr.int (λ _ _, Scripted.answer) (λ _ _, Scripted.answer)
            Scripted.handshake Scripted.self
            (Scripted.request "gds.pageRank.stream" (Some 1%positive))
            (Examples.world_with Scripted.caller_store [] []) _).
  intros a Ha.
  assert (PyStr.endswith "gds.pageRank.stream" ".write" = true) as Hends
    by (apply endswith_iff; eauto).
  discriminate Hends.
Defined.

Lemma received_headers_refused_authorization_witness :
  ∃ msg,
    received_headers {[ "authorization" := HStr "Bearer" ]}
      {| _token := Some "old"; _arrow_address := Some "h:1" |}
    = (inl (ValueError msg), {| _token := Some "old"; _arrow_address := Some "h:1" |}).
Proof.
  refine (proj2 (proj2 (proj2 (proj2 (received_headers_refused_authorization
                                        {[ "authorization" := HStr "Bearer" ]}
                                        {| _token := Some "old";
                                           _arrow_address := Some "h:1" |}))))
            "Bearer" _ _); reflexivity.
Defined.

Lemma received_headers_token_before_address_witness :
  ∃ msg,
    received_headers {[ "authorization" := HStr "Bearer new" ]}
      {| _token := Some "old"; _arrow_address := Some "h:1" |}
    = (inl (ValueError msg), {| _token := Some "new"; _arrow_address := Some "h:1" |}).
Proof.
  refine (proj1 (proj2 (received_headers_token_before_address
                          {[ "authorization" := HStr "Bearer new" ]}
                          {| _token := Some "old"; _arrow_address := Some "h:1" |}
                          "new" _)) _); reflexivity.
Defined.

Lemma token_and_address_from_different_responses_witness :
  received_headers (Scripted.basic "xyz" "h:2")
    (snd (received_headers (Scripted.bearer "T1" "h:1") fresh_middleware))
  = (inr tt, {| _token := Some "T1"; _arrow_address := Some "h:2" |}).
Proof.
  refine (token_and_address_from_different_responses
            (Scripted.bearer "T1" "h:1") (Scripted.basic "xyz" "h:2") fresh_middleware
            "T1" "h:1" "Basic xyz" "Basic" "xyz" "h:2" _ _ _ _ _ _ _);
    try reflexivity.
  discriminate.
Defined.

Lemma init_goes_by_truth_values_witness :
  Scripted.__init__ {| uri := "neo4j+s://db"; auth := ("neo4j", "secret") |}
    {| arrow_status :=
         inr (Scripted.row [("running", VInt 0); ("advertisedListenAddress", VStr "h:1")]);
       encrypted := true |} ∅
  = inl (RuntimeError "The Arrow Server is not running at `neo4j+s://db`").
Proof.
  refine (proj1 (init_goes_by_truth_values (EndpointType := Scripted.EndpointType)
                   PyStr.int Scripted.for_grpc_tls Scripted.for_grpc_tcp
                   (λ _, inr Scripted.silent) []
                   {| uri := "neo4j+s://db"; auth := ("neo4j", "secret") |}
                   {| arrow_status :=
                        inr (Scripted.row [("running", VInt 0);
                                           ("advertisedListenAddress", VStr "h:1")]);
                      encrypted := true |}
                   ∅ _ [VInt 0; VStr "h:1"] (VInt 0) eq_refl eq_refl _ eq_refl) _).
  - simpl. lia.
  - repeat constructor.
Defined.

Lemma init_passes_failures_on_witness :
  Scripted.__init__ {| uri := "neo4j+s://db"; auth := ("neo4j", "secret") |}
    {| arrow_status := inr (Scripted.status true (Some "h:65536")); encrypted := true |} ∅
  = inl (Raised "ArrowInvalid")
  ∧ __init__ (EndpointType := Scripted.EndpointType) (F := Scripted.F) PyStr.int
      Scripted.for_grpc_tls Scripted.for_grpc_tcp
      (λ _, inl (Raised "unreachable")) ([] : Scripted.D)
      {| uri := "neo4j+s://db"; auth := ("neo4j", "secret") |}
      {| arrow_status := inr (Scripted.status true (Some "h:1234")); encrypted := false |} ∅
    = inl (Raised "unreachable").
Proof.
  split.
  - refine (proj1 (proj2 (init_passes_failures_on (EndpointType := Scripted.EndpointType)
                            PyStr.int Scripted.for_grpc_tls Scripted.for_grpc_tcp
                            (λ _, inr Scripted.silent) ([] : Scripted.D)
                            {| uri := "neo4j+s://db"; auth := ("neo4j", "secret") |}
                            {| arrow_status := inr (Scripted.status true (Some "h:65536"));
                               encrypted := true |} ∅)
                     (Scripted.status true (Some "h:65536")) (VBool true) "h" "65536" 65536
                     _ _ _ _ _ _ _) (Raised "ArrowInvalid") _); reflexivity.
  - refine (proj2 (proj2 (init_passes_failures_on (EndpointType := Scripted.EndpointType)
                            (F := Scripted.F) PyStr.int
                            Scripted.for_grpc_tls Scripted.for_grpc_tcp
                            (λ _, inl (Raised "unreachable")) ([] : Scripted.D)
                            {| uri := "neo4j+s://db"; auth := ("neo4j", "secret") |}
                            {| arrow_status := inr (Scripted.status true (Some "h:1234"));
                               encrypted := false |} ∅)
                     (Scripted.status true (Some "h:1234")) (VBool true) "h" "1234" 1234
                     _ _ _ _ _ _ _) (Scripted.grpc_tcp "h" 1234) (Raised "unreachable") _ _);
      reflexivity.
Defined.

Lemma first_call_after_init_witness :
  ∃ rest,
    trace (snd (Scripted.call_endpoint
                  {| _auth := ("neo4j", "secret"); _encrypted := true |}
                  (Examples.projection None) (Scripted.start ∅ [] Scripted.silent)))
    = Handshake "neo4j" "secret" :: rest.
Proof.
  refine (proj1 (proj2 (first_call_after_init PyStr.int
                          Scripted.for_grpc_tls Scripted.for_grpc_tcp
                          (λ _, inr Scripted.silent)
                          (λ _ _, Scripted.answer) (λ _ _, Scripted.answer)
                          Scripted.handshake []
                          {| uri := "neo4j+s://db"; auth := ("neo4j", "secret") |}
                          {| arrow_status := inr (Scripted.status true (Some "h:1234"));
                             encrypted := true |} ∅
                          {| _auth := ("neo4j", "secret"); _encrypted := true |}
                          (Scripted.start ∅ [] Scripted.silent)
                          (Examples.projection None) _ _))); reflexivity.
Defined.

Lemma listProgress_job_id_witness :
  snd (SystemEndpoints.listProgress Examples.recorder (Some "myJobId")
         {| SystemEndpoints._namespace := "gds.beta" |} [])
  = [("CALL gds.beta.listProgress($job_id)", {[ "job_id" := VStr "myJobId" ]})]
  ∧ fst (fst (SystemEndpoints.listProgress Examples.recorder (Some "myJobId")
                {| SystemEndpoints._namespace := "gds.beta" |} []))
    = tt.
Proof.
  split; [reflexivity|].
  refine (proj1 (listProgress_job_id Examples.recorder
                   {| SystemEndpoints._namespace := "gds.beta" |} []) "myJobId" _).
  discriminate.
Defined.
